(** * Folio test runner: command line, JUnit reporter, service reporter
      and the worker-side hook pipeline.

    The development embeds the TypeScript sources shallowly:
    - [Js]       strings as lists of UTF-16 code units, [parseInt], [split],
                 [replace] with a string pattern, [substring], [indexOf];
    - [Cli]      [runTests] of [src/cli.ts]: the shard selector and the
                 exit code;
    - [Regex]    a backtracking matcher for the regular expressions of the
                 JUnit reporter, and global replacement;
    - [JUnit]    [src/reporters/junit.ts]: [escape], [serializeXML],
                 [_addTestCase], [_buildTestSuite], [onEnd];
    - [Service]  [src/reporters/service.ts]: the token request with its
                 callback, the folder of a test, the uploads of
                 [onTestEnd], [_getTestResultBlobs];
    - [Worker]   the worker-side executor (hooks, timer, status) and the
                 dispatcher's crash recovery, which are not under src/ and
                 are modelled from the specification;
    - [CliFiles] and [CliOptions]  the rest of [src/cli.ts]: the comparator
                 of [collectFiles], [filterFiles], and the options that
                 [runTests] copies into the configuration;
    - [JUnitShape]  measures of a report, to state its shape;
    - [JUnitRead]   a reader of the opening tags of a report, to state what
                 the text written contains;
    - [ServiceEnd]  the rest of [src/reporters/service.ts]:
                 [getAllFilesFromFolder] and [onEnd] with the methods it
                 calls.

    The second half states and proves the properties, module by module. *)

From Stdlib Require Import Ascii String.
From Stdlib Require Import List ZArith NArith Lia Bool.
Import ListNotations.

#[local] Set Warnings "-register-all".

(* ===================================================================== *)
(** ** JavaScript values used by the sources *)
(* ===================================================================== *)

Module Js.

(** A JavaScript string is a sequence of 16-bit code units. *)
Definition jsstring := list N.

(** Literal strings of the sources, written with Rocq string literals. *)
Definition u (s : string) : jsstring :=
  map N_of_ascii (list_ascii_of_string s).

Fixpoint str_eqb (a b : jsstring) : bool :=
  match a, b with
  | [], [] => true
  | x :: a', y :: b' => N.eqb x y && str_eqb a' b'
  | _, _ => false
  end.

(** The values that the embedded code passes around. *)
Inductive jsval :=
| VUndefined
| VNaN
| VNum (z : Z)
| VStr (s : jsstring).

(** Truthiness of a command-line option: [undefined] or a string. *)
Definition truthy (v : jsval) : bool :=
  match v with
  | VUndefined => false
  | VNaN => false
  | VNum z => negb (Z.eqb z 0)
  | VStr s => match s with [] => false | _ => true end
  end.

(** [s.split(sep)] for a one-unit separator: the pieces between
    occurrences of [sep]; the empty string gives one empty piece. *)
Fixpoint split_on (sep : N) (s : jsstring) : list jsstring :=
  match s with
  | [] => [[]]
  | c :: rest =>
      if N.eqb c sep then [] :: split_on sep rest
      else match split_on sep rest with
           | [] => [[c]]
           | p :: ps => (c :: p) :: ps
           end
  end.

(** White space and line terminators skipped by [parseInt]. *)
Definition is_js_space (c : N) : bool :=
  (N.leb 9 c && N.leb c 13) || N.eqb c 32 || N.eqb c 160 || N.eqb c 5760
  || (N.leb 8192 c && N.leb c 8202) || N.eqb c 8232 || N.eqb c 8233
  || N.eqb c 8239 || N.eqb c 8287 || N.eqb c 12288 || N.eqb c 65279.

Definition is_digit (c : N) : bool := N.leb 48 c && N.leb c 57.

Fixpoint skip_space (s : jsstring) : jsstring :=
  match s with
  | c :: rest => if is_js_space c then skip_space rest else s
  | [] => []
  end.

(** Longest prefix of decimal digits, accumulated left to right;
    [None] when the prefix is empty. *)
Fixpoint digits_value (acc : option Z) (s : jsstring) : option Z :=
  match s with
  | c :: rest =>
      if is_digit c
      then digits_value
             (Some (10 * match acc with Some a => a | None => 0 end
                    + (Z.of_N c - 48))%Z) rest
      else acc
  | [] => acc
  end.

(** A leading [-] or [+]. *)
Definition read_sign (s : jsstring) : Z * jsstring :=
  match s with
  | 45%N :: r => ((-1)%Z, r)
  | 43%N :: r => (1%Z, r)
  | _ => (1%Z, s)
  end.

(** [parseInt(s, 10)]: leading white space is skipped, one sign is read,
    then the longest digit prefix; [NaN] when there is no digit.  Numbers
    are kept as exact integers, which is what a double holds below 2^53. *)
Definition parseInt10 (s : jsstring) : jsval :=
  let '(sign, s2) := read_sign (skip_space s) in
  match digits_value None s2 with
  | Some v => VNum (sign * v)
  | None => VNaN
  end.

(** [a - 1] on the values [parseInt] returns. *)
Definition minus_one (v : jsval) : jsval :=
  match v with
  | VNum z => VNum (z - 1)
  | _ => VNaN
  end.

(** [a % b] for numbers: [NaN] when the divisor is zero or either side is
    not a number, otherwise the remainder with the sign of the dividend. *)
Definition js_rem (a b : jsval) : jsval :=
  match a, b with
  | VNum x, VNum y => if Z.eqb y 0 then VNaN else VNum (Z.rem x y)
  | _, _ => VNaN
  end.

(** [a == b] on numbers: [NaN] equals nothing. *)
Definition js_num_eq (a b : jsval) : bool :=
  match a, b with
  | VNum x, VNum y => Z.eqb x y
  | _, _ => false
  end.

(** [arr[i]]; out of range gives [undefined]. *)
Definition index (l : list jsval) (i : nat) : jsval :=
  nth i l VUndefined.

(** [s.replace(pat, by)] with a string pattern of one code unit: only the
    first occurrence is replaced. *)
Fixpoint replace_first (pat : N) (by_ : jsstring) (s : jsstring) : jsstring :=
  match s with
  | [] => []
  | c :: rest =>
      if N.eqb c pat then by_ ++ rest else c :: replace_first pat by_ rest
  end.

(** Replacement of every occurrence, the behaviour of a global pattern. *)
Fixpoint replace_every (pat : N) (by_ : jsstring) (s : jsstring) : jsstring :=
  match s with
  | [] => []
  | c :: rest =>
      if N.eqb c pat then by_ ++ replace_every pat by_ rest
      else c :: replace_every pat by_ rest
  end.

(** [s.substring(0, n)]: a negative end counts as 0, an end past the
    length as the length. *)
Definition substring0 (n : Z) (s : jsstring) : jsstring :=
  firstn (Z.to_nat n) s.

(** [s] starts with [p]. *)
Fixpoint prefixb (p s : jsstring) : bool :=
  match p, s with
  | [], _ => true
  | x :: p', y :: s' => N.eqb x y && prefixb p' s'
  | _ :: _, [] => false
  end.

(** [s.split(sep)] for a non-empty separator string.  [skip] counts the
    units of a separator just found that are still to be passed over,
    [cur] holds the current piece in reverse. *)
Fixpoint split_go (sep : jsstring) (skip : nat) (cur : jsstring)
  (s : jsstring) : list jsstring :=
  match s with
  | [] => [rev cur]
  | c :: rest =>
      match skip with
      | S k => split_go sep k cur rest
      | O =>
          if prefixb sep s
          then rev cur :: split_go sep (length sep - 1) [] rest
          else split_go sep 0 (c :: cur) rest
      end
  end.

Definition split (sep s : jsstring) : list jsstring := split_go sep 0 [] s.

(** [s.indexOf(pat)]: the first position where [pat] starts, or -1. *)
Fixpoint indexOf_from (pat : jsstring) (i : Z) (s : jsstring) : Z :=
  if prefixb pat s then i
  else match s with
       | [] => (-1)%Z
       | _ :: rest => indexOf_from pat (i + 1) rest
       end.

Definition indexOf (pat s : jsstring) : Z := indexOf_from pat 0 s.

(** [s.substring(n)]: a negative start counts as 0. *)
Definition substring_from (n : Z) (s : jsstring) : jsstring :=
  skipn (Z.to_nat n) s.

(** [path.relative(from, to)] when [to] lies inside the directory [from]:
    what follows [from] and the separator. *)
Definition relativeInside (from to : jsstring) : jsstring :=
  skipn (S (length from)) to.

(** [path.basename(p)]: what follows the last separator. *)
Definition basenameOf (p : jsstring) : jsstring :=
  last (split_on 47 p) [].

(** Template-literal conversion of a value to a string. *)
Definition template (v : jsval) (show_num : Z -> jsstring) : jsstring :=
  match v with
  | VUndefined => u "undefined"
  | VNaN => u "NaN"
  | VNum z => show_num z
  | VStr s => s
  end.

(** Decimal digits of a natural number, most significant first. *)
Fixpoint digits_fuel (fuel : nat) (n : N) (acc : jsstring) : jsstring :=
  match fuel with
  | O => acc
  | S f =>
      let acc' := (48 + n mod 10)%N :: acc in
      if N.eqb (n / 10) 0 then acc' else digits_fuel f (n / 10) acc'
  end.

Definition decimal (n : N) : jsstring :=
  digits_fuel (S (N.to_nat (N.log2 n))) n [].

(** The value of a digit string read left to right from [a]. *)
Definition value_from (a : Z) (ds : jsstring) : Z :=
  fold_left (fun acc d => (10 * acc + (Z.of_N d - 48))%Z) ds a.

End Js.
Import Js.

(* ===================================================================== *)
(** ** src/cli.ts *)
(* ===================================================================== *)

Module Cli.

Record Shard := { current : jsval; total : jsval }.

(** The options of the parsed command line that [runTests] reads for the
    shard and for its exit. *)
Record Command := {
  cmd_shard : jsval;      (* command.shard: undefined or the string given *)
  cmd_list : bool;        (* command.list *)
}.

(** What [runTests] observes of its environment. *)
Record World := {
  reportersResolve : bool;   (* every name of --reporter can be constructed *)
  testDir : jsstring;        (* path.resolve(process.cwd(), args[0] || '.') *)
  existsSync : bool;         (* fs.existsSync(testDir) *)
  isDirectory : bool;        (* fs.statSync(testDir).isDirectory() *)
  runResult : jsstring;      (* the value runner.run() resolves to *)
}.

(** How an invocation ends. *)
Inductive Completion :=
| Exited (code : Z)          (* process.exit(code) *)
| Returned                   (* the function returns, no exit call *)
| Threw (msg : jsstring).    (* an Error is thrown *)

(** Lines 62-66: the shard selector. *)
Definition parseShard (cmd : Command) : option Shard :=
  if truthy (cmd_shard cmd) then
    match cmd_shard cmd with
    | VStr s =>
        let pair := map parseInt10 (split_on 47 s) in
        Some {| current := minus_one (index pair 0); total := index pair 1 |}
    | _ => None
    end
  else None.

(** Lines 131-147: the exit code chosen from the runner's result. *)
Definition exitCodeOf (result : jsstring) : Z :=
  if str_eqb result (u "sigint") then 130
  else if str_eqb result (u "forbid-only") then 1
  else if str_eqb result (u "no-tests") then 1
  else if str_eqb result (u "failed") then 1 else 0.

(** The shared [config], with the two fields that matter here; the other
    options of the command line are copied into it in the same way. *)
Record Config := {
  c_testDir : jsval;
  c_shard : option Shard;
}.

(** [runTests]: the configuration it leaves and how it ends.  The
    configuration starts as [defaultConfig]; the options of the command
    line are copied into it once the files are loaded. *)
Definition runTests (defaultConfig : Config) (cmd : Command) (w : World)
  : Config * Completion :=
  let config := defaultConfig in
  let shard := parseShard cmd in
  if negb (reportersResolve w) then (config, Exited 1)
  else if negb (existsSync w)
  then (config, Threw (testDir w ++ u " does not exist"))
  else if negb (isDirectory w)
  then (config, Threw (testDir w ++ u " is not a directory"))
  else
    let config :=
      {| c_testDir := VStr (testDir w);
         c_shard := match shard with
                    | Some sh => Some sh
                    | None => c_shard config
                    end |} in
    if cmd_list cmd then (config, Returned)
    else (config, Exited (exitCodeOf (runResult w))).

(** The action registered on the program: an exception of [runTests] is
    logged and the process exits with 1. *)
Definition action (defaultConfig : Config) (cmd : Command) (w : World)
  : Completion :=
  match snd (runTests defaultConfig cmd w) with
  | Threw _ => Exited 1
  | c => c
  end.

(** [runTests] got as far as copying the options into the configuration. *)
Definition loads (w : World) : bool :=
  reportersResolve w && existsSync w && isDirectory w.

(** [runTests] got as far as awaiting [runner.run()]. *)
Definition reachesRun (cmd : Command) (w : World) : bool :=
  loads w && negb (cmd_list cmd).

(** Modelled from the spec: the shard filter of the test generator
    (runner.generateTests, not under src/).  "If shard = (current, total)
    is set, keep only Tests whose global index satisfies
    index % total == current". *)
Fixpoint shardFilterFrom {A} (sh : Shard) (i : nat) (tests : list A) : list A :=
  match tests with
  | [] => []
  | t :: rest =>
      if js_num_eq (js_rem (VNum (Z.of_nat i)) (total sh)) (current sh)
      then t :: shardFilterFrom sh (S i) rest
      else shardFilterFrom sh (S i) rest
  end.

Definition shardFilter {A} (sh : option Shard) (tests : list A) : list A :=
  match sh with
  | Some s => shardFilterFrom s 0 tests
  | None => tests
  end.

End Cli.

(* ===================================================================== *)
(** ** Regular expressions of the reporters *)
(* ===================================================================== *)

Module Regex.

(** The fragment of the regular expression syntax that the sources use.
    There are no capture groups in them. *)
Inductive re :=
| Eps
| Class (p : N -> bool)      (* a character class or a single character *)
| Seq (a b : re)
| Alt (a b : re)             (* a|b, tried in this order *)
| Star (a : re)              (* a*, greedy *)
| Opt (a : re).              (* a?, greedy *)

(** Backtracking matcher in continuation style: [matchk r s k] matches a
    prefix of [s] against [r] and hands the rest to [k]; alternatives are
    tried in the order of the language definition.  As there, an iteration
    of a quantifier with minimum 0 that consumes nothing is rejected. *)
Fixpoint matchk (r : re) (s : jsstring) (k : jsstring -> option jsstring)
  : option jsstring :=
  match r with
  | Eps => k s
  | Class p =>
      match s with
      | c :: rest => if p c then k rest else None
      | [] => None
      end
  | Seq a b => matchk a s (fun s' => matchk b s' k)
  | Alt a b =>
      match matchk a s k with
      | Some x => Some x
      | None => matchk b s k
      end
  | Opt a =>
      match matchk a s (fun s' =>
              if Nat.ltb (List.length s') (List.length s) then k s'
              else None) with
      | Some x => Some x
      | None => k s
      end
  | Star a =>
      (fix loop (fuel : nat) (s : jsstring) : option jsstring :=
         match fuel with
         | O => k s
         | S f =>
             match matchk a s (fun s' =>
                     if Nat.ltb (List.length s') (List.length s)
                     then loop f s'
                     else None) with
             | Some x => Some x
             | None => k s
             end
         end) (List.length s) s
  end.

(** The rest of [s] after the match of [r] at its start, if any. *)
Definition match_at (r : re) (s : jsstring) : option jsstring :=
  matchk r s (fun s' => Some s').

(** [a{n}] and [a{min,max}], greedy. *)
Fixpoint upto (n : nat) (a : re) : re :=
  match n with
  | O => Eps
  | S n' => Opt (Seq a (upto n' a))
  end.

Fixpoint times (n : nat) (a : re) : re :=
  match n with
  | O => Eps
  | S n' => Seq a (times n' a)
  end.

Definition between (lo hi : nat) (a : re) : re :=
  Seq (times lo a) (upto (hi - lo) a).

(** [s.replace(r, f)] for a global [r]: matches are searched left to
    right, each is replaced by [f] of the matched text, the search goes on
    after the match; after an empty match it moves one unit forward. *)
Fixpoint replace_fuel (r : re) (f : jsstring -> jsstring) (fuel : nat)
  (s : jsstring) : jsstring :=
  match s with
  | [] => match match_at r [] with
          | Some _ => f []
          | None => []
          end
  | c :: rest =>
      match fuel with
      | O => s
      | S fuel' =>
          match match_at r s with
          | Some s' =>
              if Nat.ltb (List.length s') (List.length s)
              then f (firstn (List.length s - List.length s') s)
                     ++ replace_fuel r f fuel' s'
              else f [] ++ c :: replace_fuel r f fuel' rest
          | None => c :: replace_fuel r f fuel' rest
          end
      end
  end.

Definition replace_all (r : re) (f : jsstring -> jsstring) (s : jsstring)
  : jsstring :=
  replace_fuel r f (List.length s) s.

Definition chr (c : N) : re := Class (N.eqb c).
Definition range (lo hi c : N) : bool := N.leb lo c && N.leb c hi.
Definition one_of (l : list N) (c : N) : bool := existsb (N.eqb c) l.
Definition codes (s : string) : list N := u s.

End Regex.
Import Regex.

(* ===================================================================== *)
(** ** src/reporters/junit.ts *)
(* ===================================================================== *)

Module JUnit.

(** Numbers that end up in attributes: integers, and a number of
    milliseconds divided by 1000. *)
Inductive jsnumber :=
| Int (z : Z)
| Div1000 (ms : Z).

Inductive attr :=
| AStr (s : jsstring)
| ANum (n : jsnumber).

(** [type XMLEntry]: absent optional members are [None]. *)
Inductive XMLEntry :=
| Entry (name : jsstring)
        (attributes : option (list (jsstring * attr)))
        (children : option (list XMLEntry))
        (text : option jsstring).

Definition name (e : XMLEntry) : jsstring :=
  let '(Entry n _ _ _) := e in n.
Definition attributes (e : XMLEntry) : option (list (jsstring * attr)) :=
  let '(Entry _ a _ _) := e in a.
Definition children (e : XMLEntry) : option (list XMLEntry) :=
  let '(Entry _ _ c _) := e in c.
Definition text (e : XMLEntry) : option jsstring :=
  let '(Entry _ _ _ t) := e in t.

(** What the reporter reads of a result, a spec and a test. *)
Record TestResult := {
  duration : Z;
  stdout : list jsstring;     (* chunks, each as its toString() *)
  stderr : list jsstring;
}.

Record Spec := {
  title : jsstring;
  fullTitle : jsstring;         (* spec.fullTitle() *)
  parentFullTitle : jsstring;   (* spec.parent.fullTitle() *)
  file : jsstring;
  line : Z;
  column : Z;
}.

Record Test := {
  spec : Spec;
  skipped : bool;               (* test.skipped *)
  ok : bool;                    (* test.ok() *)
  results : list TestResult;
}.

(** A suite: its file, its child suites and, for each of its specs, the
    tests of that spec. *)
Inductive Suite :=
| MkSuite (file : jsstring) (suites : list Suite) (specs : list (list Test)).

Definition suiteFile (s : Suite) : jsstring :=
  let '(MkSuite f _ _) := s in f.
Definition suites (s : Suite) : list Suite :=
  let '(MkSuite _ l _) := s in l.
Definition specs (s : Suite) : list (list Test) :=
  let '(MkSuite _ _ l) := s in l.

(** Modelled from the spec: [Suite.findTest] (src/test.ts is not under
    src/) visits every test of the suite once when the callback returns
    nothing: the tests of the child suites first, then those of the
    suite's own specs, in declaration order. *)
Fixpoint findTest (s : Suite) : list Test :=
  match s with
  | MkSuite _ subs sps => flat_map findTest subs ++ concat sps
  end.

Record FullConfig := { testDir : jsstring }.

Record Options := {
  opt_outputFile : option jsstring;
  opt_stripANSIControlSequences : option bool;
}.

(** The fields of [JUnitReporter]; [config] and [suite] are undefined
    until [onBegin]. *)
Record Reporter := {
  config : option FullConfig;
  suite : option Suite;
  timestamp : Z;
  startTime : Z;
  totalTests : Z;
  totalFailures : Z;
  totalSkipped : Z;
  outputFile : option jsstring;
  stripANSIControlSequences : bool;
}.

Definition constructor (options : Options) : Reporter :=
  {| config := None; suite := None; timestamp := 0; startTime := 0;
     totalTests := 0; totalFailures := 0; totalSkipped := 0;
     outputFile := opt_outputFile options;
     stripANSIControlSequences :=
       match opt_stripANSIControlSequences options with
       | Some b => b
       | None => false
       end |}.

(** [onBegin]; [now] is [Date.now()] and [mono] is [monotonicTime()]. *)
Definition onBegin (r : Reporter) (cfg : FullConfig) (s : Suite)
  (now mono : Z) : Reporter :=
  {| config := Some cfg; suite := Some s; timestamp := now; startTime := mono;
     totalTests := totalTests r; totalFailures := totalFailures r;
     totalSkipped := totalSkipped r; outputFile := outputFile r;
     stripANSIControlSequences := stripANSIControlSequences r |}.

(** *** Escaping *)

(** [/[\u0001-\u0008\u000b-\u000c\u000e-\u001f\u007f-\u0084\u0086-\u009f]/g] *)
Definition discouraged (c : N) : bool :=
  range 1 8 c || range 11 12 c || range 14 31 c || range 127 132 c
  || range 134 159 c.

Definition discouragedXMLCharacters : re := Class discouraged.

Definition alnum (c : N) : bool :=
  range 97 122 c || range 65 90 c || range 48 57 c.

(** [ansiControlSequence], piece by piece:
    - one of U+001B, U+009B;
    - any number of the characters [ ] ( ) # ; ?
    - then either: optionally (letters and digits, any number, followed by
      any number of groups made of a semicolon and any number of letters,
      digits and - / # & . : = ? % @ ~ _), then U+0007;
    - or: optionally (one to four digits followed by any number of groups
      made of a semicolon and zero to four digits), then one character
      among the digits, A-P, R-T, Z, c, f-n, t, q, r, y, =, >, <, ~. *)
Definition ansiControlSequence : re :=
  Seq (Class (one_of [27; 155]%N))
  (Seq (Star (Class (one_of (codes "[]()#;?"))))
       (Alt
          (Seq (Opt (Seq (Star (Class alnum))
                         (Star (Seq (chr 59)
                                    (Star (Class (fun c =>
                                       alnum c
                                       || one_of (codes "-/#&.:=?%@~_") c)))))))
               (chr 7))
          (Seq (Opt (Seq (between 1 4 (Class is_digit))
                         (Star (Seq (chr 59) (between 0 4 (Class is_digit))))))
               (Class (fun c =>
                  is_digit c || range 65 80 c || range 82 84 c
                  || one_of (codes "Zc") c || range 102 110 c
                  || one_of (codes "tqry=><~") c))))).

(** The replacement callback of [escapeRe]: a lookup in the entity table. *)
Definition entity (m : jsstring) : jsstring :=
  match m with
  | [38%N] => u "&amp;"
  | [34%N] => u "&quot;"
  | [60%N] => u "&lt;"
  | [62%N] => u "&gt;"
  | _ => u "undefined"
  end.

Definition escapeRe (isCharacterData : bool) : re :=
  if isCharacterData then Class (one_of (codes "&<"))
  else Class (one_of [38; 34; 60; 62]%N).

(** [/]]>/g] *)
Definition cdataEnd : re := Seq (chr 93) (Seq (chr 93) (chr 62)).

Definition escape (text : jsstring) (stripANSI isCharacterData : bool)
  : jsstring :=
  let text :=
    if stripANSI then replace_all ansiControlSequence (fun _ => []) text
    else text in
  let text := replace_all (escapeRe isCharacterData) entity text in
  let text :=
    if isCharacterData then replace_all cdataEnd (fun _ => u "]]&gt;") text
    else text in
  replace_all discouragedXMLCharacters (fun _ => []) text.

(** *** Building the report *)

(** [l.join(sep)] *)
Fixpoint join (sep : jsstring) (l : list jsstring) : jsstring :=
  match l with
  | [] => []
  | [x] => x
  | x :: rest => x ++ sep ++ join sep rest
  end.

Definition nonempty (s : jsstring) : bool :=
  match s with [] => false | _ => true end.

(** [a || b] for a string that may be undefined. *)
Definition or_else (a : jsval) (b : jsval) : jsval :=
  if truthy a then a else b.

Definition of_option (o : option jsstring) : jsval :=
  match o with Some s => VStr s | None => VUndefined end.

Section Report.

(** Functions of Node and of modules that are not part of these sources. *)
Variable relative : jsstring -> jsstring -> jsstring.   (* path.relative *)
Variable basename : jsstring -> jsstring.               (* path.basename *)
Variable formatFailure : FullConfig -> Test -> jsstring.
Variable stripAscii : jsstring -> jsstring.
Variable String_number : jsnumber -> jsstring.          (* String(n) *)

Definition String_attr (a : attr) : jsstring :=
  match a with
  | AStr s => s
  | ANum n => String_number n
  end.

(** [test.results.reduce((acc, value) => acc + value.duration, 0)] *)
Definition totalDuration (test : Test) : Z :=
  fold_left (fun acc value => (acc + duration value)%Z) (results test) 0%Z.

Definition systemOut (chunk : jsstring) : XMLEntry :=
  Entry (u "system-out") None None (Some chunk).

Definition systemErr (chunk : jsstring) : XMLEntry :=
  Entry (u "system-err") None None (Some chunk).

Definition failureEntry (cfg : FullConfig) (test : Test) : XMLEntry :=
  Entry (u "failure")
    (Some [ (u "message",
             AStr (basename (file (spec test)) ++ u ":"
                   ++ String_number (Int (line (spec test))) ++ u ":"
                   ++ String_number (Int (column (spec test))) ++ u " "
                   ++ title (spec test)));
            (u "type", AStr (u "FAILURE")) ])
    None
    (Some (stripAscii (formatFailure cfg test))).

Definition testcaseEntry (cfg : FullConfig) (test : Test)
  (kids : list XMLEntry) : XMLEntry :=
  Entry (u "testcase")
    (Some [ (u "name", AStr (fullTitle (spec test)));
            (u "classname",
             AStr (relative (testDir cfg) (file (spec test)) ++ u " "
                   ++ parentFullTitle (spec test)));
            (u "time", ANum (Div1000 (totalDuration test))) ])
    (Some kids)
    None.

(** [_addTestCase(test, entries)]: the value of [entries] afterwards.  The
    test case is pushed first and its children are filled in afterwards;
    the entry below has the children it ends with. *)
Definition _addTestCase (cfg : FullConfig) (test : Test)
  (entries : list XMLEntry) : list XMLEntry :=
  if skipped test then
    entries ++ [testcaseEntry cfg test [Entry (u "skipped") None None None]]
  else
    let kids := if negb (ok test) then [failureEntry cfg test] else [] in
    let entries := entries ++ [testcaseEntry cfg test kids] in
    fold_left
      (fun entries result =>
         let entries :=
           fold_left (fun es chunk => es ++ [systemOut chunk])
                     (stdout result) entries in
         fold_left (fun es chunk => es ++ [systemErr chunk])
                   (stderr result) entries)
      (results test) entries.

(** The local variables of [_buildTestSuite]. *)
Record Locals := {
  l_tests : Z;
  l_skipped : Z;
  l_failures : Z;
  l_duration : Z;
  l_children : list XMLEntry;
}.

(** The callback given to [suite.findTest]. *)
Definition visit (cfg : FullConfig) (acc : Locals) (test : Test) : Locals :=
  {| l_tests := l_tests acc + 1;
     l_skipped := if skipped test then l_skipped acc + 1 else l_skipped acc;
     l_failures := if negb (ok test) then l_failures acc + 1
                   else l_failures acc;
     l_duration :=
       fold_left (fun d result => (d + duration result)%Z) (results test)
                 (l_duration acc);
     l_children := _addTestCase cfg test (l_children acc) |}.

Definition _buildTestSuite (r : Reporter) (cfg : FullConfig) (s : Suite)
  : Reporter * XMLEntry :=
  let acc :=
    fold_left (visit cfg) (findTest s)
      {| l_tests := 0; l_skipped := 0; l_failures := 0; l_duration := 0;
         l_children := [] |} in
  let r' :=
    {| config := config r; suite := suite r; timestamp := timestamp r;
       startTime := startTime r;
       totalTests := totalTests r + l_tests acc;
       totalFailures := totalFailures r + l_failures acc;
       totalSkipped := totalSkipped r + l_skipped acc;
       outputFile := outputFile r;
       stripANSIControlSequences := stripANSIControlSequences r |} in
  (r',
   Entry (u "testsuite")
     (Some [ (u "name", AStr (relative (testDir cfg) (suiteFile s)));
             (u "timestamp", ANum (Int (timestamp r)));
             (u "hostname", AStr []);
             (u "tests", ANum (Int (l_tests acc)));
             (u "failures", ANum (Int (l_failures acc)));
             (u "skipped", ANum (Int (l_skipped acc)));
             (u "time", ANum (Div1000 (l_duration acc)));
             (u "errors", ANum (Int 0)) ])
     (Some (l_children acc))
     None).

(** [serializeXML(entry, tokens, stripANSIControlSequences)]: the value of
    [tokens] afterwards. *)
Fixpoint serializeXML (entry : XMLEntry) (tokens : list jsstring)
  (stripANSI : bool) : list jsstring :=
  match entry with
  | Entry name attributes children text =>
      let attrs :=
        map (fun na : jsstring * attr =>
               fst na ++ [61; 34]%N
               ++ escape (String_attr (snd na)) stripANSI false ++ [34]%N)
            (match attributes with Some a => a | None => [] end) in
      let tokens :=
        tokens ++ [u "<" ++ name
                   ++ (match attrs with [] => [] | _ => u " " end)
                   ++ join (u " ") attrs ++ u ">"] in
      let tokens :=
        match children with
        | Some c =>
            fold_left (fun tokens child => serializeXML child tokens stripANSI)
                      c tokens
        | None => tokens
        end in
      let tokens :=
        match text with
        | Some t => if nonempty t then tokens ++ [escape t stripANSI true]
                    else tokens
        | None => tokens
        end in
      tokens ++ [u "</" ++ name ++ u ">"]
  end.

(** The body of the loop of [onEnd] over the suites of the files:
    [children.push(this._buildTestSuite(suite))]. *)
Definition pushTestSuite (cfg : FullConfig)
  (acc : Reporter * list XMLEntry) (s : Suite) : Reporter * list XMLEntry :=
  let '(r1, e) := _buildTestSuite (fst acc) cfg s in
  (r1, snd acc ++ [e]).

(** What [onEnd] produces: the root entry, the report and where it goes
    (a file, or the console when [None]). *)
Record Output := {
  root : XMLEntry;
  reportString : jsstring;
  destination : option jsstring;
}.

(** [onEnd]; [mono] is [monotonicTime()], [env] is [process.env].  Before
    [onBegin] the suite is undefined and reading its suites raises a
    TypeError ([None]). *)
Definition onEnd (r : Reporter) (mono : Z) (env : jsstring -> jsval)
  : option (Reporter * Output) :=
  match suite r, config r with
  | Some top, Some cfg =>
      let duration := (mono - startTime r)%Z in
      let '(r', children) :=
        fold_left (pushTestSuite cfg) (suites top) (r, []) in
      let attr_of v := match v with VStr s => AStr s | _ => AStr [] end in
      let root :=
        Entry (u "testsuites")
          (Some [ (u "id", attr_of (or_else (env (u "FOLIO_JUNIT_SUITE_ID"))
                                            (VStr [])));
                  (u "name", attr_of (or_else (env (u "FOLIO_JUNIT_SUITE_NAME"))
                                              (VStr [])));
                  (u "tests", ANum (Int (totalTests r')));
                  (u "failures", ANum (Int (totalFailures r')));
                  (u "skipped", ANum (Int (totalSkipped r')));
                  (u "errors", ANum (Int 0));
                  (u "time", ANum (Div1000 duration)) ])
          (Some children)
          None in
      let tokens := serializeXML root [] (stripANSIControlSequences r') in
      let outputFile :=
        or_else (of_option (outputFile r'))
                (env (u "FOLIO_JUNIT_OUTPUT_NAME")) in
      Some (r',
            {| root := root;
               reportString := join [10%N] tokens;
               destination :=
                 match outputFile with
                 | VStr f => if truthy outputFile then Some f else None
                 | _ => None
                 end |})
  | _, _ => None
  end.

End Report.

(** Reading the report back. *)
Fixpoint getAttr (key : jsstring) (l : list (jsstring * attr)) : option attr :=
  match l with
  | [] => None
  | (k, v) :: rest => if str_eqb k key then Some v else getAttr key rest
  end.

Definition attrOf (key : string) (e : XMLEntry) : option attr :=
  match attributes e with
  | Some l => getAttr (u key) l
  | None => None
  end.

Definition intAttr (key : string) (e : XMLEntry) : Z :=
  match attrOf key e with
  | Some (ANum (Int z)) => z
  | _ => 0
  end.

Definition childrenOf (e : XMLEntry) : list XMLEntry :=
  match children e with Some c => c | None => [] end.

Definition named (n : string) (e : XMLEntry) : bool :=
  str_eqb (name e) (u n).

Definition sumZ (l : list Z) : Z := fold_right Z.add 0%Z l.

(** The children a test case ends with, and the output entries that
    follow it in the test suite. *)
Definition isOutput (e : XMLEntry) : bool :=
  named "system-out" e || named "system-err" e.

Definition outputsOf (test : Test) : list XMLEntry :=
  flat_map (fun result => map systemOut (stdout result)
                          ++ map systemErr (stderr result))
           (results test).

(** The reporter with its three totals increased. *)
Definition bump (r : Reporter) (tests failures skipped : Z) : Reporter :=
  {| config := config r; suite := suite r; timestamp := timestamp r;
     startTime := startTime r;
     totalTests := totalTests r + tests;
     totalFailures := totalFailures r + failures;
     totalSkipped := totalSkipped r + skipped;
     outputFile := outputFile r;
     stripANSIControlSequences := stripANSIControlSequences r |}.

Definition count {A} (p : A -> bool) (l : list A) : Z :=
  Z.of_nat (length (filter p l)).

(** *** Escaping, said unit by unit

    The definitions below do not come from the source: they say in terms
    of single code units what the four [replace] calls of [escape] are
    meant to do, and are compared with [escape] further down. *)

(** In an attribute value: the four characters become entities, the
    discouraged control characters vanish. *)
Definition attrUnit (c : N) : jsstring :=
  if N.eqb c 38 then u "&amp;"
  else if N.eqb c 34 then u "&quot;"
  else if N.eqb c 60 then u "&lt;"
  else if N.eqb c 62 then u "&gt;"
  else if discouraged c then []
  else [c].

(** In character data: only [&] and [<] become entities. *)
Definition dataUnit (c : N) : jsstring :=
  if N.eqb c 38 then u "&amp;"
  else if N.eqb c 60 then u "&lt;"
  else [c].

(** Every occurrence of the three units that end a CDATA section, found
    left to right, gets its [>] written as an entity. *)
Fixpoint closeCdata (s : jsstring) : jsstring :=
  match s with
  | [] => []
  | c :: rest =>
      match N.eqb c 93, rest with
      | true, d :: e :: rest' =>
          if N.eqb d 93 && N.eqb e 62 then u "]]&gt;" ++ closeCdata rest'
          else c :: closeCdata rest
      | _, _ => c :: closeCdata rest
      end
  end.

(** A unit that may stand in a quoted attribute value. *)
Definition attrSafe (c : N) : Prop :=
  c <> 60%N /\ c <> 62%N /\ c <> 34%N /\ discouraged c = false.

Definition stripAnsi (strip : bool) (text : jsstring) : jsstring :=
  if strip then replace_all ansiControlSequence (fun _ => []) text else text.

End JUnit.

(* ===================================================================== *)
(** ** src/reporters/service.ts *)
(* ===================================================================== *)

Module Service.

Inductive error :=
| TypeError (what : jsstring).

(** The outcome of a call that can raise. *)
Inductive result (A : Type) :=
| Ok (a : A)
| Throw (e : error).
Arguments Ok {A} a.
Arguments Throw {A} e.

Definition bind {A B} (r : result A) (f : A -> result B) : result B :=
  match r with
  | Ok a => f a
  | Throw e => Throw e
  end.

Record Config := { testDir : jsstring; outputDir : jsstring }.

Record Spec := { file : jsstring; fullTitle : jsstring }.

Record Test := {
  spec : Spec;
  variation : list (jsstring * jsval);
}.

(** [obj[key]] on an object used as a dictionary. *)
Fixpoint lookup (key : jsstring) (o : list (jsstring * jsval)) : jsval :=
  match o with
  | [] => VUndefined
  | (k, v) :: rest => if str_eqb k key then v else lookup key rest
  end.

(** *** The token request *)

(** What [getSasToken] touches outside its arguments: the [sasToken]
    variable of every call made so far (a callback keeps the variable of
    its own call alive), and the requests in flight, each with the
    variable its [data] callback assigns and the permission it asked for.
    Callbacks run from the event loop, after the code that issued the
    request has run to completion. *)
Record Runtime := {
  cells : list jsval;
  pending : list (nat * jsstring);
}.

Definition emptyRuntime : Runtime := {| cells := []; pending := [] |}.

(** [getSasToken(permission)]: [let sasToken] is created undefined, the
    request is issued with a callback that assigns it, and the function
    returns the variable's value at that point. *)
Definition getSasToken (permission : jsstring) (rt : Runtime)
  : jsval * Runtime :=
  let cell := length (cells rt) in
  let rt :=
    {| cells := cells rt ++ [VUndefined];
       pending := pending rt ++ [(cell, permission)] |} in
  (nth cell (cells rt) VUndefined, rt).

Fixpoint assign (i : nat) (v : jsval) (l : list jsval) : list jsval :=
  match l, i with
  | [], _ => []
  | _ :: rest, O => v :: rest
  | x :: rest, S i' => x :: assign i' v rest
  end.

(** One turn of the event loop in which every response has arrived:
    [sasUriOf permission] is [JSON.parse(d).sasUri] of the response to the
    request for [permission]; each callback assigns its variable. *)
Definition deliver (sasUriOf : jsstring -> jsval) (rt : Runtime) : Runtime :=
  {| cells :=
       fold_left (fun cs p => assign (fst p) (sasUriOf (snd p)) cs)
                 (pending rt) (cells rt);
     pending := [] |}.

(** *** The reporter *)

(** An upload started by [_createBlobInContainer]: the URL the blob
    service client was built with, the container, the blob and the file. *)
Record Upload := {
  serviceUrl : jsstring;
  container : jsval;
  blobName : jsstring;
  localFile : jsstring;
}.

(** The fields of [ServiceReporter] that hold the tokens, the clients and
    the artifacts.  The field
    [artifactMap] is declared without an initializer and nothing assigns
    it, so it stays undefined ([None]). *)
Record Reporter := {
  config : option Config;
  readSasToken : jsval;
  writeSasToken : jsval;
  blobService : option jsstring;      (* URL given to BlobServiceClient *)
  containerClient : option jsval;     (* name given to getContainerClient *)
  startTime : Z;
  artifactMap : option (list (jsstring * list jsstring));
}.

Definition newReporter : Reporter :=
  {| config := None; readSasToken := VUndefined; writeSasToken := VUndefined;
     blobService := None; containerClient := None; startTime := 0;
     artifactMap := None |}.

Section Reporter.

Variable relative : jsstring -> jsstring -> jsstring.   (* path.relative *)
Variable String_num : Z -> jsstring.                    (* String(n) *)
Variable env : jsstring -> jsval.                       (* process.env *)

Definition tpl (v : jsval) : jsstring := template v String_num.

(** [onBegin]; [mono] is [monotonicTime()].  The constructors of the
    storage clients are taken not to raise, whatever text they are
    given. *)
Definition onBegin (r : Reporter) (cfg : Config) (mono : Z) (rt : Runtime)
  : Reporter * Runtime :=
  let '(w, rt) := getSasToken (u "Write") rt in
  let '(rd, rt) := getSasToken (u "Read") rt in
  ({| config := Some cfg; readSasToken := rd; writeSasToken := w;
      blobService := Some (tpl w);
      containerClient := Some (env (u "GITHUB_RUN_ID"));
      startTime := mono;
      artifactMap := artifactMap r |}, rt).

(** [_getTestOutputDir(test)] *)
Definition _getTestOutputDir (cfg : Config) (test : Test) : jsstring :=
  let testFileName := relative (testDir cfg) (file (spec test)) in
  outputDir cfg ++ u "/"
  ++ substring0 (Z.of_nat (length testFileName) - 8) testFileName ++ u "/"
  ++ replace_first 32 (u "-") (fullTitle (spec test)) ++ u "/"
  ++ tpl (lookup (u "browserName") (variation test)).

(** [_getTestKey(test)] *)
Definition _getTestKey (cfg : Config) (test : Test) : jsstring :=
  relative (testDir cfg) (file (spec test)) ++ u "-"
  ++ replace_first 32 (u "-") (fullTitle (spec test)) ++ u "-"
  ++ tpl (lookup (u "browserName") (variation test)).

(** [_getRelativePath(file)] *)
Definition _getRelativePath (file : jsstring) : jsstring :=
  let string := u "test-results/" in
  let baseDirIndex := indexOf string file in
  substring_from (baseDirIndex + Z.of_nat (length string)) file.

(** [_getSasUriForBlob(filePath)]: calling [split] on an undefined token
    raises a TypeError. *)
Definition _getSasUriForBlob (r : Reporter) (filePath : jsstring)
  : result jsstring :=
  match readSasToken r with
  | VStr tok =>
      let splitted := map VStr (split (u "?sv") tok) in
      Ok (tpl (index splitted 0) ++ u "/" ++ filePath ++ u "?sv"
          ++ tpl (index splitted 1))
  | _ => Throw (TypeError (u "split"))
  end.

(** [arr.push(x)]: the method is looked up on [arr] before the argument is
    evaluated, so an undefined [arr] raises first. *)
Definition push {A} (arr : option (list A)) (x : unit -> result A)
  : result (list A) :=
  match arr with
  | None => Throw (TypeError (u "push"))
  | Some l => bind (x tt) (fun v => Ok (l ++ [v]))
  end.

(** [_getTestResultBlobs()]: [let testResultBlobs: string[];] declares the
    variable and leaves it undefined. *)
Definition _getTestResultBlobs (r : Reporter) : result (list jsstring) :=
  let testResultBlobs : option (list jsstring) := None in
  bind (push testResultBlobs
          (fun _ => _getSasUriForBlob r
                      (tpl (env (u "GITHUB_RUN_ID")) ++ u "/testResults.zip")))
       (fun testResultBlobs => Ok testResultBlobs).

(** [_createBlobInContainer(file, blobName)] up to its first [await]: the
    upload is started with the container client made in [onBegin].  The
    method is async: an error in it ([Throw]) rejects the promise it
    returns and is not raised in the caller, which does not await it. *)
Definition _createBlobInContainer (r : Reporter) (file blobName : jsstring)
  : result Upload :=
  match blobService r, containerClient r with
  | Some url, Some c =>
      Ok {| serviceUrl := url; container := c; blobName := blobName;
            localFile := file |}
  | _, _ => Throw (TypeError (u "getBlockBlobClient"))
  end.

(** The loop of [onTestEnd] over the files of the test's output folder:
    the uploads started and the artifact URIs collected.  A call of
    [_createBlobInContainer] whose promise rejects starts no upload and
    the loop goes on. *)
Fixpoint uploadAll (r : Reporter) (files : list jsstring)
  (ups : list Upload) (arts : list jsstring)
  : list Upload * result (list jsstring) :=
  match files with
  | [] => (ups, Ok arts)
  | file :: rest =>
      let relativePath := _getRelativePath file in
      let ups :=
        match _createBlobInContainer r file relativePath with
        | Ok up => ups ++ [up]
        | Throw _ => ups
        end in
      match _getSasUriForBlob r
              (tpl (env (u "GITHUB_RUN_ID")) ++ u "/" ++ relativePath) with
      | Throw e => (ups, Throw e)
      | Ok uri => uploadAll r rest ups (arts ++ [uri])
      end
  end.

(** [onTestEnd(test, result)]; [filesOf dir] is [None] when the folder does
    not exist and otherwise the files [getAllFilesFromFolder] finds in it.
    The result is the uploads started and the reporter afterwards, or the
    error raised. *)
Definition onTestEnd (r : Reporter) (test : Test)
  (filesOf : jsstring -> option (list jsstring))
  : list Upload * result Reporter :=
  match config r with
  | None => ([], Throw (TypeError (u "testDir")))
  | Some cfg =>
      match filesOf (_getTestOutputDir cfg test) with
      | None => ([], Ok r)
      | Some files =>
          match uploadAll r files [] [] with
          | (ups, Throw e) => (ups, Throw e)
          | (ups, Ok testArtifacts) =>
              match artifactMap r with
              | None => (ups, Throw (TypeError (u "set")))
              | Some m =>
                  (ups,
                   Ok {| config := config r; readSasToken := readSasToken r;
                         writeSasToken := writeSasToken r;
                         blobService := blobService r;
                         containerClient := containerClient r;
                         startTime := startTime r;
                         artifactMap :=
                           Some (m ++ [(_getTestKey cfg test, testArtifacts)])
                      |})
              end
          end
      end
  end.

End Reporter.

(** The slug the specification asks for: every space becomes a dash. *)
Definition slug (title : jsstring) : jsstring :=
  replace_every 32 (u "-") title.

End Service.

(* ===================================================================== *)
(** ** The worker runtime *)
(* ===================================================================== *)

Module Worker.

(** Modelled from the spec: the worker runtime (the executor of section
    4.5 with the data of section 3) is not under src/; only tests of it
    are.  Every definition of this module follows the specification's
    words, and the orders it leaves open are taken from those tests. *)

(** Modelled from the spec: the status of a TestResult. *)
Inductive status := passed | failed | timedOut | skipped.

(** Modelled from the spec: what user code does, as far as the executor
    can tell.  It produces output, calls [skip()] or [fail()] (which mutate
    the state of the current test), suspends for some time, or throws. *)
Inductive action :=
| Log (l : jsstring)
| CallSkip
| CallFail
| Await (ms : nat)
| Raise (msg : jsstring).

(** Modelled from the spec: a registered function (a per-test hook or a
    test body) with the source location it was registered at. *)
Record Hook := { location : jsstring; steps : list action }.

(** Modelled from the spec: worker-level hooks ([beforeAll], [afterAll])
    run outside any test; they produce output or throw. *)
Inductive wstep :=
| WLog (l : jsstring)
| WRaise (msg : jsstring).

Record AllHook := { wlocation : jsstring; wsteps : list wstep }.

(** Modelled from the spec: an env declaration exposes up to four
    lifecycle operations. *)
Record Env := {
  env_beforeAll : option AllHook;
  env_afterAll : option AllHook;
  env_beforeEach : option Hook;
  env_afterEach : option Hook;
}.

(** Modelled from the spec: what a suite carries besides its entries. *)
Record SuiteInfo := {
  s_title : jsstring;
  s_skipped : bool;                (* skip() at registration *)
  s_expectedToFail : bool;         (* fail() at registration *)
  beforeAll : list AllHook;
  afterAll : list AllHook;
  beforeEach : list Hook;
  afterEach : list Hook;
}.

(** Modelled from the spec: a spec with its marks, and the timeout
    resolved for its test. *)
Record Spec := {
  title : jsstring;
  body : Hook;
  sp_skipped : bool;
  sp_expectedToFail : bool;
  timeout : nat;                   (* the resolved per-test timeout *)
}.

(** The spec tree of one file, entries in declaration order. *)
Inductive Node :=
| NSpec (s : Spec)
| NSuite (info : SuiteInfo) (entries : list Node).

(** Modelled from the spec: what is observed of a run.  A function was
    entered, or it logged. *)
Inductive event :=
| Began (location : jsstring)
| Logged (l : jsstring).

(** Modelled from the spec: the state of the test being run. *)
Record TestState := {
  trace : list event;
  skipSeen : bool;
  expectedToFail : bool;
  error : option jsstring;         (* the first error *)
  elapsed : nat;                   (* time used of the test's budget *)
  cancelled : bool;                (* the timer fired *)
}.

Inductive outcome := Done | Raised (msg : jsstring) | TimerFired.

(** Modelled from the spec: running one function under the test's timer
    (section 4.5, b and Cancellation).  The function is interrupted at the
    suspension point at which the budget runs out. *)
Fixpoint runSteps (budget : nat) (l : list action) (st : TestState)
  : TestState * outcome :=
  match l with
  | [] => (st, Done)
  | Log x :: k =>
      runSteps budget k
        {| trace := trace st ++ [Logged x]; skipSeen := skipSeen st;
           expectedToFail := expectedToFail st; error := error st;
           elapsed := elapsed st; cancelled := cancelled st |}
  | CallSkip :: k =>
      runSteps budget k
        {| trace := trace st; skipSeen := true;
           expectedToFail := expectedToFail st; error := error st;
           elapsed := elapsed st; cancelled := cancelled st |}
  | CallFail :: k =>
      runSteps budget k
        {| trace := trace st; skipSeen := skipSeen st;
           expectedToFail := true; error := error st;
           elapsed := elapsed st; cancelled := cancelled st |}
  | Await ms :: k =>
      if Nat.leb (elapsed st + ms) budget then
        runSteps budget k
          {| trace := trace st; skipSeen := skipSeen st;
             expectedToFail := expectedToFail st; error := error st;
             elapsed := elapsed st + ms; cancelled := cancelled st |}
      else
        ({| trace := trace st; skipSeen := skipSeen st;
            expectedToFail := expectedToFail st; error := error st;
            elapsed := budget; cancelled := cancelled st |}, TimerFired)
  | Raise msg :: _ => (st, Raised msg)
  end.

(** Modelled from the spec: calling a registered function. *)
Definition call (budget : nat) (h : Hook) (st : TestState)
  : TestState * outcome :=
  runSteps budget (steps h)
    {| trace := trace st ++ [Began (location h)]; skipSeen := skipSeen st;
       expectedToFail := expectedToFail st; error := error st;
       elapsed := elapsed st; cancelled := cancelled st |}.

(** Modelled from the spec: the first error is kept. *)
Definition recordError (msg : jsstring) (st : TestState) : TestState :=
  {| trace := trace st; skipSeen := skipSeen st;
     expectedToFail := expectedToFail st;
     error := match error st with Some e => Some e | None => Some msg end;
     elapsed := elapsed st; cancelled := cancelled st |}.

(** Modelled from the spec: the timer fired. *)
Definition cancel (st : TestState) : TestState :=
  {| trace := trace st; skipSeen := skipSeen st;
     expectedToFail := expectedToFail st; error := error st;
     elapsed := elapsed st; cancelled := true |}.

(** Modelled from the spec: step 3c.  The [beforeEach] functions run in
    the order given; one that throws has its error recorded and the
    following ones still run; the timer firing ends the sequence. *)
Fixpoint runBefore (budget : nat) (hooks : list Hook) (st : TestState)
  : TestState :=
  match hooks with
  | [] => st
  | h :: rest =>
      match call budget h st with
      | (st', Done) => runBefore budget rest st'
      | (st', Raised msg) => runBefore budget rest (recordError msg st')
      | (st', TimerFired) => cancel st'
      end
  end.

(** Modelled from the spec: step 3d.  The body runs if there is no prior
    error, the test is not skipped and the timer has not fired. *)
Definition runBody (budget : nat) (b : Hook) (st : TestState) : TestState :=
  match error st, skipSeen st || cancelled st with
  | None, false =>
      match call budget b st with
      | (st', Done) => st'
      | (st', Raised msg) => recordError msg st'
      | (st', TimerFired) => cancel st'
      end
  | _, _ => st
  end.

(** Modelled from the spec: step 3e.  Every [afterEach] function runs, the
    first error is kept; they run under what is left of the test's budget,
    and an overrun ends the worker ([true] in the result). *)
Fixpoint runAfter (budget : nat) (hooks : list Hook) (st : TestState)
  : TestState * bool :=
  match hooks with
  | [] => (st, false)
  | h :: rest =>
      match call budget h st with
      | (st', Done) => runAfter budget rest st'
      | (st', Raised msg) => runAfter budget rest (recordError msg st')
      | (st', TimerFired) => (st', true)
      end
  end.

(** Modelled from the spec: step 3f, the status of the attempt. *)
Definition computeStatus (cancelled skipSeen : bool) (error : option jsstring)
  (expectedToFail : bool) : status :=
  if cancelled then timedOut
  else if skipSeen then skipped
  else match error with
       | Some _ => if expectedToFail then passed else failed
       | None => if expectedToFail then failed else passed
       end.

(** Modelled from the spec: step 3f, the error reported with the status.
    A test that was expected to fail and did not is reported with a
    message of its own. *)
Definition reportedError (cancelled skipSeen : bool) (error : option jsstring)
  (expectedToFail : bool) : option jsstring :=
  match error with
  | Some e => Some e
  | None =>
      if negb cancelled && negb skipSeen && expectedToFail
      then Some (u "passed unexpectedly")
      else None
  end.

(** Modelled from the spec: what is in scope for a test.  The
    [beforeEach] and [afterEach] functions of its ancestors, outermost
    suite first, and the marks inherited from them. *)
Record Scope := {
  sc_beforeEach : list Hook;
  sc_afterEach : list Hook;
  sc_skipped : bool;
  sc_expectedToFail : bool;
}.

Definition enter (sc : Scope) (info : SuiteInfo) : Scope :=
  {| sc_beforeEach := sc_beforeEach sc ++ beforeEach info;
     sc_afterEach := sc_afterEach sc ++ afterEach info;
     sc_skipped := sc_skipped sc || s_skipped info;
     sc_expectedToFail := sc_expectedToFail sc || s_expectedToFail info |}.

Definition rootScope : Scope :=
  {| sc_beforeEach := []; sc_afterEach := []; sc_skipped := false;
     sc_expectedToFail := false |}.

(** Modelled from the spec: what a worker has done so far.  Its output,
    the [testEnd] events it sent, the errors of worker-level hooks, and
    whether it ended itself. *)
Record Run := {
  log : list event;
  reports : list (jsstring * status * option jsstring);   (* testEnd *)
  workerErrors : list jsstring;
  crashed : bool;
}.

Definition somes {A} (l : list (option A)) : list A :=
  flat_map (fun o => match o with Some a => [a] | None => [] end) l.

(** Modelled from the spec: steps 3a-3g for one test.  Env [beforeEach]
    functions run first, outermost factory first; env [afterEach]
    functions last, innermost first. *)
Definition runTest (envs : list Env) (sc : Scope) (t : Spec) (r : Run)
  : Run * TestState :=
  let st0 :=
    {| trace := log r;
       skipSeen := sc_skipped sc || sp_skipped t;
       expectedToFail := sc_expectedToFail sc || sp_expectedToFail t;
       error := None; elapsed := 0; cancelled := false |} in
  let st1 :=
    runBefore (timeout t)
      (somes (map env_beforeEach envs) ++ sc_beforeEach sc) st0 in
  let st2 := runBody (timeout t) (body t) st1 in
  let '(st3, overrun) :=
    runAfter (timeout t)
      (rev (sc_afterEach sc) ++ rev (somes (map env_afterEach envs))) st2 in
  if overrun then
    ({| log := trace st3; reports := reports r;
        workerErrors := workerErrors r; crashed := true |}, st3)
  else
    ({| log := trace st3;
        reports :=
          reports r
          ++ [(title t,
               computeStatus (cancelled st3) (skipSeen st3) (error st3)
                             (expectedToFail st3),
               reportedError (cancelled st3) (skipSeen st3) (error st3)
                             (expectedToFail st3))];
        workerErrors := workerErrors r; crashed := false |}, st3).

(** Modelled from the spec: running a worker-level hook. *)
Fixpoint runWSteps (l : list wstep) (r : Run) : Run :=
  match l with
  | [] => r
  | WLog x :: k =>
      runWSteps k
        {| log := log r ++ [Logged x]; reports := reports r;
           workerErrors := workerErrors r; crashed := crashed r |}
  | WRaise msg :: _ =>
      {| log := log r; reports := reports r;
         workerErrors := workerErrors r ++ [msg]; crashed := crashed r |}
  end.

(** Modelled from the spec: calling a worker-level hook. *)
Definition callAll (h : AllHook) (r : Run) : Run :=
  runWSteps (wsteps h)
    {| log := log r ++ [Began (wlocation h)]; reports := reports r;
       workerErrors := workerErrors r; crashed := crashed r |}.

(** Modelled from the spec: worker-level hooks of one kind run in the
    order given, a failure keeps none of them from running. *)
Definition runAllHooks (hooks : list AllHook) (r : Run) : Run :=
  fold_left (fun r h => callAll h r) hooks r.

Fixpoint hasTests (n : Node) : bool :=
  match n with
  | NSpec _ => true
  | NSuite _ entries => existsb hasTests entries
  end.

(** Modelled from the spec: steps 2 and 4 (the worker runtime is not under
    src/).  The [beforeAll] hooks of a suite run in registration order
    before its first test and its [afterAll] hooks after its last test; a
    worker that ended itself runs nothing more. *)
Fixpoint runNode (envs : list Env) (sc : Scope) (n : Node) (r : Run) : Run :=
  if crashed r then r
  else
    match n with
    | NSpec t => fst (runTest envs sc t r)
    | NSuite info entries =>
        if existsb hasTests entries then
          let r := runAllHooks (beforeAll info) r in
          let r :=
            fold_left (fun r e => runNode envs (enter sc info) e r)
                      entries r in
          if crashed r then r else runAllHooks (afterAll info) r
        else r
    end.

Definition emptyRun : Run :=
  {| log := []; reports := []; workerErrors := []; crashed := false |}.

(** Modelled from the spec: a worker running the entries of a file's root
    suite.  Env [beforeAll] comes first, env [afterAll] when the worker
    stops. *)
Definition runGroup (envs : list Env) (file : list Node) : Run :=
  let r := runAllHooks (somes (map env_beforeAll envs)) emptyRun in
  let r := fold_left (fun r e => runNode envs rootScope e r) file r in
  if crashed r then r
  else runAllHooks (rev (somes (map env_afterAll envs))) r.

(** The specs nested in a chain of suites, outermost first. *)
Fixpoint nest (chain : list SuiteInfo) (t : Spec) : Node :=
  match chain with
  | [] => NSpec t
  | s :: rest => NSuite s [nest rest t]
  end.

(** The output of a run. *)
Definition logged (l : list event) : list jsstring :=
  flat_map (fun e => match e with Logged x => [x] | Began _ => [] end) l.

(** What a function logs when left to run: its output up to the first
    throw. *)
Fixpoint outputOf (l : list action) : list jsstring :=
  match l with
  | [] => []
  | Log x :: k => x :: outputOf k
  | Raise _ :: _ => []
  | _ :: k => outputOf k
  end.

Fixpoint woutputOf (l : list wstep) : list jsstring :=
  match l with
  | [] => []
  | WLog x :: k => x :: woutputOf k
  | WRaise _ :: _ => []
  end.

Definition eventsOf (h : Hook) : list event :=
  Began (location h) :: map Logged (outputOf (steps h)).

Definition weventsOf (h : AllHook) : list event :=
  Began (wlocation h) :: map Logged (woutputOf (wsteps h)).

(** The time a function asks for in all. *)
Fixpoint awaitedSteps (l : list action) : nat :=
  match l with
  | [] => 0
  | Await ms :: k => ms + awaitedSteps k
  | _ :: k => awaitedSteps k
  end.

Definition awaited (h : Hook) : nat := awaitedSteps (steps h).

Fixpoint totalAwaited (l : list Hook) : nat :=
  match l with
  | [] => 0
  | h :: rest => awaited h + totalAwaited rest
  end.

Definition quietSteps (l : list action) : bool :=
  forallb (fun a => match a with
                    | Raise _ | CallSkip => false
                    | _ => true
                    end) l.

(** A function that neither throws nor calls [skip()]. *)
Definition quiet (h : Hook) : bool := quietSteps (steps h).

(** The events of one test: the functions before the body in order, the
    body, the functions after it in order. *)
Definition testEvents (before : list Hook) (b : Hook) (after : list Hook)
  : list event :=
  flat_map eventsOf before ++ eventsOf b ++ flat_map eventsOf after.

Definition statusOf (report : jsstring * status * option jsstring) : status :=
  snd (fst report).

(** The functions entered during a run, by their locations, in order. *)
Definition entered (l : list event) : list jsstring :=
  flat_map (fun e => match e with Began x => [x] | Logged _ => [] end) l.

(** [l] is [m] with some elements left out. *)
Inductive Subseq {A : Type} : list A -> list A -> Prop :=
| Subseq_nil : Subseq [] []
| Subseq_skip : forall x l m, Subseq l m -> Subseq l (x :: m)
| Subseq_take : forall x l m, Subseq l m -> Subseq (x :: l) (x :: m).

(** The functions that concern one test nested in a chain of suites, in
    the order in which the runtime is to enter them. *)
Definition plan (envs : list Env) (chain : list SuiteInfo) (t : Spec)
  : list jsstring :=
  map wlocation (somes (map env_beforeAll envs))
  ++ map wlocation (flat_map beforeAll chain)
  ++ map location (somes (map env_beforeEach envs))
  ++ map location (flat_map beforeEach chain)
  ++ [location (body t)]
  ++ map location (rev (flat_map afterEach chain))
  ++ map location (rev (somes (map env_afterEach envs)))
  ++ map wlocation (flat_map afterAll (rev chain))
  ++ map wlocation (rev (somes (map env_afterAll envs))).

(** *** The tests of a file *)

(** The scope of a test nested in a chain of suites, outermost first. *)
Definition scopeOf (chain : list SuiteInfo) : Scope :=
  fold_left enter chain rootScope.

(** The tests under an entry, in declaration order, each with the chain of
    suites around it. *)
Fixpoint flatten (chain : list SuiteInfo) (n : Node)
  : list (list SuiteInfo * Spec) :=
  match n with
  | NSpec t => [(chain, t)]
  | NSuite info entries => flat_map (flatten (chain ++ [info])) entries
  end.

Definition testsOf (file : list Node) : list (list SuiteInfo * Spec) :=
  flat_map (flatten []) file.

(** The per-test functions of a test inside [chain], in the order of
    section 3: before the body, env functions and then the hooks of the
    suites outermost first; after it, the hooks innermost first and then
    the env functions. *)
Definition beforeOf (envs : list Env) (chain : list SuiteInfo) : list Hook :=
  somes (map env_beforeEach envs) ++ flat_map beforeEach chain.

Definition afterOf (envs : list Env) (chain : list SuiteInfo) : list Hook :=
  rev (flat_map afterEach chain) ++ rev (somes (map env_afterEach envs)).

(** The functions of a test ask, in all, for no more time than its
    timeout. *)
Definition fits (envs : list Env) (ct : list SuiteInfo * Spec) : bool :=
  Nat.leb (totalAwaited (beforeOf envs (fst ct))
           + awaited (body (snd ct))
           + totalAwaited (afterOf envs (fst ct)))
          (timeout (snd ct)).

(** The functions that concern the tests under an entry, in the order in
    which the runtime is to enter them. *)
Fixpoint planNode (envs : list Env) (chain : list SuiteInfo) (n : Node)
  : list jsstring :=
  match n with
  | NSpec t =>
      map location (beforeOf envs chain)
      ++ [location (body t)]
      ++ map location (afterOf envs chain)
  | NSuite info entries =>
      map wlocation (beforeAll info)
      ++ flat_map (planNode envs (chain ++ [info])) entries
      ++ map wlocation (afterAll info)
  end.

Definition planFile (envs : list Env) (file : list Node) : list jsstring :=
  map wlocation (somes (map env_beforeAll envs))
  ++ flat_map (planNode envs []) file
  ++ map wlocation (rev (somes (map env_afterAll envs))).

(** The log of an entry when each test contributes [perTest]: the
    [beforeAll] hooks of a suite that has tests come before the logs of
    its entries and its [afterAll] hooks after them. *)
Fixpoint fileLog (perTest : list SuiteInfo -> Spec -> list event)
  (chain : list SuiteInfo) (n : Node) : list event :=
  match n with
  | NSpec t => perTest chain t
  | NSuite info entries =>
      if existsb hasTests entries then
        flat_map weventsOf (beforeAll info)
        ++ flat_map (fileLog perTest (chain ++ [info])) entries
        ++ flat_map weventsOf (afterAll info)
      else []
  end.

(** One test run by a worker that has done nothing yet. *)
Definition attempt (envs : list Env) (ct : list SuiteInfo * Spec)
  : Run * TestState :=
  runTest envs (scopeOf (fst ct)) (snd ct) emptyRun.

(** The worker ends itself during the teardown of the test. *)
Definition crashes (envs : list Env) (ct : list SuiteInfo * Spec) : bool :=
  crashed (fst (attempt envs ct)).

(** The timer of the test fires. *)
Definition timesOut (envs : list Env) (ct : list SuiteInfo * Spec) : bool :=
  cancelled (snd (attempt envs ct)).

(** The tests a worker gets through: those before the first one during
    which it ends itself. *)
Fixpoint survivors (envs : list Env) (l : list (list SuiteInfo * Spec))
  : list (list SuiteInfo * Spec) :=
  match l with
  | [] => []
  | ct :: rest => if crashes envs ct then [] else ct :: survivors envs rest
  end.

(** A state whose trace comes after the events [p]. *)
Definition after_ (p : list event) (st : TestState) : TestState :=
  {| trace := p ++ trace st; skipSeen := skipSeen st;
     expectedToFail := expectedToFail st; error := error st;
     elapsed := elapsed st; cancelled := cancelled st |}.






(** *** The dispatcher's crash recovery *)

Fixpoint countTests (n : Node) : nat :=
  match n with
  | NSpec _ => 1
  | NSuite _ entries => list_sum (map countTests entries)
  end.

(** Modelled from the spec: the tests of a group that remain after its
    first [k] tests (section 4.3, crash recovery, step 2).  The suites
    stay, so that their hooks run again in the replacement worker. *)
Fixpoint dropNode (k : nat) (n : Node) : list Node :=
  match n with
  | NSpec t => match k with 0 => [NSpec t] | S _ => [] end
  | NSuite info entries =>
      [NSuite info
         ((fix dropEntries (k : nat) (l : list Node) : list Node :=
             match l with
             | [] => []
             | e :: rest => dropNode k e ++ dropEntries (k - countTests e) rest
             end) k entries)]
  end.

(** Modelled from the spec: the same for the entries of a file. *)
Fixpoint dropTests (k : nat) (file : list Node) : list Node :=
  match file with
  | [] => []
  | e :: rest => dropNode k e ++ dropTests (k - countTests e) rest
  end.

(** Modelled from the spec: the statuses that reach the reporters for the
    tests of a group, without retries (section 4.3, crash recovery).  A
    worker runs the group; if it ends itself, the test it was running, the
    first one without a [testEnd], is marked failed and the tests after it
    go to a fresh worker.  [fuel] bounds the number of workers. *)
Fixpoint dispatch (fuel : nat) (envs : list Env) (file : list Node)
  : list (jsstring * status) :=
  match fuel with
  | 0 => []
  | S fuel =>
      let r := runGroup envs file in
      let ended := map (fun rep => (fst (fst rep), statusOf rep)) (reports r) in
      if crashed r then
        match nth_error (testsOf file) (length (reports r)) with
        | Some ct =>
            ended
            ++ (title (snd ct), failed)
               :: dispatch fuel envs (dropTests (S (length (reports r))) file)
        | None => ended
        end
      else ended
  end.

(** One worker per test is enough. *)
Definition reportedStatuses (envs : list Env) (file : list Node)
  : list (jsstring * status) :=
  dispatch (S (length (testsOf file))) envs file.

(** The status that the executor computes for a test run on its own, and
    the one that reaches the reporters. *)
Definition attemptStatus (envs : list Env) (ct : list SuiteInfo * Spec)
  : status :=
  let st := snd (attempt envs ct) in
  computeStatus (cancelled st) (skipSeen st) (error st) (expectedToFail st).


(** A worker in state [r] ran the tests [tests], in order, and is in state
    [r'].  It sent a [testEnd] for each test before the first one during
    which it ended itself, and if it did not end itself, [lg] is what it
    added to the log. *)
Definition ranTests (envs : list Env) (tests : list (list SuiteInfo * Spec))
  (lg : list event) (r r' : Run) : Prop :=
  reports r'
  = reports r
    ++ flat_map (fun ct => reports (fst (attempt envs ct)))
                (survivors envs tests)
  /\ crashed r' = existsb (crashes envs) tests
  /\ (crashed r' = false -> log r' = log r ++ lg).

(** *** The files of the runner's own tests *)

Definition hook (where_ : string) (l : list action) : Hook :=
  {| location := u where_; steps := l |}.

Definition allHook (where_ : string) (l : list wstep) : AllHook :=
  {| wlocation := u where_; wsteps := l |}.

Definition spec (name : string) (l : list action) : Spec :=
  {| title := u name; body := hook name l; sp_skipped := false;
     sp_expectedToFail := false; timeout := 1000 |}.

(** The env of the test called hooks should work with env. *)
Definition MyEnv : Env :=
  {| env_beforeAll := Some (allHook "MyEnv.beforeAll" [WLog (u "+w")]);
     env_afterAll := Some (allHook "MyEnv.afterAll" [WLog (u "-w")]);
     env_beforeEach := Some (hook "MyEnv.beforeEach" [Log (u "+t")]);
     env_afterEach := Some (hook "MyEnv.afterEach" [Log (u "-t")]) |}.

Definition loggingSuite : SuiteInfo :=
  {| s_title := u "suite"; s_skipped := false; s_expectedToFail := false;
     beforeAll := [allHook "beforeAll" [WLog (u "beforeAll-17")]];
     afterAll := [allHook "afterAll" [WLog (u "afterAll-17")]];
     beforeEach := [hook "beforeEach" [Log (u "beforeEach-42")]];
     afterEach := [hook "afterEach" [Log (u "afterEach-42")]] |}.

(** The suite of the test called afterEach failure should not prevent
    other hooks and env teardown. *)
Definition throwingSuite : SuiteInfo :=
  {| s_title := u "suite"; s_skipped := false; s_expectedToFail := false;
     beforeAll := []; afterAll := []; beforeEach := [];
     afterEach :=
       [hook "afterEach1" [Log (u "afterEach1")];
        hook "afterEach2" [Log (u "afterEach2"); Raise (u "afterEach2")]] |}.

(** The suite of the test called skip should take priority over fail. *)
Definition failingSuite : SuiteInfo :=
  {| s_title := u "failing suite"; s_skipped := false;
     s_expectedToFail := true;
     beforeAll := []; afterAll := []; beforeEach := []; afterEach := [] |}.

End Worker.

(* ===================================================================== *)
(** ** src/cli.ts: the files that are loaded *)
(* ===================================================================== *)

Module CliFiles.

(** [a < b] on strings: code unit by code unit, a proper prefix is the
    smaller one. *)
Fixpoint str_ltb (a b : jsstring) : bool :=
  match a, b with
  | _, [] => false
  | [], _ :: _ => true
  | x :: a', y :: b' => N.ltb x y || (N.eqb x y && str_ltb a' b')
  end.

(** What [collectFiles] reads of an entry of the directory walker. *)
Record Entry := {
  type : jsstring;
  depth : Z;
  dirname : jsstring;
  path : jsstring;
}.

(** Lines 158-162: the comparator given to [sort].  [a.dirname.startsWith
    (b.dirname)] is [prefixb (dirname b) (dirname a)], and [a.path > b.path]
    is [b.path < a.path]. *)
Definition compareEntries (a b : Entry) : Z :=
  if negb (Z.eqb (depth a) (depth b))
     && (prefixb (dirname b) (dirname a) || prefixb (dirname a) (dirname b))
  then depth a - depth b
  else if str_ltb (path b) (path a) then 1
  else if str_ltb (path a) (path b) then -1
  else 0.

(** [s.includes(sub)] *)
Definition includes (sub s : jsstring) : bool := (0 <=? indexOf sub s)%Z.

Section Filter.

Variable relative : jsstring -> jsstring -> jsstring.   (* path.relative *)
Variable minimatch : jsstring -> jsstring -> bool.      (* minimatch(file, p) *)

(** The callback of [files.filter] in [filterFiles], with the two patterns
    as they are after lines 166-169.  [filters.find] returns the first
    filter that occurs in the file name, and [!] is applied to that
    string. *)
Definition keepFile (base : jsstring) (filters : list jsstring)
  (filesMatch filesIgnore : jsstring) (file : jsstring) : bool :=
  let file := relative base file in
  if JUnit.nonempty filesIgnore && minimatch file filesIgnore then false
  else if JUnit.nonempty filesMatch && negb (minimatch file filesMatch)
  then false
  else if negb (Nat.eqb (length filters) 0)
          && negb (match find (fun filter => includes filter file) filters with
                   | Some found => JUnit.nonempty found
                   | None => false
                   end)
  then false
  else true.

(** [filterFiles(base, files, filters, filesMatch, filesIgnore)] *)
Definition filterFiles (base : jsstring) (files filters : list jsstring)
  (filesMatch filesIgnore : jsstring) : list jsstring :=
  let filesIgnore :=
    if negb (includes (u "/") filesIgnore) && negb (includes [92%N] filesIgnore)
    then u "**/" ++ filesIgnore else filesIgnore in
  let filesMatch :=
    if negb (includes (u "/") filesMatch) && negb (includes [92%N] filesMatch)
    then u "**/" ++ filesMatch else filesMatch in
  filter (keepFile base filters filesMatch filesIgnore) files.

End Filter.

(** The test of [filterFiles] on the names given on the command line,
    taken alone: some filter occurs in the file name relative to [base],
    and the first such filter is not the empty string. *)
Definition nameSelected (relative : jsstring -> jsstring -> jsstring)
  (base : jsstring) (filters : list jsstring) (file : jsstring) : bool :=
  match find (fun filter => includes filter (relative base file)) filters with
  | Some found => JUnit.nonempty found
  | None => false
  end.

End CliFiles.

(* ===================================================================== *)
(** ** src/cli.ts: the options copied into the configuration *)
(* ===================================================================== *)

Module CliOptions.

(** The options of the parsed command line that lines 97-123 read: a flag
    is set or not, an option with a value is undefined or the text
    given. *)
Record Command := {
  forbidOnly : bool;
  globalTimeout : jsval;
  grep : jsval;
  maxFailures : jsval;
  x : bool;
  output : jsval;
  quiet : bool;
  repeatEach : jsval;
  retries : jsval;
  snapshotDir : jsval;
  timeout : jsval;
  updateSnapshots : bool;
  workers : jsval;
}.

Record Config := {
  c_testDir : jsval;
  c_forbidOnly : bool;
  c_globalTimeout : jsval;
  c_grep : jsval;
  c_maxFailures : jsval;
  c_outputDir : jsval;
  c_quiet : bool;
  c_repeatEach : jsval;
  c_retries : jsval;
  c_shard : option Cli.Shard;
  c_snapshotDir : jsval;
  c_timeout : jsval;
  c_updateSnapshots : bool;
  c_workers : jsval;
}.

(** [parseInt(v, 10)] on the value of an option: a number is turned into
    its text first, and reads back as itself. *)
Definition parseIntOf (v : jsval) : jsval :=
  match v with
  | VStr s => parseInt10 s
  | VNum z => VNum z
  | _ => VNaN
  end.

(** Lines 97-123 of [runTests]: [config] afterwards. *)
Definition assignOptions (config : Config) (command : Command)
  (testDir : jsstring) (shard : option Cli.Shard) : Config :=
  {| c_testDir := VStr testDir;
     c_forbidOnly := if forbidOnly command then true else c_forbidOnly config;
     c_globalTimeout :=
       if truthy (globalTimeout command)
       then parseIntOf (globalTimeout command)
       else c_globalTimeout config;
     c_grep := if truthy (grep command) then grep command else c_grep config;
     c_maxFailures :=
       if truthy (maxFailures command) || x command
       then if x command then VNum 1
            else parseIntOf (maxFailures command)
       else c_maxFailures config;
     c_outputDir :=
       if truthy (output command) then output command else c_outputDir config;
     c_quiet := if quiet command then quiet command else c_quiet config;
     c_repeatEach :=
       if truthy (repeatEach command)
       then parseIntOf (repeatEach command)
       else c_repeatEach config;
     c_retries :=
       if truthy (retries command)
       then parseIntOf (retries command)
       else c_retries config;
     c_shard := match shard with
                | Some sh => Some sh
                | None => c_shard config
                end;
     c_snapshotDir :=
       if truthy (snapshotDir command) then snapshotDir command
       else c_snapshotDir config;
     c_timeout :=
       if truthy (timeout command)
       then parseIntOf (timeout command)
       else c_timeout config;
     c_updateSnapshots :=
       if updateSnapshots command then negb (negb (updateSnapshots command))
       else c_updateSnapshots config;
     c_workers :=
       if truthy (workers command)
       then parseIntOf (workers command)
       else c_workers config |}.

End CliOptions.

(* ===================================================================== *)
(** ** src/reporters/junit.ts: measures of a report *)
(* ===================================================================== *)

Module JUnitShape.
Import JUnit.

(** The number of entries of a tree, and the number of those that have a
    non-empty text. *)
Fixpoint entries (e : XMLEntry) : nat :=
  match e with
  | Entry _ _ c _ =>
      S (match c with
         | Some l => fold_right (fun k n => entries k + n) 0 l
         | None => 0
         end)
  end.

Fixpoint texts (e : XMLEntry) : nat :=
  match e with
  | Entry _ _ c t =>
      (match t with
       | Some s => if nonempty s then 1 else 0
       | None => 0
       end)
      + match c with
        | Some l => fold_right (fun k n => texts k + n) 0 l
        | None => 0
        end
  end.

(** The milliseconds behind a [time] attribute. *)
Definition msAttr (key : string) (e : XMLEntry) : Z :=
  match attrOf key e with
  | Some (ANum (Div1000 ms)) => ms
  | _ => 0
  end.

(** [s] ends with [p]. *)
Definition suffixb (p s : jsstring) : bool := prefixb (rev p) (rev s).

(** A unit that [escape] leaves alone wherever the text goes. *)
Definition plainUnit (c : N) : Prop :=
  c <> 38%N /\ c <> 34%N /\ c <> 60%N /\ c <> 62%N /\ discouraged c = false.

End JUnitShape.

(* ===================================================================== *)
(** ** Reading a JUnit report back *)
(* ===================================================================== *)

Module JUnitRead.
Import JUnit.

(** What follows does not come from the source: it reads the text of a
    report as a reader of XML would, to say what the text written by
    [onEnd] contains. *)

(** An element as it stands in the text: its name and its attributes in
    order, each with the text between its quotes. *)
Definition element : Type := jsstring * list (jsstring * jsstring).

(** Where the reader is: between tags, in the name that follows [<], in a
    closing tag, in an opening tag between attributes, in the name of an
    attribute, after its [=], or in its quoted value.  Names and values
    being read are held in reverse. *)
Inductive scan :=
| Outside
| InName (n : jsstring)
| Closing
| InTag (n : jsstring) (attrs : list (jsstring * jsstring))
| InKey (n : jsstring) (attrs : list (jsstring * jsstring)) (k : jsstring)
| AfterEq (n : jsstring) (attrs : list (jsstring * jsstring)) (k : jsstring)
| InValue (n : jsstring) (attrs : list (jsstring * jsstring))
          (k v : jsstring).

(** The opening tags of a text, in order.  A tag starts at [<] and ends
    at the next [>] outside a quoted value; [</] starts a closing tag. *)
Fixpoint elementsFrom (st : scan) (s : jsstring) : list element :=
  match s with
  | [] => []
  | c :: rest =>
      match st with
      | Outside =>
          elementsFrom (if N.eqb c 60 then InName [] else Outside) rest
      | InName n =>
          if N.eqb c 62 then (rev n, []) :: elementsFrom Outside rest
          else if N.eqb c 32 then elementsFrom (InTag (rev n) []) rest
          else if N.eqb c 47 && negb (nonempty n)
               then elementsFrom Closing rest
               else elementsFrom (InName (c :: n)) rest
      | Closing =>
          elementsFrom (if N.eqb c 62 then Outside else Closing) rest
      | InTag n attrs =>
          if N.eqb c 62 then (n, attrs) :: elementsFrom Outside rest
          else if N.eqb c 32 then elementsFrom (InTag n attrs) rest
          else elementsFrom (InKey n attrs [c]) rest
      | InKey n attrs k =>
          if N.eqb c 61 then elementsFrom (AfterEq n attrs (rev k)) rest
          else elementsFrom (InKey n attrs (c :: k)) rest
      | AfterEq n attrs k => elementsFrom (InValue n attrs k []) rest
      | InValue n attrs k v =>
          if N.eqb c 34
          then elementsFrom (InTag n (attrs ++ [(k, rev v)])) rest
          else elementsFrom (InValue n attrs k (c :: v)) rest
      end
  end.

Definition elements (report : jsstring) : list element :=
  elementsFrom Outside report.

Definition isElement (n : string) (e : element) : bool :=
  str_eqb (fst e) (u n).

Fixpoint valueOf (key : jsstring) (l : list (jsstring * jsstring))
  : option jsstring :=
  match l with
  | [] => None
  | (k, v) :: rest => if str_eqb k key then Some v else valueOf key rest
  end.

(** The text of an attribute of an element. *)
Definition attribute (key : string) (e : element) : option jsstring :=
  valueOf (u key) (snd e).

(** The elements of a tree of entries in document order, the value of an
    attribute being written by [render]. *)
Fixpoint content (render : attr -> jsstring) (e : XMLEntry) : list element :=
  match e with
  | Entry n a c _ =>
      (n, map (fun na : jsstring * attr => (fst na, render (snd na)))
              (match a with Some a => a | None => [] end))
      :: match c with
         | Some l => flat_map (content render) l
         | None => []
         end
  end.

(** Names that a reader gets back: the name of an entry has no space, no
    [>] and no [/]; the name of an attribute is not empty and has no
    space, no [>] and no [=]. *)
Definition cleanName (n : jsstring) : bool :=
  forallb (fun c => negb (N.eqb c 62) && negb (N.eqb c 32)
                    && negb (N.eqb c 47)) n.

Definition cleanKey (k : jsstring) : bool :=
  nonempty k
  && forallb (fun c => negb (N.eqb c 62) && negb (N.eqb c 32)
                       && negb (N.eqb c 61)) k.

Fixpoint clean (e : XMLEntry) : bool :=
  match e with
  | Entry n a c _ =>
      cleanName n
      && forallb (fun na : jsstring * attr => cleanKey (fst na))
                 (match a with Some a => a | None => [] end)
      && match c with
         | Some l => forallb clean l
         | None => true
         end
  end.

(** The names of the elements that stand for one test: its [testcase],
    the [skipped] or [failure] inside it, and the outputs after it. *)
Definition elementNamesOf (t : Test) : list jsstring :=
  u "testcase"
  :: (if skipped t then [u "skipped"]
      else (if negb (ok t) then [u "failure"] else [])
           ++ flat_map (fun r => map (fun _ => u "system-out") (stdout r)
                                 ++ map (fun _ => u "system-err") (stderr r))
                       (results t)).

End JUnitRead.

(* ===================================================================== *)
(** ** src/reporters/service.ts: the end of the run *)
(* ===================================================================== *)

Module ServiceEnd.
Import Service.

(** *** The files of a folder *)

(** A folder as [fs.readdirSync] and [fs.statSync] show it: its entries by
    name, in the order of the listing; an entry is a file ([None]) or a
    folder. *)
Inductive Folder :=
| Listing (entries : list (jsstring * option Folder)).

(** [getAllFilesFromFolder(dir)], for a [dir] that is a folder. *)
Fixpoint getAllFilesFromFolder (dir : jsstring) (folder : Folder)
  : list jsstring :=
  match folder with
  | Listing entries =>
      fold_left
        (fun results entry =>
           let file := dir ++ u "/" ++ fst entry in
           match snd entry with
           | Some sub => results ++ getAllFilesFromFolder file sub
           | None => results ++ [file]
           end)
        entries []
  end.

(** The number of files below a folder. *)
Fixpoint fileCount (folder : Folder) : nat :=
  match folder with
  | Listing entries =>
      fold_right
        (fun entry n =>
           match snd entry with
           | Some sub => fileCount sub + n
           | None => S n
           end)
        0 entries
  end.

(** *** The results of the run *)

Record TestResult := { duration : Z }.

(** A test as [onEnd] reads it: what [Service.Test] has, and its
    outcome. *)
Record Test := {
  test : Service.Test;
  skipped : bool;               (* test.skipped *)
  ok : bool;                    (* test.ok() *)
  results : list TestResult;
}.

Inductive Suite :=
| MkSuite (file : jsstring) (suites : list Suite) (specs : list (list Test)).

Definition suiteFile (s : Suite) : jsstring :=
  let '(MkSuite f _ _) := s in f.
Definition suites (s : Suite) : list Suite :=
  let '(MkSuite _ l _) := s in l.

(** Modelled from the spec: [Suite.findTest] (src/test.ts is not under
    src/) visits every test of the suite once when the callback returns
    nothing: the tests of the child suites first, then those of the
    suite's own specs, in declaration order. *)
Fixpoint findTest (s : Suite) : list Test :=
  match s with
  | MkSuite _ subs sps => flat_map findTest subs ++ concat sps
  end.

Record TestCaseResult := {
  tc_name : jsstring;
  tc_status : jsstring;
  tc_duration : Z;                       (* milliseconds, shown over 1000 *)
  tc_failureMessages : list jsstring;
  tc_artifacts : option (list jsstring); (* undefined for an unknown key *)
}.

Record TestSuiteResult := {
  ts_path : jsstring;
  ts_numTotalTests : Z;
  ts_numFailedTests : Z;
  ts_numSkippedTests : Z;
  ts_numPassedTests : Z;
  ts_duration : Z;                       (* milliseconds, shown over 1000 *)
  ts_tests : list TestCaseResult;
}.

Record RunResult := {
  id : jsval;
  tenantId : jsval;
  workflowId : jsval;
  workflowName : jsval;
  workflowUrl : jsval;
  repo : jsval;
  branch : jsval;
  triggerType : jsval;
  triggerId : jsval;
  triggerUrl : jsval;
  numTotalTestSuites : Z;
  numFailedTestSuites : Z;
  numSkippedTestSuites : Z;
  numPassedTestSuites : Z;
  numTotalTests : Z;
  numFailedTests : Z;
  numSkippedTests : Z;
  numPassedTests : Z;
  rr_startTime : Z;
  rr_endTime : Z;
  status : bool;
  testResults : list jsstring;
}.

(** The reporter with the fields that [onEnd] reads and writes. *)
Record State := {
  reporter : Service.Reporter;
  suite : option Suite;
  endTime : Z;
  totalTestSuites : Z;
  failedTestSuites : Z;
  skippedTestSuites : Z;
  totalTests : Z;
  failedTests : Z;
  skippedTests : Z;
}.

(** The reporter after its constructor and [onBegin]. *)
Definition begun (r : Service.Reporter) (top : Suite) : State :=
  {| reporter := r; suite := Some top; endTime := 0;
     totalTestSuites := 0; failedTestSuites := 0; skippedTestSuites := 0;
     totalTests := 0; failedTests := 0; skippedTests := 0 |}.

(** What [onEnd] does outside the reporter. *)
Inductive effect :=
| WriteFile (file content : jsstring)       (* fs.writeFileSync *)
| Exec (command : jsstring)                 (* childProcess.execSync *)
| UploadStarted (up : Upload)               (* blobClient.uploadFile *)
| UploadRejected (e : error)                (* the async call rejects *)
| Post (runResult : RunResult).             (* postRunResult *)

(** How a method leaves the reporter: the state it has reached, what it
    has done outside, and the error it raised, if any. *)
Record Outcome := {
  after : State;
  effects : list effect;
  raised : option error;
}.

(** [map.get(key)] on the entries that [onTestEnd] has set, the last
    assignment of a key being the one that counts. *)
Definition mapGet (key : jsstring) (m : list (jsstring * list jsstring))
  : option (list jsstring) :=
  match find (fun kv => str_eqb (fst kv) key) (rev m) with
  | Some kv => Some (snd kv)
  | None => None
  end.

(** The local variables of [_getTestSuiteResults]. *)
Record Locals := {
  l_tests : Z;
  l_skipped : Z;
  l_failures : Z;
  l_duration : Z;
  l_testCases : list TestCaseResult;
}.

Section End_.

Variable relative : jsstring -> jsstring -> jsstring.   (* path.relative *)
Variable String_num : Z -> jsstring.                    (* String(n) *)
Variable env : jsstring -> jsval.                       (* process.env *)
Variable formatFailure : option Config -> Test -> jsstring.
Variable stripAscii : jsstring -> jsstring.
Variable stringify : list TestSuiteResult -> jsstring.  (* JSON.stringify *)

(** [_addTestCaseResult(test, testcases)]: the value of [testcases]
    afterwards.  In the object literal [this.artifactMap.get] is read
    before its argument is evaluated. *)
Definition _addTestCaseResult (r : Service.Reporter) (t : Test)
  (testcases : list TestCaseResult) : result (list TestCaseResult) :=
  let '(status, failureMessages) :=
    if skipped t then (u "skipped", [])
    else if ok t then (u "passed", [])
    else (u "failed", [stripAscii (formatFailure (config r) t)]) in
  let duration :=
    fold_left (fun acc value => (acc + duration value)%Z) (results t) 0%Z in
  match artifactMap r with
  | None => Throw (TypeError (u "get"))
  | Some m =>
      match config r with
      | None => Throw (TypeError (u "testDir"))
      | Some cfg =>
          Ok (testcases
              ++ [{| tc_name := fullTitle (spec (test t));
                     tc_status := status;
                     tc_duration := duration;
                     tc_failureMessages := failureMessages;
                     tc_artifacts :=
                       mapGet (_getTestKey relative String_num cfg (test t)) m
                  |}])
      end
  end.

(** The callback given to [suite.findTest] in [_getTestSuiteResults]. *)
Definition visit (r : Service.Reporter) (acc : Locals) (t : Test)
  : result Locals :=
  let tests := (l_tests acc + 1)%Z in
  let skipped := if skipped t then (l_skipped acc + 1)%Z else l_skipped acc in
  let failures :=
    if negb (ok t) then (l_failures acc + 1)%Z else l_failures acc in
  let duration :=
    fold_left (fun d result => (d + duration result)%Z) (results t)
              (l_duration acc) in
  bind (_addTestCaseResult r t (l_testCases acc))
       (fun testCases =>
          Ok {| l_tests := tests; l_skipped := skipped;
                l_failures := failures; l_duration := duration;
                l_testCases := testCases |}).

(** The callback applied to the tests in turn, until one call raises. *)
Fixpoint visitAll (r : Service.Reporter) (tests : list Test) (acc : Locals)
  : result Locals :=
  match tests with
  | [] => Ok acc
  | t :: rest => bind (visit r acc t) (visitAll r rest)
  end.

(** [_getTestSuiteResults(suite)]: the reporter afterwards and the value
    returned, or the error raised by the callback, in which case the
    counters of the reporter are as before. *)
Definition _getTestSuiteResults (st : State) (s : Suite)
  : result (State * TestSuiteResult) :=
  bind (visitAll (reporter st) (findTest s)
          {| l_tests := 0; l_skipped := 0; l_failures := 0; l_duration := 0;
             l_testCases := [] |})
       (fun acc =>
          let tests := l_tests acc in
          let skipped := l_skipped acc in
          let failures := l_failures acc in
          let st' :=
            {| reporter := reporter st; suite := suite st;
               endTime := endTime st;
               totalTestSuites := totalTestSuites st + 1;
               failedTestSuites :=
                 if Z.eqb tests skipped then failedTestSuites st
                 else if negb (Z.eqb failures 0) then failedTestSuites st + 1
                 else failedTestSuites st;
               skippedTestSuites :=
                 if Z.eqb tests skipped then skippedTestSuites st + 1
                 else skippedTestSuites st;
               totalTests := totalTests st + tests;
               failedTests := failedTests st + failures;
               skippedTests := skippedTests st + skipped |} in
          Ok (st',
              {| ts_path := suiteFile s;
                 ts_numTotalTests := tests;
                 ts_numFailedTests := failures;
                 ts_numSkippedTests := skipped;
                 ts_numPassedTests := tests - (failures + skipped);
                 ts_duration := l_duration acc;
                 ts_tests := l_testCases acc |})).

(** The loop of [_registerTestResults] over the suites of the files. *)
Fixpoint collectSuites (st : State) (l : list Suite)
  (testSuites : list TestSuiteResult)
  : State * result (list TestSuiteResult) :=
  match l with
  | [] => (st, Ok testSuites)
  | s :: rest =>
      match _getTestSuiteResults st s with
      | Throw e => (st, Throw e)
      | Ok (st', res) => collectSuites st' rest (testSuites ++ [res])
      end
  end.

(** [_registerTestResults()].  Writing the file and running [zip] are
    taken to succeed; the upload is started by an async method that is
    not awaited, so an error in it rejects a promise and raises nothing
    here. *)
Definition _registerTestResults (st : State) : Outcome :=
  match suite st with
  | None => {| after := st; effects := [];
               raised := Some (TypeError (u "suites")) |}
  | Some top =>
      match collectSuites st (suites top) [] with
      | (st', Throw e) => {| after := st'; effects := []; raised := Some e |}
      | (st', Ok testSuites) =>
          match config (reporter st') with
          | None => {| after := st'; effects := [];
                       raised := Some (TypeError (u "outputDir")) |}
          | Some cfg =>
              let testResultsFile := outputDir cfg ++ u "/testResults.json" in
              let testResultsZippedFile :=
                outputDir cfg ++ u "/testResults.zip" in
              {| after := st';
                 effects :=
                   [ WriteFile testResultsFile (stringify testSuites);
                     Exec (u "zip " ++ outputDir cfg ++ u "/testResults "
                           ++ testResultsFile);
                     match _createBlobInContainer (reporter st')
                             testResultsZippedFile
                             (_getRelativePath testResultsZippedFile) with
                     | Ok up => UploadStarted up
                     | Throw e => UploadRejected e
                     end ];
                 raised := None |}
          end
      end
  end.

(** [_registerRunResult()]: the members of the object literal are
    evaluated in order, the last one being [this._getTestResultBlobs()];
    [postRunResult] is called with the finished object. *)
Definition _registerRunResult (st : State) : Outcome :=
  match _getTestResultBlobs String_num env (reporter st) with
  | Throw e => {| after := st; effects := []; raised := Some e |}
  | Ok blobs =>
      {| after := st;
         effects :=
           [Post {| id := env (u "GITHUB_RUN_ID");
                    tenantId := env (u "TENANT_ID");
                    workflowId := env (u "WORKFLOW_ID");
                    workflowName := env (u "GITHUB_WORKFLOW");
                    workflowUrl := env (u "WORKFLOW_URL");
                    repo := env (u "GITHUB_REPOSITORY");
                    branch := env (u "BRANCH_NAME");
                    triggerType := env (u "TRIGGER_TYPE");
                    triggerId := env (u "GITHUB_SHA");
                    triggerUrl := env (u "TRIGGER_URL");
                    numTotalTestSuites := totalTestSuites st;
                    numFailedTestSuites := failedTestSuites st;
                    numSkippedTestSuites := skippedTestSuites st;
                    numPassedTestSuites :=
                      totalTestSuites st
                      - (failedTestSuites st + skippedTestSuites st);
                    numTotalTests := totalTests st;
                    numFailedTests := failedTests st;
                    numSkippedTests := skippedTests st;
                    numPassedTests :=
                      totalTests st - (failedTests st + skippedTests st);
                    rr_startTime := startTime (reporter st);
                    rr_endTime := endTime st;
                    status := Z.eqb (failedTests st) 0;
                    testResults := blobs |}];
         raised := None |}
  end.

(** [onEnd()]; [mono] is [monotonicTime()]. *)
Definition onEnd (st : State) (mono : Z) : Outcome :=
  let st :=
    {| reporter := reporter st; suite := suite st; endTime := mono;
       totalTestSuites := totalTestSuites st;
       failedTestSuites := failedTestSuites st;
       skippedTestSuites := skippedTestSuites st;
       totalTests := totalTests st; failedTests := failedTests st;
       skippedTests := skippedTests st |} in
  let o1 := _registerTestResults st in
  match raised o1 with
  | Some e => o1
  | None =>
      let o2 := _registerRunResult (after o1) in
      {| after := after o2; effects := effects o1 ++ effects o2;
         raised := raised o2 |}
  end.

(** [onTimeout()] *)
Definition onTimeout (st : State) (mono : Z) : Outcome := onEnd st mono.

End End_.

Definition isPost (e : effect) : bool :=
  match e with Post _ => true | _ => false end.

End ServiceEnd.

(* ===================================================================== *)
(** * Properties *)
(* ===================================================================== *)

(** ** Strings and numbers *)

Lemma str_eqb_eq (a b : jsstring) : str_eqb a b = true <-> a = b.
Proof.
  revert b; induction a as [|x a IH]; intros [|y b]; simpl; split;
    try congruence; try reflexivity.
  - intros H. apply andb_prop in H. destruct H as [H1 H2].
    apply N.eqb_eq in H1. apply IH in H2. congruence.
  - intros H. injection H as -> ->. rewrite N.eqb_refl. simpl.
    now apply IH.
Qed.

Lemma str_eqb_neq (a b : jsstring) : str_eqb a b = false <-> a <> b.
Proof.
  split.
  - intros H E. apply str_eqb_eq in E. congruence.
  - intros H. destruct (str_eqb a b) eqn:E; [|reflexivity].
    apply str_eqb_eq in E. contradiction.
Qed.

Lemma value_from_shift a ds :
  value_from a ds
  = (a * 10 ^ Z.of_nat (length ds) + value_from 0 ds)%Z.
Proof.
  revert a; induction ds as [|d ds IH]; intros a.
  - simpl. lia.
  - change (value_from a (d :: ds))
      with (value_from (10 * a + (Z.of_N d - 48)) ds).
    change (value_from 0 (d :: ds))
      with (value_from (10 * 0 + (Z.of_N d - 48)) ds).
    rewrite (IH (10 * a + (Z.of_N d - 48))%Z).
    rewrite (IH (10 * 0 + (Z.of_N d - 48))%Z).
    replace (Z.of_nat (length (d :: ds))) with (1 + Z.of_nat (length ds))%Z
      by (simpl length; lia).
    rewrite Z.pow_add_r by lia. lia.
Qed.

Lemma digits_fuel_S f n acc :
  digits_fuel (S f) n acc
  = if N.eqb (n / 10) 0 then (48 + n mod 10)%N :: acc
    else digits_fuel f (n / 10) ((48 + n mod 10)%N :: acc).
Proof. reflexivity. Qed.

Lemma digits_fuel_digits f : forall n acc,
  Forall (fun d => is_digit d = true) acc ->
  Forall (fun d => is_digit d = true) (digits_fuel f n acc).
Proof.
  induction f as [|f IH]; intros n acc H; [assumption|].
  rewrite digits_fuel_S.
  assert (Hd : is_digit (48 + n mod 10) = true).
  { unfold is_digit. pose proof (N.mod_lt n 10 ltac:(lia)) as Hm.
    revert Hm. generalize (n mod 10)%N. intros m Hm.
    apply andb_true_intro; split; apply N.leb_le; lia. }
  destruct (N.eqb (n / 10) 0); [|apply IH]; constructor; assumption.
Qed.

Lemma digits_fuel_nonempty f n acc : digits_fuel (S f) n acc <> [].
Proof.
  revert n acc; induction f as [|f IH]; intros n acc.
  - rewrite digits_fuel_S. destruct (N.eqb (n / 10) 0); discriminate.
  - rewrite digits_fuel_S.
    destruct (N.eqb (n / 10) 0); [discriminate|apply IH].
Qed.

Lemma digits_fuel_value f : forall n acc,
  (n < 10 ^ N.of_nat f)%N ->
  value_from 0 (digits_fuel f n acc)
  = (Z.of_N n * 10 ^ Z.of_nat (length acc) + value_from 0 acc)%Z.
Proof.
  induction f as [|f IH]; intros n acc Hn.
  - simpl in *. assert (n = 0%N) by lia. subst. simpl. lia.
  - rewrite digits_fuel_S.
    assert (Hdm : n = (10 * (n / 10) + n mod 10)%N)
      by (apply N.div_mod; lia).
    pose proof (N.mod_lt n 10 ltac:(lia)) as Hm.
    assert (Hq : (n / 10 < 10 ^ N.of_nat f)%N).
    { apply N.Div0.div_lt_upper_bound.
      replace (N.of_nat (S f)) with (N.succ (N.of_nat f)) in Hn by lia.
      rewrite N.pow_succ_r in Hn by lia. exact Hn. }
    specialize (IH (n / 10)%N ((48 + n mod 10)%N :: acc) Hq).
    revert IH Hdm Hm. generalize (n / 10)%N (n mod 10)%N. intros q m IH Hdm Hm.
    assert (Hstep :
      value_from 0 ((48 + m)%N :: acc)
      = (Z.of_N m * 10 ^ Z.of_nat (length acc) + value_from 0 acc)%Z).
    { change (value_from 0 ((48 + m)%N :: acc))
        with (value_from (10 * 0 + (Z.of_N (48 + m) - 48)) acc).
      rewrite value_from_shift. f_equal. f_equal. lia. }
    destruct (N.eqb q 0) eqn:E.
    + apply N.eqb_eq in E. rewrite Hstep. subst q.
      replace m with n by lia. reflexivity.
    + rewrite IH, Hstep. simpl length. rewrite Nat2Z.inj_succ.
      rewrite Z.pow_succ_r by lia. subst n. lia.
Qed.

Lemma decimal_digits n : Forall (fun d => is_digit d = true) (decimal n).
Proof. apply digits_fuel_digits. constructor. Qed.

Lemma decimal_nonempty n : decimal n <> [].
Proof. apply digits_fuel_nonempty. Qed.

Lemma decimal_value n : value_from 0 (decimal n) = Z.of_N n.
Proof.
  unfold decimal. rewrite digits_fuel_value.
  - simpl. lia.
  - destruct (N.eq_dec n 0) as [->|Hn]; [reflexivity|].
    pose proof (N.log2_spec n ltac:(lia)) as [_ H].
    eapply N.lt_le_trans; [exact H|].
    replace (N.of_nat (S (N.to_nat (N.log2 n)))) with (N.succ (N.log2 n))
      by lia.
    apply N.pow_le_mono_l. lia.
Qed.

Lemma digits_value_all acc ds :
  Forall (fun d => is_digit d = true) ds -> ds <> [] ->
  digits_value acc ds
  = Some (value_from (match acc with Some a => a | None => 0%Z end) ds).
Proof.
  revert acc; induction ds as [|d ds IH]; intros acc Hall Hne;
    [contradiction|].
  inversion Hall as [|? ? Hd Hds]; subst. simpl. rewrite Hd.
  destruct ds as [|e ds']; [reflexivity|].
  rewrite IH; [reflexivity|assumption|discriminate].
Qed.

Lemma digit_not_space d : is_digit d = true -> is_js_space d = false.
Proof.
  unfold is_digit, is_js_space. intros H. apply andb_prop in H.
  destruct H as [H1 H2]. apply N.leb_le in H1, H2.
  repeat match goal with
         | |- context [N.leb ?a ?b] =>
             destruct (N.leb_spec a b); try lia
         | |- context [N.eqb ?a ?b] =>
             destruct (N.eqb_spec a b); try lia
         end; reflexivity.
Qed.

Lemma read_sign_digit d ds :
  is_digit d = true -> read_sign (d :: ds) = (1%Z, d :: ds).
Proof.
  intros Hd. destruct d as [|p]; [reflexivity|].
  do 6 (destruct p as [p|p|]; try reflexivity); discriminate Hd.
Qed.

(** [parseInt] reads back the decimal writing of a natural number. *)
Lemma parseInt10_decimal n : parseInt10 (decimal n) = VNum (Z.of_N n).
Proof.
  pose proof (decimal_digits n) as Hall.
  pose proof (decimal_nonempty n) as Hne.
  pose proof (decimal_value n) as Hv.
  unfold parseInt10. destruct (decimal n) as [|d ds]; [contradiction|].
  inversion Hall as [|? ? Hd Hds]; subst.
  simpl skip_space. rewrite (digit_not_space d Hd).
  rewrite (read_sign_digit d ds Hd).
  rewrite digits_value_all; [|assumption|discriminate].
  rewrite Hv. f_equal. lia.
Qed.

Lemma split_on_digits sep ds rest :
  Forall (fun d => is_digit d = true) ds -> is_digit sep = false ->
  split_on sep (ds ++ sep :: rest)
  = ds :: split_on sep rest.
Proof.
  intros Hall Hsep. induction Hall as [|d ds Hd Hds IH]; simpl.
  - now rewrite N.eqb_refl.
  - destruct (N.eqb_spec d sep) as [->|_]; [congruence|].
    now rewrite IH.
Qed.

Lemma split_on_no_sep sep ds :
  Forall (fun d => is_digit d = true) ds -> is_digit sep = false ->
  split_on sep ds = [ds].
Proof.
  intros Hall Hsep. induction Hall as [|d ds Hd Hds IH]; simpl.
  - reflexivity.
  - destruct (N.eqb_spec d sep) as [->|_]; [congruence|].
    now rewrite IH.
Qed.

(* ===================================================================== *)
(** ** The command line *)
(* ===================================================================== *)

Section CliProperties.
Import Cli.

(** C1. Every invocation of [runTests] that gets the runner's result ends
    the process with an exit code chosen from that result: 130 for
    [sigint]; 1 for [forbid-only], [no-tests] and [failed]; 0 for every
    other result. *)
Theorem runTests_exit_code (d : Config) (cmd : Command) (w : World) :
  reachesRun cmd w = true ->
  exists code,
    snd (runTests d cmd w) = Exited code /\
    action d cmd w = Exited code /\
    (runResult w = u "sigint" -> code = 130%Z) /\
    (runResult w = u "forbid-only" \/ runResult w = u "no-tests"
     \/ runResult w = u "failed" -> code = 1%Z) /\
    (runResult w <> u "sigint" -> runResult w <> u "forbid-only" ->
     runResult w <> u "no-tests" -> runResult w <> u "failed" ->
     code = 0%Z).
Proof.
  unfold reachesRun, loads. intros H.
  exists (exitCodeOf (runResult w)).
  assert (Hrun : snd (runTests d cmd w) = Exited (exitCodeOf (runResult w))).
  { unfold runTests.
    destruct (reportersResolve w); [|discriminate].
    destruct (existsSync w); [|discriminate].
    destruct (isDirectory w); [|discriminate].
    destruct (cmd_list cmd); [discriminate|reflexivity]. }
  clear H.
  split; [exact Hrun|]. split; [unfold action; now rewrite Hrun|].
  unfold exitCodeOf. repeat split.
  - intros ->. reflexivity.
  - intros [-> | [-> | ->]]; reflexivity.
  - intros H1 H2 H3 H4.
    apply str_eqb_neq in H1, H2, H3, H4. now rewrite H1, H2, H3, H4.
Qed.

Lemma runTests_exit_code_witness :
  let d := {| c_testDir := VUndefined; c_shard := None |} in
  let cmd := {| cmd_shard := VUndefined; cmd_list := false |} in
  let w := {| reportersResolve := true; testDir := u "/repo/test";
              existsSync := true; isDirectory := true;
              runResult := u "no-tests" |} in
  reachesRun cmd w = true /\
  exists code,
    snd (runTests d cmd w) = Exited code /\
    action d cmd w = Exited code /\
    (runResult w = u "sigint" -> code = 130%Z) /\
    (runResult w = u "forbid-only" \/ runResult w = u "no-tests"
     \/ runResult w = u "failed" -> code = 1%Z) /\
    (runResult w <> u "sigint" -> runResult w <> u "forbid-only" ->
     runResult w <> u "no-tests" -> runResult w <> u "failed" ->
     code = 0%Z).
Proof.
  intros d cmd w. split; [reflexivity|].
  apply (runTests_exit_code d cmd w). reflexivity.
Defined.

(** The exits that do not come from the runner's result. *)
Lemma runTests_other_exits (d : Config) (cmd : Command) (w : World) :
  reachesRun cmd w = false ->
  action d cmd w = Exited 1 \/ action d cmd w = Returned.
Proof.
  unfold reachesRun, loads, action, runTests. intros H.
  destruct (reportersResolve w); [|now left].
  destruct (existsSync w); [|now left].
  destruct (isDirectory w); [|now left].
  destruct (cmd_list cmd); [now right|discriminate].
Qed.

(** The shard filter in terms of list positions. *)
Lemma shardFilterFrom_positions {A} (sh : Shard) (tests : list A) :
  forall i,
    shardFilterFrom sh i tests
    = map snd
        (filter (fun p => js_num_eq (js_rem (VNum (Z.of_nat (fst p)))
                                            (total sh)) (current sh))
                (combine (seq i (length tests)) tests)).
Proof.
  induction tests as [|x tests IH]; intros i; [reflexivity|].
  cbn [shardFilterFrom length seq combine filter fst]. rewrite IH.
  destruct (js_num_eq (js_rem (VNum (Z.of_nat i)) (total sh)) (current sh));
    reflexivity.
Qed.

Lemma js_rem_index (i : nat) (t k : Z) :
  (0 <= t)%Z ->
  js_num_eq (js_rem (VNum (Z.of_nat i)) (VNum t)) (VNum k)
  = ((0 <? t)%Z && (Z.of_nat i mod t =? k)%Z).
Proof.
  intros Ht. simpl. destruct (Z.eqb_spec t 0) as [->|Hne]; [reflexivity|].
  assert (0 < t)%Z as Hpos by lia.
  apply Z.ltb_lt in Hpos as Hb. rewrite Hb. simpl.
  rewrite Z.rem_mod_nonneg by lia. reflexivity.
Qed.

(** C4. For [--shard c/t] with [c] and [t] written in decimal, the shard
    that [runTests] stores in the configuration is
    [{current: c-1, total: t}], and the shard filter then keeps exactly
    the tests whose position [i] in the filtered list satisfies
    [i % t == c-1].  The numbers stay below 2^53, where the exact integers
    used here are the numbers of the program. *)
Theorem shard_cli_selector {A} (c t : N) (d : Config) (cmd : Command)
  (w : World) (tests : list A) :
  (c < 2 ^ 53)%N -> (t < 2 ^ 53)%N ->
  cmd_shard cmd = VStr (decimal c ++ u "/" ++ decimal t) ->
  loads w = true ->
  c_shard (fst (runTests d cmd w))
  = Some {| current := VNum (Z.of_N c - 1); total := VNum (Z.of_N t) |}
  /\ shardFilter (c_shard (fst (runTests d cmd w))) tests
     = map snd
         (filter (fun p => (0 <? Z.of_N t)%Z
                           && (Z.of_nat (fst p) mod Z.of_N t
                               =? Z.of_N c - 1)%Z)
                 (combine (seq 0 (length tests)) tests)).
Proof.
  intros _ _ Hs Hw.
  assert (Hp : parseShard cmd
               = Some {| current := VNum (Z.of_N c - 1);
                         total := VNum (Z.of_N t) |}).
  { unfold parseShard. rewrite Hs.
    assert (Htr : truthy (VStr (decimal c ++ u "/" ++ decimal t)) = true).
    { simpl. pose proof (decimal_nonempty c).
      destruct (decimal c); [contradiction|reflexivity]. }
    rewrite Htr.
    change (u "/" ++ decimal t) with (47%N :: decimal t).
    rewrite split_on_digits by (apply decimal_digits || reflexivity).
    rewrite split_on_no_sep by (apply decimal_digits || reflexivity).
    simpl map. unfold index. simpl nth.
    now rewrite !parseInt10_decimal. }
  assert (Hc : c_shard (fst (runTests d cmd w))
               = Some {| current := VNum (Z.of_N c - 1);
                         total := VNum (Z.of_N t) |}).
  { unfold loads in Hw. unfold runTests.
    destruct (reportersResolve w); [|discriminate].
    destruct (existsSync w); [|discriminate].
    destruct (isDirectory w); [|discriminate].
    cbn [negb]. rewrite Hp. destruct (cmd_list cmd); reflexivity. }
  split; [exact Hc|].
  rewrite Hc. unfold shardFilter. rewrite shardFilterFrom_positions.
  f_equal. apply filter_ext. intros [i x]. simpl fst.
  apply js_rem_index. lia.
Qed.

Lemma shard_cli_selector_witness :
  let d := {| c_testDir := VUndefined; c_shard := None |} in
  let cmd := {| cmd_shard := VStr (u "2/3"); cmd_list := false |} in
  let w := {| reportersResolve := true; testDir := u "/repo/test";
              existsSync := true; isDirectory := true;
              runResult := u "passed" |} in
  let tests := [u "a"; u "b"; u "c"; u "d"; u "e"] in
  ((2 < 2 ^ 53)%N /\ (3 < 2 ^ 53)%N
   /\ cmd_shard cmd = VStr (decimal 2 ++ u "/" ++ decimal 3)
   /\ loads w = true)
  /\ (c_shard (fst (runTests d cmd w))
      = Some {| current := VNum (Z.of_N 2 - 1); total := VNum (Z.of_N 3) |}
      /\ shardFilter (c_shard (fst (runTests d cmd w))) tests
         = map snd
             (filter (fun p => (0 <? Z.of_N 3)%Z
                               && (Z.of_nat (fst p) mod Z.of_N 3
                                   =? Z.of_N 2 - 1)%Z)
                     (combine (seq 0 (length tests)) tests))).
Proof.
  intros d cmd w tests.
  split; [repeat split; reflexivity|].
  apply (shard_cli_selector 2 3 d cmd w tests); reflexivity.
Defined.

(** The shard [2/3] of five tests: positions 1 and 4. *)
Example shard_two_of_three :
  shardFilter (parseShard {| cmd_shard := VStr (u "2/3"); cmd_list := false |})
              [u "a"; u "b"; u "c"; u "d"; u "e"]
  = [u "b"; u "e"].
Proof. reflexivity. Qed.

(** Without [--shard] the configuration keeps the shard it had. *)
Lemma no_shard_option (d : Config) (cmd : Command) (w : World) :
  cmd_shard cmd = VUndefined ->
  c_shard (fst (runTests d cmd w)) = c_shard d.
Proof.
  intros H. unfold runTests, parseShard. rewrite H. cbn [truthy].
  destruct (reportersResolve w); [|reflexivity].
  destruct (existsSync w); [|reflexivity].
  destruct (isDirectory w); [|reflexivity].
  destruct (cmd_list cmd); reflexivity.
Qed.

End CliProperties.

(* ===================================================================== *)
(** ** Global replacement with the patterns of the JUnit reporter *)
(* ===================================================================== *)

Section RegexProperties.

Lemma firstn_one_more {A} (c : A) (rest : list A) :
  firstn (length (c :: rest) - length rest) (c :: rest) = [c].
Proof.
  replace (length (c :: rest) - length rest) with 1
    by (change (length (c :: rest)) with (S (length rest)); lia).
  reflexivity.
Qed.

Lemma ltb_tail {A} (c : A) (rest : list A) :
  Nat.ltb (length rest) (length (c :: rest)) = true.
Proof. apply Nat.ltb_lt. simpl. lia. Qed.

(** A pattern that is one character class: each unit is looked at on its
    own. *)
Lemma replace_fuel_class (p : N -> bool) (f : jsstring -> jsstring) :
  forall fuel s, length s <= fuel ->
    replace_fuel (Class p) f fuel s
    = flat_map (fun c => if p c then f [c] else [c]) s.
Proof.
  induction fuel as [|fuel IH]; intros [|c rest] Hlen;
    try reflexivity; simpl in Hlen; [lia|].
  cbn [replace_fuel flat_map]. unfold match_at. cbn [matchk].
  destruct (p c).
  - rewrite ltb_tail, firstn_one_more. f_equal. apply IH. lia.
  - simpl. f_equal. apply IH. lia.
Qed.

Lemma replace_all_class (p : N -> bool) (f : jsstring -> jsstring) s :
  replace_all (Class p) f s
  = flat_map (fun c => if p c then f [c] else [c]) s.
Proof. apply replace_fuel_class. reflexivity. Qed.

(** Deleting the units of a class is a filter. *)
Lemma replace_all_delete (p : N -> bool) s :
  replace_all (Class p) (fun _ => []) s = filter (fun c => negb (p c)) s.
Proof.
  rewrite replace_all_class. induction s as [|c s IH]; [reflexivity|].
  simpl. destruct (p c); simpl; now rewrite IH.
Qed.

(** A pattern that starts with a class matches nowhere in a string that
    has no unit of that class. *)
Lemma replace_fuel_no_start (p : N -> bool) (r : re)
  (f : jsstring -> jsstring) :
  forall fuel s, Forall (fun c => p c = false) s ->
    replace_fuel (Seq (Class p) r) f fuel s = s.
Proof.
  induction fuel as [|fuel IH]; intros [|c rest] H; try reflexivity.
  inversion H as [|? ? Hc Hrest]; subst.
  cbn [replace_fuel]. unfold match_at. cbn [matchk]. rewrite Hc.
  f_equal. now apply IH.
Qed.

Lemma match_cdataEnd (s : jsstring) :
  match_at JUnit.cdataEnd s
  = match s with
    | c :: d :: e :: rest =>
        if N.eqb c 93 && (N.eqb d 93 && N.eqb e 62) then Some rest else None
    | _ => None
    end.
Proof.
  unfold match_at, JUnit.cdataEnd, chr. cbn [matchk].
  destruct s as [|c [|d [|e rest]]]; try reflexivity.
  - rewrite (N.eqb_sym 93 c). now destruct (N.eqb c 93).
  - rewrite (N.eqb_sym 93 c), (N.eqb_sym 93 d).
    destruct (N.eqb c 93), (N.eqb d 93); reflexivity.
  - rewrite (N.eqb_sym 93 c), (N.eqb_sym 93 d), (N.eqb_sym 62 e).
    destruct (N.eqb c 93), (N.eqb d 93), (N.eqb e 62); reflexivity.
Qed.

Lemma closeCdata_cons c rest :
  JUnit.closeCdata (c :: rest)
  = match N.eqb c 93, rest with
    | true, d :: e :: rest' =>
        if N.eqb d 93 && N.eqb e 62
        then u "]]&gt;" ++ JUnit.closeCdata rest'
        else c :: JUnit.closeCdata rest
    | _, _ => c :: JUnit.closeCdata rest
    end.
Proof. reflexivity. Qed.

Lemma replace_fuel_cdataEnd :
  forall fuel s, length s <= fuel ->
    replace_fuel JUnit.cdataEnd (fun _ => u "]]&gt;") fuel s
    = JUnit.closeCdata s.
Proof.
  induction fuel as [|fuel IH]; intros s Hlen.
  - destruct s; [reflexivity|simpl in Hlen; lia].
  - destruct s as [|c rest]; [reflexivity|].
    assert (Hrest : replace_fuel JUnit.cdataEnd (fun _ => u "]]&gt;") fuel rest
                    = JUnit.closeCdata rest)
      by (apply IH; simpl in Hlen; lia).
    cbn [replace_fuel]. rewrite match_cdataEnd, closeCdata_cons, Hrest.
    destruct rest as [|d [|e rest']].
    + destruct (N.eqb c 93); reflexivity.
    + destruct (N.eqb c 93); reflexivity.
    + destruct (N.eqb c 93) eqn:Ec; cbn [andb]; [|reflexivity].
      destruct (N.eqb d 93 && N.eqb e 62) eqn:Ede; [|reflexivity].
      replace (Nat.ltb (length rest') (length (c :: d :: e :: rest')))
        with true by (symmetry; apply Nat.ltb_lt; simpl; lia).
      rewrite IH by (simpl in Hlen; lia). reflexivity.
Qed.

Lemma replace_all_cdataEnd s :
  replace_all JUnit.cdataEnd (fun _ => u "]]&gt;") s = JUnit.closeCdata s.
Proof. apply replace_fuel_cdataEnd. reflexivity. Qed.

End RegexProperties.

(* ===================================================================== *)
(** ** The JUnit reporter: escaping *)
(* ===================================================================== *)

Section EscapeProperties.
Import JUnit.

Lemma attr_unit_fused (c : N) :
  filter (fun x => negb (discouraged x))
         (if one_of [38; 34; 60; 62]%N c then entity [c] else [c])
  = attrUnit c.
Proof.
  unfold attrUnit, one_of. cbn [existsb].
  destruct (N.eqb_spec c 38) as [->|H38]; [reflexivity|].
  destruct (N.eqb_spec c 34) as [->|H34]; [reflexivity|].
  destruct (N.eqb_spec c 60) as [->|H60]; [reflexivity|].
  destruct (N.eqb_spec c 62) as [->|H62]; [reflexivity|].
  cbn [orb filter]. now destruct (discouraged c).
Qed.

Lemma data_unit_fused (c : N) :
  (if one_of (codes "&<") c then entity [c] else [c]) = dataUnit c.
Proof.
  unfold dataUnit, one_of, codes. cbn [u map list_ascii_of_string existsb].
  change (N_of_ascii "&") with 38%N. change (N_of_ascii "<") with 60%N.
  destruct (N.eqb_spec c 38) as [->|H38]; [reflexivity|].
  destruct (N.eqb_spec c 60) as [->|H60]; reflexivity.
Qed.

Lemma filter_flat_map {A B} (q : B -> bool) (f : A -> list B) (l : list A) :
  filter q (flat_map f l) = flat_map (fun a => filter q (f a)) l.
Proof.
  induction l as [|a l IH]; [reflexivity|].
  simpl. now rewrite filter_app, IH.
Qed.

(** [escape] on an attribute value, unit by unit. *)
Lemma escape_attribute (text : jsstring) (strip : bool) :
  escape text strip false = flat_map attrUnit (stripAnsi strip text).
Proof.
  unfold escape, escapeRe, discouragedXMLCharacters.
  fold (stripAnsi strip text).
  rewrite replace_all_delete, replace_all_class, filter_flat_map.
  apply flat_map_ext. intros c. apply attr_unit_fused.
Qed.

(** [escape] on character data. *)
Lemma escape_character_data (text : jsstring) (strip : bool) :
  escape text strip true
  = filter (fun c => negb (discouraged c))
           (closeCdata (flat_map dataUnit (stripAnsi strip text))).
Proof.
  unfold escape, escapeRe, discouragedXMLCharacters.
  fold (stripAnsi strip text).
  rewrite replace_all_delete, replace_all_cdataEnd, replace_all_class.
  do 2 f_equal. apply flat_map_ext. intros c. apply data_unit_fused.
Qed.

Lemma attrUnit_safe (x : N) : Forall attrSafe (attrUnit x).
Proof.
  unfold attrUnit.
  destruct (N.eqb_spec x 38) as [->|H38];
    [repeat constructor; discriminate|].
  destruct (N.eqb_spec x 34) as [->|H34];
    [repeat constructor; discriminate|].
  destruct (N.eqb_spec x 60) as [->|H60];
    [repeat constructor; discriminate|].
  destruct (N.eqb_spec x 62) as [->|H62];
    [repeat constructor; discriminate|].
  destruct (discouraged x) eqn:E; repeat constructor; assumption.
Qed.

Lemma closeCdata_units :
  forall n s, length s <= n ->
    forall c, In c (closeCdata s) -> In c s \/ In c (u "]]&gt;").
Proof.
  induction n as [|n IH]; intros s Hlen c Hin.
  - destruct s; [now left|simpl in Hlen; lia].
  - destruct s as [|x rest]; [now left|].
    rewrite closeCdata_cons in Hin.
    assert (Hrest : In c (x :: closeCdata rest) ->
                    In c (x :: rest) \/ In c (u "]]&gt;")).
    { intros [->|H]; [left; now left|].
      destruct (IH rest ltac:(simpl in Hlen; lia) c H) as [H1|H1];
        [left; now right|now right]. }
    destruct (N.eqb x 93); [|now apply Hrest].
    destruct rest as [|d [|e rest']]; try now apply Hrest.
    destruct (N.eqb d 93 && N.eqb e 62); [|now apply Hrest].
    apply in_app_or in Hin. destruct Hin as [H|H]; [now right|].
    destruct (IH rest' ltac:(simpl in Hlen; lia) c H) as [H1|H1];
      [left; right; right; now right|now right].
Qed.

Lemma dataUnit_no_lt (x c : N) : In c (dataUnit x) -> c <> 60%N.
Proof.
  unfold dataUnit.
  destruct (N.eqb_spec x 38) as [->|H38].
  - intros H. simpl in H. repeat destruct H as [<-|H]; try discriminate.
    contradiction.
  - destruct (N.eqb_spec x 60) as [->|H60].
    + intros H. simpl in H. repeat destruct H as [<-|H]; try discriminate.
      contradiction.
    + intros [<-|[]]. assumption.
Qed.

Lemma no_escape_start (text : jsstring) :
  Forall (fun c => c <> 27%N /\ c <> 155%N) text ->
  Forall (fun c => one_of [27; 155]%N c = false) text.
Proof.
  intros H. eapply Forall_impl; [|exact H]. intros c [H1 H2].
  unfold one_of. cbn [existsb].
  destruct (N.eqb_spec c 27); [contradiction|].
  destruct (N.eqb_spec c 155); [contradiction|reflexivity].
Qed.

(** A text without U+001B and U+009B has no ANSI sequence to remove. *)
Lemma stripAnsi_plain (text : jsstring) :
  Forall (fun c => c <> 27%N /\ c <> 155%N) text ->
  stripAnsi true text = text.
Proof.
  intros H. unfold stripAnsi, replace_all, ansiControlSequence.
  apply replace_fuel_no_start. now apply no_escape_start.
Qed.

(** C6, as the code has it.  Escaping depends on where the string goes.
    In an attribute value each of [&], [<], [>] and the double quote
    becomes its entity and the control characters of the reporter's class
    are removed; in character data only [&] and [<] become entities, the
    [>] of every CDATA end becomes [&gt;], and the same control characters
    are removed.  When [stripANSIControlSequences] is set the ANSI
    sequences are removed before anything else. *)
Theorem escape_by_position (text : jsstring) (strip : bool) :
  escape text strip false = flat_map attrUnit (stripAnsi strip text)
  /\ escape text strip true
     = filter (fun c => negb (discouraged c))
              (closeCdata (flat_map dataUnit (stripAnsi strip text)))
  /\ Forall attrSafe (escape text strip false)
  /\ Forall (fun c => c <> 60%N /\ discouraged c = false)
            (escape text strip true)
  /\ escape text true false = escape (stripAnsi true text) false false
  /\ escape text true true = escape (stripAnsi true text) false true.
Proof.
  split; [apply escape_attribute|].
  split; [apply escape_character_data|].
  split; [|split; [|split; reflexivity]].
  - rewrite escape_attribute. apply Forall_forall. intros c Hc.
    apply in_flat_map in Hc. destruct Hc as [x [_ Hx]].
    pose proof (attrUnit_safe x) as Hs.
    rewrite Forall_forall in Hs. now apply Hs.
  - rewrite escape_character_data. apply Forall_forall. intros c Hc.
    apply filter_In in Hc. destruct Hc as [Hc Hd]. split.
    + apply (closeCdata_units _ _ (Nat.le_refl _)) in Hc.
      destruct Hc as [Hc|Hc].
      * apply in_flat_map in Hc. destruct Hc as [x [_ Hx]].
        exact (dataUnit_no_lt x c Hx).
      * simpl in Hc. repeat destruct Hc as [<-|Hc]; try discriminate.
        contradiction.
    + now destruct (discouraged c).
Qed.

(** Where [serializeXML] calls [escape]: attribute values are escaped as
    such, the text of an entry as character data. *)
Lemma serializeXML_leaf (String_number : jsnumber -> jsstring)
  (name key value text : jsstring) (tokens : list jsstring) (strip : bool) :
  text <> [] ->
  serializeXML String_number (Entry name (Some [(key, AStr value)]) None
                                (Some text)) tokens strip
  = tokens
    ++ [u "<" ++ name ++ u " " ++ key ++ [61; 34]%N
        ++ escape value strip false ++ [34]%N ++ u ">";
        escape text strip true;
        u "</" ++ name ++ u ">"].
Proof.
  intros Ht. cbn [serializeXML map fst snd String_attr join].
  destruct text as [|c text]; [contradiction|]. cbn [nonempty].
  rewrite <- !app_assoc. reflexivity.
Qed.

(** In character data a [>] and a double quote stay as they are. *)
Lemma escape_character_data_keeps_gt :
  escape (u "a > b") false true = u "a > b"
  /\ escape (u "a > b") false true <> u "a &gt; b"
  /\ escape [34%N] false true = [34%N]
  /\ escape [34%N] false true <> u "&quot;".
Proof. repeat split; try reflexivity; discriminate. Qed.

(** The coloured output of the reporter's own test, with and without
    [stripANSIControlSequences]. *)
Example escape_yellow_hello :
  let text := [27%N] ++ u "[33mHello world" ++ [27%N] ++ u "[39m" in
  escape text true true = u "Hello world"
  /\ escape text false true = u "[33mHello world[39m".
Proof. split; reflexivity. Qed.

Example escape_attribute_example :
  escape ([34%N] ++ u "<a&b>" ++ [7%N]) false false
  = u "&quot;&lt;a&amp;b&gt;".
Proof. reflexivity. Qed.

End EscapeProperties.

(* ===================================================================== *)
(** ** The JUnit reporter: the report *)
(* ===================================================================== *)

Section ReportProperties.
Import JUnit.

Variable relative : jsstring -> jsstring -> jsstring.
Variable basename : jsstring -> jsstring.
Variable formatFailure : FullConfig -> Test -> jsstring.
Variable stripAscii : jsstring -> jsstring.
Variable String_number : jsnumber -> jsstring.

Lemma push_each {A B} (f : A -> B) (l : list A) (es : list B) :
  fold_left (fun es x => es ++ [f x]) l es = es ++ map f l.
Proof.
  revert es; induction l as [|x l IH]; intros es; simpl.
  - now rewrite app_nil_r.
  - rewrite IH, <- app_assoc. reflexivity.
Qed.

Lemma push_outputs (rs : list TestResult) (es : list XMLEntry) :
  fold_left
    (fun entries result =>
       let entries :=
         fold_left (fun es chunk => es ++ [systemOut chunk])
                   (stdout result) entries in
       fold_left (fun es chunk => es ++ [systemErr chunk])
                 (stderr result) entries)
    rs es
  = es ++ flat_map (fun result => map systemOut (stdout result)
                                  ++ map systemErr (stderr result)) rs.
Proof.
  revert es; induction rs as [|r rs IH]; intros es; simpl.
  - now rewrite app_nil_r.
  - rewrite IH, !push_each, <- !app_assoc. reflexivity.
Qed.

(** The entries [_addTestCase] appends. *)
Lemma addTestCase_appends cfg test entries :
  _addTestCase relative basename formatFailure stripAscii
    String_number cfg test entries
  = entries
    ++ testcaseEntry relative cfg test
         (if skipped test then [Entry (u "skipped") None None None]
          else if negb (ok test)
               then [failureEntry basename formatFailure stripAscii
                       String_number cfg test]
               else [])
    :: (if skipped test then [] else outputsOf test).
Proof.
  unfold _addTestCase. destruct (skipped test); [reflexivity|].
  rewrite push_outputs, <- app_assoc. reflexivity.
Qed.

(** C10.  [_addTestCase] appends one [testcase] followed by the
    [system-out] and [system-err] entries of the test's results, all to
    the list of the test suite; the children of the [testcase] are a
    [skipped] or a [failure] entry at most, never an output entry; and a
    skipped test gets exactly one [skipped] child, whatever [ok()] is. *)
Theorem addTestCase_outputs_are_siblings cfg test entries :
  exists tc outs,
    _addTestCase relative basename formatFailure stripAscii
    String_number cfg test entries = entries ++ tc :: outs
    /\ named "testcase" tc = true
    /\ outs = (if skipped test then [] else outputsOf test)
    /\ forallb isOutput outs = true
    /\ forallb (fun e => negb (isOutput e)) (childrenOf tc) = true
    /\ (skipped test = true ->
        childrenOf tc = [Entry (u "skipped") None None None]
        /\ existsb (named "failure") (childrenOf tc) = false)
    /\ (skipped test = false ->
        childrenOf tc
        = if ok test then []
          else [failureEntry basename formatFailure stripAscii String_number
                  cfg test]).
Proof.
  eexists. eexists. split; [apply addTestCase_appends|].
  split; [reflexivity|]. split; [reflexivity|]. split; [|split; [|split]].
  - destruct (skipped test); [reflexivity|].
    unfold outputsOf. apply forallb_forall. intros e He.
    apply in_flat_map in He. destruct He as [r [_ He]].
    apply in_app_or in He. destruct He as [He|He];
      apply in_map_iff in He; destruct He as [chunk [<- _]]; reflexivity.
  - destruct (skipped test); [reflexivity|].
    destruct (ok test); reflexivity.
  - intros ->. split; reflexivity.
  - intros ->. destruct (ok test); reflexivity.
Qed.

(** *** Counting *)

Lemma visit_all cfg (tests : list Test) : forall acc,
  let acc' :=
    fold_left (visit relative basename formatFailure stripAscii
                     String_number cfg) tests acc in
  l_tests acc' = (l_tests acc + Z.of_nat (length tests))%Z
  /\ l_skipped acc' = (l_skipped acc + count skipped tests)%Z
  /\ l_failures acc' = (l_failures acc + count (fun t => negb (ok t)) tests)%Z
  /\ l_children acc'
     = l_children acc
       ++ flat_map (fun t => _addTestCase relative basename formatFailure
                               stripAscii String_number cfg t []) tests.
Proof.
  induction tests as [|t tests IH]; intros acc.
  - unfold count. simpl. rewrite app_nil_r. repeat split; lia.
  - cbn [fold_left]. specialize (IH (visit relative basename formatFailure
                                       stripAscii String_number cfg acc t)).
    cbv zeta in IH. destruct IH as [H1 [H2 [H3 H4]]].
    cbv zeta. rewrite H1, H2, H3, H4. cbn [visit l_tests l_skipped l_failures
                                            l_children flat_map].
    unfold count. cbn [filter].
    repeat split.
    + cbn [length]. lia.
    + destruct (skipped t); cbn [length]; lia.
    + destruct (ok t); cbn [negb length]; lia.
    + rewrite (addTestCase_appends cfg t (l_children acc)).
      rewrite (addTestCase_appends cfg t []). cbn [app].
      rewrite <- app_assoc. reflexivity.
Qed.

(** The test cases among the entries of a test. *)
Lemma testcases_of_test cfg t :
  filter (named "testcase")
         (_addTestCase relative basename formatFailure stripAscii
            String_number cfg t [])
  = [testcaseEntry relative cfg t
       (if skipped t then [Entry (u "skipped") None None None]
        else if negb (ok t)
             then [failureEntry basename formatFailure stripAscii
                     String_number cfg t]
             else [])].
Proof.
  rewrite addTestCase_appends. cbn [app filter].
  replace (named "testcase" (testcaseEntry relative cfg t
             (if skipped t then [Entry (u "skipped") None None None]
              else if negb (ok t)
                   then [failureEntry basename formatFailure stripAscii
                           String_number cfg t]
                   else []))) with true by reflexivity.
  f_equal. destruct (skipped t); [reflexivity|].
  unfold outputsOf. induction (results t) as [|r rs IH]; [reflexivity|].
  cbn [flat_map]. rewrite !filter_app, IH, app_nil_r.
  assert (Hout : forall l, filter (named "testcase")
                             (map (fun chunk => Entry (u "system-out") None
                                                      None (Some chunk)) l)
                           = []).
  { induction l as [|c l IHl]; [reflexivity|]. cbn [map filter].
    replace (named "testcase" (Entry (u "system-out") None None (Some c)))
      with false by reflexivity. exact IHl. }
  assert (Herr : forall l, filter (named "testcase")
                             (map (fun chunk => Entry (u "system-err") None
                                                      None (Some chunk)) l)
                           = []).
  { induction l as [|c l IHl]; [reflexivity|]. cbn [map filter].
    replace (named "testcase" (Entry (u "system-err") None None (Some c)))
      with false by reflexivity. exact IHl. }
  now rewrite Hout, Herr.
Qed.

Lemma testcases_of_suite cfg (tests : list Test) :
  map (attrOf "name")
      (filter (named "testcase")
         (flat_map (fun t => _addTestCase relative basename formatFailure
                               stripAscii String_number cfg t []) tests))
  = map (fun t => Some (AStr (fullTitle (spec t)))) tests.
Proof.
  induction tests as [|t tests IH]; [reflexivity|].
  cbn [flat_map]. rewrite filter_app, map_app, IH, testcases_of_test.
  reflexivity.
Qed.

(** What [_buildTestSuite] returns for a suite. *)
Lemma buildTestSuite_result r cfg s :
  let tests := findTest s in
  let e := snd (_buildTestSuite relative basename formatFailure stripAscii
                  String_number r cfg s) in
  fst (_buildTestSuite relative basename formatFailure stripAscii
         String_number r cfg s)
  = bump r (Z.of_nat (length tests)) (count (fun t => negb (ok t)) tests)
           (count skipped tests)
  /\ name e = u "testsuite"
  /\ attrOf "name" e = Some (AStr (relative (testDir cfg) (suiteFile s)))
  /\ intAttr "tests" e = Z.of_nat (length tests)
  /\ intAttr "failures" e = count (fun t => negb (ok t)) tests
  /\ intAttr "skipped" e = count skipped tests
  /\ attrOf "errors" e = Some (ANum (Int 0))
  /\ childrenOf e
     = flat_map (fun t => _addTestCase relative basename formatFailure
                            stripAscii String_number cfg t []) tests.
Proof.
  cbv zeta. unfold _buildTestSuite.
  destruct (visit_all cfg (findTest s)
              {| l_tests := 0; l_skipped := 0; l_failures := 0;
                 l_duration := 0; l_children := [] |})
    as [H1 [H2 [H3 H4]]].
  cbn [l_tests l_skipped l_failures l_children] in H1, H2, H3, H4.
  cbn [fst snd name]. unfold bump, attrOf, intAttr, attrOf, childrenOf.
  cbn [attributes children].
  rewrite H1, H2, H3. cbn [app] in H4. rewrite <- H4.
  repeat split; reflexivity.
Qed.

Lemma buildTestSuite_entry_timestamp r1 r2 cfg s :
  timestamp r1 = timestamp r2 ->
  snd (_buildTestSuite relative basename formatFailure stripAscii
         String_number r1 cfg s)
  = snd (_buildTestSuite relative basename formatFailure stripAscii
           String_number r2 cfg s).
Proof. unfold _buildTestSuite. cbn [snd]. now intros ->. Qed.

(** The loop of [onEnd] over the suites of the files. *)
Lemma pushTestSuite_eq cfg acc s :
  pushTestSuite relative basename formatFailure stripAscii String_number
    cfg acc s
  = (fst (_buildTestSuite relative basename formatFailure stripAscii
            String_number (fst acc) cfg s),
     snd acc
     ++ [snd (_buildTestSuite relative basename formatFailure stripAscii
                String_number (fst acc) cfg s)]).
Proof. reflexivity. Qed.

Lemma build_all cfg (l : list Suite) : forall r es,
  let res :=
    fold_left (pushTestSuite relative basename formatFailure stripAscii
                 String_number cfg) l (r, es) in
  let built :=
    map (fun s => snd (_buildTestSuite relative basename formatFailure
                         stripAscii String_number r cfg s)) l in
  snd res = es ++ built
  /\ totalTests (fst res)
     = (totalTests r + sumZ (map (intAttr "tests") built))%Z
  /\ totalFailures (fst res)
     = (totalFailures r + sumZ (map (intAttr "failures") built))%Z
  /\ totalSkipped (fst res)
     = (totalSkipped r + sumZ (map (intAttr "skipped") built))%Z
  /\ timestamp (fst res) = timestamp r
  /\ outputFile (fst res) = outputFile r
  /\ stripANSIControlSequences (fst res) = stripANSIControlSequences r.
Proof.
  induction l as [|s l IH]; intros r es.
  - cbn. rewrite app_nil_r. repeat split; lia.
  - cbn [fold_left]. rewrite pushTestSuite_eq. cbn [fst snd].
    destruct (buildTestSuite_result r cfg s)
      as [Hr [_ [_ [Ht [Hf [Hs _]]]]]].
    set (e := snd (_buildTestSuite relative basename formatFailure stripAscii
                     String_number r cfg s)) in *.
    set (r1 := fst (_buildTestSuite relative basename formatFailure
                      stripAscii String_number r cfg s)) in *.
    specialize (IH r1 (es ++ [e])). cbv zeta in IH.
    destruct IH as [I1 [I2 [I3 [I4 [I5 [I6 I7]]]]]].
    assert (Hts : timestamp r1 = timestamp r) by (now rewrite Hr).
    assert (Hsame :
      map (fun s0 => snd (_buildTestSuite relative basename formatFailure
                            stripAscii String_number r1 cfg s0)) l
      = map (fun s0 => snd (_buildTestSuite relative basename formatFailure
                              stripAscii String_number r cfg s0)) l).
    { apply map_ext. intros s0.
      now apply buildTestSuite_entry_timestamp. }
    rewrite Hsame in I1, I2, I3, I4.
    cbv zeta. rewrite I1, I2, I3, I4, I5, I6, I7.
    cbn [map]. fold e. unfold sumZ. cbn [fold_right].
    rewrite Ht, Hf, Hs, <- app_assoc, Hr. cbn.
    repeat split; try reflexivity; lia.
Qed.

(** The tree that [onEnd] builds on a reporter that was constructed and
    begun, and the text it writes: the serialized root. *)
Lemma junit_report_tree opts cfg top now mono mono' env :
  exists r' out,
    onEnd relative basename formatFailure stripAscii String_number
      (onBegin (constructor opts) cfg top now mono) mono' env
    = Some (r', out)
    /\ named "testsuites" (root out) = true
    /\ map (fun e => (name e, attrOf "name" e)) (childrenOf (root out))
       = map (fun s => (u "testsuite",
                        Some (AStr (relative (testDir cfg) (suiteFile s)))))
             (suites top)
    /\ map (fun e => map (attrOf "name")
                         (filter (named "testcase") (childrenOf e)))
           (childrenOf (root out))
       = map (fun s => map (fun t => Some (AStr (fullTitle (spec t))))
                           (findTest s))
             (suites top)
    /\ map (intAttr "tests") (childrenOf (root out))
       = map (fun s => Z.of_nat (length (findTest s))) (suites top)
    /\ intAttr "tests" (root out)
       = sumZ (map (intAttr "tests") (childrenOf (root out)))
    /\ intAttr "failures" (root out)
       = sumZ (map (intAttr "failures") (childrenOf (root out)))
    /\ intAttr "skipped" (root out)
       = sumZ (map (intAttr "skipped") (childrenOf (root out)))
    /\ attrOf "errors" (root out) = Some (ANum (Int 0))
    /\ reportString out
       = join [10%N] (serializeXML String_number (root out) []
                        (stripANSIControlSequences (constructor opts)))
    /\ (exists idv namev timev,
          root out
          = Entry (u "testsuites")
              (Some [ (u "id", idv); (u "name", namev);
                      (u "tests", ANum (Int (totalTests r')));
                      (u "failures", ANum (Int (totalFailures r')));
                      (u "skipped", ANum (Int (totalSkipped r')));
                      (u "errors", ANum (Int 0));
                      (u "time", timev) ])
              (Some (map (fun s => snd (_buildTestSuite relative basename
                                          formatFailure stripAscii
                                          String_number
                                          (onBegin (constructor opts) cfg top
                                             now mono) cfg s))
                         (suites top)))
              None).
Proof.
  set (r0 := onBegin (constructor opts) cfg top now mono).
  unfold onEnd. change (suite r0) with (Some top).
  change (config r0) with (Some cfg). cbv beta iota.
  destruct (build_all cfg (suites top) r0 [])
    as [B1 [B2 [B3 [B4 [_ [_ B7]]]]]].
  destruct (fold_left (pushTestSuite relative basename formatFailure
                         stripAscii String_number cfg) (suites top) (r0, []))
    as [r' kids] eqn:Ef.
  cbn [fst snd app] in B1, B2, B3, B4, B7.
  eexists. eexists. split; [reflexivity|].
  cbn [root].
  change (childrenOf (Entry _ _ (Some kids) _)) with kids.
  split; [reflexivity|].
  assert (Hkids : forall s,
            let e := snd (_buildTestSuite relative basename formatFailure
                            stripAscii String_number r0 cfg s) in
            name e = u "testsuite"
            /\ attrOf "name" e
               = Some (AStr (relative (testDir cfg) (suiteFile s)))
            /\ intAttr "tests" e = Z.of_nat (length (findTest s))
            /\ childrenOf e
               = flat_map (fun t => _addTestCase relative basename
                                      formatFailure stripAscii String_number
                                      cfg t []) (findTest s)).
  { intros s. destruct (buildTestSuite_result r0 cfg s)
      as [_ [H1 [H2 [H3 [_ [_ [_ H4]]]]]]]. cbv zeta. auto. }
  split; [|split; [|split; [|split; [|split; [|split; [|split; [|split]]]]]]].
  - rewrite B1, map_map. apply map_ext. intros s. cbv beta.
    destruct (Hkids s) as [H1 [H2 _]]. cbv zeta in H1, H2.
    now rewrite H1, H2.
  - rewrite B1, map_map. apply map_ext. intros s. cbv beta.
    destruct (Hkids s) as [_ [_ [_ H4]]]. cbv zeta in H4.
    rewrite H4. apply testcases_of_suite.
  - rewrite B1, map_map. apply map_ext. intros s. cbv beta.
    destruct (Hkids s) as [_ [_ [H3 _]]]. exact H3.
  - unfold intAttr at 1, attrOf. cbn [attributes].
    replace (getAttr (u "tests") _) with (Some (ANum (Int (totalTests r'))))
      by reflexivity.
    rewrite B2, B1. reflexivity.
  - unfold intAttr at 1, attrOf. cbn [attributes].
    replace (getAttr (u "failures") _)
      with (Some (ANum (Int (totalFailures r')))) by reflexivity.
    rewrite B3, B1. reflexivity.
  - unfold intAttr at 1, attrOf. cbn [attributes].
    replace (getAttr (u "skipped") _)
      with (Some (ANum (Int (totalSkipped r')))) by reflexivity.
    rewrite B4, B1. reflexivity.
  - reflexivity.
  - cbn [reportString]. rewrite B7. reflexivity.
  - eexists. eexists. eexists. rewrite B1. reflexivity.
Qed.

End ReportProperties.

(** Two files with one passing test each, as in the reporter's own test:
    the root counts 2 tests and 0 failures and has two test suites named
    after the files. *)
Example junit_two_passing_files :
  let passing (file title : string) :=
    {| JUnit.spec := {| JUnit.title := u title; JUnit.fullTitle := u title;
                        JUnit.parentFullTitle := [];
                        JUnit.file := u file; JUnit.line := 2;
                        JUnit.column := 7 |};
       JUnit.skipped := false; JUnit.ok := true;
       JUnit.results := [{| JUnit.duration := 3; JUnit.stdout := [];
                            JUnit.stderr := [] |}] |} in
  let top :=
    JUnit.MkSuite []
      [JUnit.MkSuite (u "/w/a.test.js") []
         [[passing "/w/a.test.js"%string "one"%string]];
       JUnit.MkSuite (u "/w/b.test.js") []
         [[passing "/w/b.test.js"%string "two"%string]]]
      [] in
  let r :=
    JUnit.onBegin
      (JUnit.constructor {| JUnit.opt_outputFile := None;
                            JUnit.opt_stripANSIControlSequences := None |})
      {| JUnit.testDir := u "/w" |} top 0 0 in
  match JUnit.onEnd relativeInside basenameOf (fun _ _ => [])
          (fun s => s) (fun _ => []) r 5 (fun _ => VUndefined) with
  | Some (_, out) =>
      JUnit.intAttr "tests" (JUnit.root out) = 2%Z
      /\ JUnit.intAttr "failures" (JUnit.root out) = 0%Z
      /\ map (JUnit.attrOf "name") (JUnit.childrenOf (JUnit.root out))
         = [Some (JUnit.AStr (u "a.test.js"));
            Some (JUnit.AStr (u "b.test.js"))]
      /\ map JUnit.name (JUnit.childrenOf (JUnit.root out))
         = [u "testsuite"; u "testsuite"]
  | None => False
  end.
Proof. vm_compute. repeat split; reflexivity. Qed.

(* ===================================================================== *)
(** ** The service reporter *)
(* ===================================================================== *)

Section ServiceProperties.
Import Service.

Variable relative : jsstring -> jsstring -> jsstring.
Variable String_num : Z -> jsstring.
Variable env : jsstring -> jsval.

Lemma getSasToken_undefined (permission : jsstring) (rt : Runtime) :
  fst (getSasToken permission rt) = VUndefined.
Proof.
  unfold getSasToken. cbn [fst cells].
  rewrite app_nth2 by lia. now rewrite Nat.sub_diag.
Qed.

(** C7, evaluated.  [getSasToken] returns before any response can arrive:
    its result is [undefined] for every permission and every state of the
    requests in flight.  [onBegin] therefore stores [undefined] in both
    token fields and builds the blob service client from the text
    "undefined"; when the responses arrive later they are assigned to the
    variables of the two calls, which nothing reads, and an [onTestEnd]
    that finds a file starts its upload with that client and then fails
    on the undefined read token. *)
Theorem sas_tokens_stay_undefined (r : Reporter) (cfg : Config) (mono : Z)
  (rt : Runtime) (sasUriOf : jsstring -> jsval) (test : Test)
  (file : jsstring) (files : list jsstring) :
  (forall permission rt0, fst (getSasToken permission rt0) = VUndefined)
  /\ readSasToken (fst (onBegin String_num env r cfg mono rt)) = VUndefined
  /\ writeSasToken (fst (onBegin String_num env r cfg mono rt)) = VUndefined
  /\ blobService (fst (onBegin String_num env r cfg mono rt))
     = Some (u "undefined")
  /\ cells (deliver sasUriOf
              (snd (onBegin String_num env r cfg mono emptyRuntime)))
     = [sasUriOf (u "Write"); sasUriOf (u "Read")]
  /\ onTestEnd relative String_num env
       (fst (onBegin String_num env r cfg mono rt)) test
       (fun _ => Some (file :: files))
     = ([{| serviceUrl := u "undefined";
            container := env (u "GITHUB_RUN_ID");
            blobName := _getRelativePath file;
            localFile := file |}],
        Throw (TypeError (u "split"))).
Proof.
  assert (Hb : fst (onBegin String_num env r cfg mono rt)
               = {| config := Some cfg; readSasToken := VUndefined;
                    writeSasToken := VUndefined;
                    blobService := Some (u "undefined");
                    containerClient := Some (env (u "GITHUB_RUN_ID"));
                    startTime := mono; artifactMap := artifactMap r |}).
  { unfold onBegin.
    pose proof (getSasToken_undefined (u "Write") rt) as Hw.
    destruct (getSasToken (u "Write") rt) as [w rt1]. cbn [fst] in Hw.
    pose proof (getSasToken_undefined (u "Read") rt1) as Hr.
    destruct (getSasToken (u "Read") rt1) as [rd rt2]. cbn [fst] in Hr.
    subst w rd. reflexivity. }
  split; [exact getSasToken_undefined|].
  rewrite Hb. repeat split; reflexivity.
Qed.

(** C8, evaluated at a title with two spaces: the folder of the test keeps
    the second space, so it is not the slug of the title. *)
Theorem output_dir_replaces_first_space_only (cfg : Config)
  (file : jsstring) (variation : list (jsstring * jsval)) :
  let test :=
    {| spec := {| file := file; fullTitle := u "suite my test" |};
       variation := variation |} in
  let testFileName := relative (testDir cfg) file in
  _getTestOutputDir relative String_num cfg test
  = outputDir cfg ++ u "/"
    ++ substring0 (Z.of_nat (length testFileName) - 8) testFileName
    ++ u "/" ++ u "suite-my test" ++ u "/"
    ++ tpl String_num (lookup (u "browserName") variation)
  /\ slug (u "suite my test") = u "suite-my-test"
  /\ replace_first 32 (u "-") (u "suite my test")
     <> slug (u "suite my test").
Proof. cbv zeta. repeat split. discriminate. Qed.

(** Whatever the title: the slug has no space left, while the folder of a
    title with two spaces keeps the second one. *)
Lemma slug_has_no_space (title : jsstring) : ~ In 32%N (slug title).
Proof.
  unfold slug. induction title as [|c title IH]; [intros []|].
  cbn [replace_every]. destruct (N.eqb_spec c 32) as [->|Hc].
  - intros [H|H]; [discriminate|contradiction].
  - intros [H|H]; [congruence|contradiction].
Qed.

Lemma replace_first_keeps_second_space (a b c : jsstring) :
  ~ In 32%N a ->
  replace_first 32 (u "-") (a ++ 32%N :: b ++ 32%N :: c)
  = a ++ u "-" ++ b ++ 32%N :: c.
Proof.
  induction a as [|x a IH]; intros Ha; [reflexivity|].
  cbn [app replace_first]. destruct (N.eqb_spec x 32) as [->|Hx].
  - exfalso. apply Ha. now left.
  - rewrite IH; [reflexivity|]. intros H. apply Ha. now right.
Qed.

Lemma two_spaces_are_not_slugged (a b c : jsstring) :
  ~ In 32%N a ->
  replace_first 32 (u "-") (a ++ 32%N :: b ++ 32%N :: c)
  <> slug (a ++ 32%N :: b ++ 32%N :: c).
Proof.
  intros Ha E. apply (slug_has_no_space (a ++ 32%N :: b ++ 32%N :: c)).
  rewrite <- E, replace_first_keeps_second_space by assumption.
  apply in_or_app. right. apply in_or_app. right.
  apply in_or_app. right. now left.
Qed.

(** C9, evaluated: [_getTestResultBlobs] raises a TypeError for every
    state of the reporter, because the list it pushes onto was never
    created. *)
Theorem getTestResultBlobs_throws (r : Reporter) :
  _getTestResultBlobs String_num env r = Throw (TypeError (u "push")).
Proof. reflexivity. Qed.

End ServiceProperties.

(** A concrete run: the reporter begins, the tokens are requested, the
    first test ends with one file in its folder.  The upload starts with
    the client built from an undefined token, and collecting the file's
    URI fails. *)
Example first_upload_example :
  let cfg := {| Service.testDir := u "/w/tests";
                Service.outputDir := u "test-results" |} in
  let test :=
    {| Service.spec := {| Service.file := u "/w/tests/login.spec.ts";
                          Service.fullTitle := u "signs in" |};
       Service.variation := [(u "browserName", VStr (u "chromium"))] |} in
  let show := fun z => decimal (Z.to_N z) in
  let env := fun key => if str_eqb key (u "GITHUB_RUN_ID")
                        then VStr (u "42") else VUndefined in
  let r := fst (Service.onBegin show env Service.newReporter cfg 0
                  Service.emptyRuntime) in
  Service.onTestEnd relativeInside show env r test
    (fun dir => if str_eqb dir (u "test-results/login/signs-in/chromium")
                then Some [u "test-results/login/signs-in/chromium/trace.zip"]
                else None)
  = ([{| Service.serviceUrl := u "undefined";
         Service.container := VStr (u "42");
         Service.blobName := u "login/signs-in/chromium/trace.zip";
         Service.localFile :=
           u "test-results/login/signs-in/chromium/trace.zip" |}],
     Service.Throw (Service.TypeError (u "split"))).
Proof. reflexivity. Qed.

(** The folder of a test in a concrete run. *)
Example output_dir_example :
  Service._getTestOutputDir relativeInside (fun z => decimal (Z.to_N z))
    {| Service.testDir := u "/w/tests"; Service.outputDir := u "test-results" |}
    {| Service.spec := {| Service.file := u "/w/tests/login.spec.ts";
                          Service.fullTitle := u "suite my test" |};
       Service.variation := [(u "browserName", VStr (u "chromium"))] |}
  = u "test-results/login/suite-my test/chromium".
Proof. reflexivity. Qed.

(* ===================================================================== *)
(** ** The worker runtime: order of hooks and status *)
(* ===================================================================== *)

Section WorkerProperties.
Import Worker.

(** A function that stays within the budget is not interrupted; what it
    adds to the trace is its output up to its first throw. *)
Lemma runSteps_within (budget : nat) (l : list action) : forall st,
  elapsed st + awaitedSteps l <= budget ->
  snd (runSteps budget l st) <> TimerFired
  /\ trace (fst (runSteps budget l st))
     = trace st ++ map Logged (outputOf l)
  /\ elapsed (fst (runSteps budget l st)) <= elapsed st + awaitedSteps l
  /\ cancelled (fst (runSteps budget l st)) = cancelled st
  /\ error (fst (runSteps budget l st)) = error st.
Proof.
  induction l as [|a l IH]; intros st Hb.
  - simpl. rewrite app_nil_r. repeat split; [discriminate|lia].
  - destruct a as [x| | |ms|msg]; cbn [runSteps awaitedSteps outputOf] in *.
    + edestruct IH as [H1 [H2 [H3 [H4 H5]]]]; [|repeat split; eauto].
      * simpl. exact Hb.
      * rewrite H2. cbn [trace map]. now rewrite <- app_assoc.
    + edestruct IH as [H1 [H2 [H3 [H4 H5]]]]; [|repeat split; eauto].
      simpl. exact Hb.
    + edestruct IH as [H1 [H2 [H3 [H4 H5]]]]; [|repeat split; eauto].
      simpl. exact Hb.
    + assert (Hle : Nat.leb (elapsed st + ms) budget = true)
        by (apply Nat.leb_le; lia).
      rewrite Hle.
      edestruct IH as [H1 [H2 [H3 [H4 H5]]]]; [|repeat split; eauto].
      * simpl. lia.
      * simpl in H3. lia.
    + simpl. rewrite app_nil_r. repeat split; [discriminate|lia].
Qed.

(** A quiet function, in addition, ends normally and leaves the skip mark
    as it was. *)
Lemma runSteps_quiet (budget : nat) (l : list action) : forall st,
  quietSteps l = true ->
  elapsed st + awaitedSteps l <= budget ->
  snd (runSteps budget l st) = Done
  /\ skipSeen (fst (runSteps budget l st)) = skipSeen st.
Proof.
  induction l as [|a l IH]; intros st Hq Hb; [split; reflexivity|].
  destruct a as [x| | |ms|msg]; cbn [quietSteps forallb andb] in Hq;
    try discriminate; cbn [runSteps awaitedSteps] in *;
    try (assert (Hle : Nat.leb (elapsed st + ms) budget = true)
           by (apply Nat.leb_le; lia);
         rewrite Hle);
    match goal with
    | |- context [runSteps budget l ?s] =>
        destruct (IH s Hq ltac:(simpl; lia)) as [H1 H2]
    end; split; assumption.
Qed.

Lemma call_within (budget : nat) (h : Hook) (st : TestState) :
  elapsed st + awaited h <= budget ->
  snd (call budget h st) <> TimerFired
  /\ trace (fst (call budget h st)) = trace st ++ eventsOf h
  /\ elapsed (fst (call budget h st)) <= elapsed st + awaited h
  /\ cancelled (fst (call budget h st)) = cancelled st
  /\ error (fst (call budget h st)) = error st.
Proof.
  intros Hb. unfold call, awaited in *.
  edestruct (runSteps_within budget (steps h)) as [H1 [H2 [H3 [H4 H5]]]];
    [|repeat split; eauto].
  - simpl. exact Hb.
  - rewrite H2. cbn [trace]. unfold eventsOf.
    now rewrite <- app_assoc.
Qed.

Lemma call_quiet (budget : nat) (h : Hook) (st : TestState) :
  quiet h = true ->
  elapsed st + awaited h <= budget ->
  snd (call budget h st) = Done
  /\ skipSeen (fst (call budget h st)) = skipSeen st.
Proof.
  intros Hq Hb. unfold call, awaited, quiet in *.
  match goal with
  | |- context [runSteps budget (steps h) ?s] =>
      destruct (runSteps_quiet budget (steps h) s Hq Hb) as [H1 H2]
  end.
  split; assumption.
Qed.

(** Quiet [beforeEach] functions within the budget all run, in order, and
    leave no error, no skip mark and no cancellation behind. *)
Lemma runBefore_quiet (budget : nat) (hooks : list Hook) : forall st,
  forallb quiet hooks = true ->
  elapsed st + totalAwaited hooks <= budget ->
  trace (runBefore budget hooks st) = trace st ++ flat_map eventsOf hooks
  /\ elapsed (runBefore budget hooks st) <= elapsed st + totalAwaited hooks
  /\ cancelled (runBefore budget hooks st) = cancelled st
  /\ error (runBefore budget hooks st) = error st
  /\ skipSeen (runBefore budget hooks st) = skipSeen st.
Proof.
  induction hooks as [|h hooks IH]; intros st Hq Hb.
  - simpl. rewrite app_nil_r. repeat split; lia.
  - cbn [forallb] in Hq. apply andb_prop in Hq. destruct Hq as [Hh Hq].
    cbn [totalAwaited] in Hb. cbn [runBefore].
    destruct (call_within budget h st ltac:(lia)) as [_ [C2 [C3 [C4 C5]]]].
    destruct (call_quiet budget h st Hh ltac:(lia)) as [Q1 Q2].
    destruct (call budget h st) as [st' o]. cbn [fst snd] in *. subst o.
    destruct (IH st' Hq ltac:(lia)) as [I1 [I2 [I3 [I4 I5]]]].
    rewrite I1, I3, I4, I5, C2, C4, C5, Q2. cbn [flat_map totalAwaited].
    rewrite <- app_assoc. repeat split; lia.
Qed.

(** The body of a test that is neither failed, skipped nor cancelled so
    far runs even if it throws in the end. *)
Lemma runBody_within (budget : nat) (b : Hook) (st : TestState) :
  error st = None -> skipSeen st = false -> cancelled st = false ->
  elapsed st + awaited b <= budget ->
  trace (runBody budget b st) = trace st ++ eventsOf b
  /\ elapsed (runBody budget b st) <= elapsed st + awaited b
  /\ cancelled (runBody budget b st) = false.
Proof.
  intros He Hs Hc Hb. unfold runBody. rewrite He, Hs, Hc. cbn [orb].
  destruct (call_within budget b st Hb) as [C1 [C2 [C3 [C4 _]]]].
  destruct (call budget b st) as [st' o]. cbn [fst snd] in *.
  destruct o as [|msg|]; [| |contradiction];
    cbn [recordError trace elapsed cancelled];
    rewrite C2, C4, Hc; repeat split; lia.
Qed.

(** [afterEach] functions within the budget all run, in order, whether or
    not one of them throws, and the worker goes on. *)
Lemma runAfter_within (budget : nat) (hooks : list Hook) : forall st,
  elapsed st + totalAwaited hooks <= budget ->
  snd (runAfter budget hooks st) = false
  /\ trace (fst (runAfter budget hooks st))
     = trace st ++ flat_map eventsOf hooks
  /\ cancelled (fst (runAfter budget hooks st)) = cancelled st.
Proof.
  induction hooks as [|h hooks IH]; intros st Hb.
  - simpl. rewrite app_nil_r. repeat split.
  - cbn [totalAwaited] in Hb. cbn [runAfter].
    destruct (call_within budget h st ltac:(lia)) as [C1 [C2 [C3 [C4 _]]]].
    destruct (call budget h st) as [st' o]. cbn [fst snd] in *.
    destruct o as [|msg|]; [| |contradiction].
    + destruct (IH st' ltac:(lia)) as [I1 [I2 I3]].
      rewrite I1, I2, I3, C2, C4. cbn [flat_map].
      rewrite <- app_assoc. repeat split.
    + destruct (IH (recordError msg st') ltac:(simpl; lia)) as [I1 [I2 I3]].
      rewrite I1, I2, I3. cbn [recordError trace cancelled].
      rewrite C2, C4. cbn [flat_map]. rewrite <- app_assoc. repeat split.
Qed.

(** One test whose [beforeEach] functions are quiet, that is not skipped
    and whose functions stay within its timeout. *)
Lemma runTest_events (envs : list Env) (sc : Scope) (t : Spec) (r : Run) :
  let before := somes (map env_beforeEach envs) ++ sc_beforeEach sc in
  let after :=
    rev (sc_afterEach sc) ++ rev (somes (map env_afterEach envs)) in
  forallb quiet before = true ->
  sc_skipped sc || sp_skipped t = false ->
  totalAwaited before + awaited (body t) + totalAwaited after <= timeout t ->
  log (fst (runTest envs sc t r))
  = log r ++ testEvents before (body t) after
  /\ crashed (fst (runTest envs sc t r)) = false.
Proof.
  intros before after Hq Hs Hb. unfold runTest. fold before. fold after.
  set (st0 := {| trace := log r; skipSeen := sc_skipped sc || sp_skipped t;
                 expectedToFail := sc_expectedToFail sc || sp_expectedToFail t;
                 error := None; elapsed := 0; cancelled := false |}).
  destruct (runBefore_quiet (timeout t) before st0 Hq ltac:(simpl; lia))
    as [B1 [B2 [B3 [B4 B5]]]].
  set (st1 := runBefore (timeout t) before st0) in *.
  cbn [st0 trace elapsed cancelled error skipSeen] in B1, B2, B3, B4, B5.
  destruct (runBody_within (timeout t) (body t) st1 B4
              ltac:(now rewrite B5) B3 ltac:(lia)) as [D1 [D2 D3]].
  set (st2 := runBody (timeout t) (body t) st1) in *.
  destruct (runAfter_within (timeout t) after st2 ltac:(lia))
    as [A1 [A2 A3]].
  destruct (runAfter (timeout t) after st2) as [st3 overrun].
  cbn [fst snd] in A1, A2, A3. subst overrun. cbn [fst log crashed].
  rewrite A2, D1, B1. unfold testEvents. rewrite <- !app_assoc.
  split; reflexivity.
Qed.

Lemma runWSteps_log (l : list wstep) : forall r,
  log (runWSteps l r) = log r ++ map Logged (woutputOf l)
  /\ crashed (runWSteps l r) = crashed r.
Proof.
  induction l as [|a l IH]; intros r.
  - simpl. now rewrite app_nil_r.
  - destruct a as [x|msg]; cbn [runWSteps woutputOf map].
    + match goal with
      | |- context [runWSteps l ?r1] => destruct (IH r1) as [H1 H2]
      end.
      rewrite H1, H2. cbn [log crashed]. now rewrite <- app_assoc.
    + cbn [log crashed]. now rewrite app_nil_r.
Qed.

Lemma runAllHooks_log (hooks : list AllHook) : forall r,
  log (runAllHooks hooks r) = log r ++ flat_map weventsOf hooks
  /\ crashed (runAllHooks hooks r) = crashed r.
Proof.
  unfold runAllHooks.
  induction hooks as [|h hooks IH]; intros r.
  - simpl. now rewrite app_nil_r.
  - cbn [fold_left flat_map]. destruct (IH (callAll h r)) as [H1 H2].
    rewrite H1, H2. unfold callAll.
    match goal with
    | |- context [runWSteps (wsteps h) ?r1] =>
        destruct (runWSteps_log (wsteps h) r1) as [W1 W2]
    end.
    rewrite W1, W2. cbn [log crashed]. unfold weventsOf.
    rewrite <- !app_assoc. split; reflexivity.
Qed.

Lemma hasTests_nest (chain : list SuiteInfo) (t : Spec) :
  hasTests (nest chain t) = true.
Proof.
  induction chain as [|s chain IH]; [reflexivity|].
  cbn [nest hasTests existsb]. now rewrite IH.
Qed.

(** A test inside a chain of suites, started in the scope [sc]. *)
Lemma runNode_nest (envs : list Env) (t : Spec) (chain : list SuiteInfo) :
  forall sc r,
    let before :=
      somes (map env_beforeEach envs)
      ++ sc_beforeEach sc ++ flat_map beforeEach chain in
    let after :=
      rev (sc_afterEach sc ++ flat_map afterEach chain)
      ++ rev (somes (map env_afterEach envs)) in
    crashed r = false ->
    forallb quiet before = true ->
    sc_skipped sc || existsb s_skipped chain || sp_skipped t = false ->
    totalAwaited before + awaited (body t) + totalAwaited after
    <= timeout t ->
    log (runNode envs sc (nest chain t) r)
    = log r ++ flat_map weventsOf (flat_map beforeAll chain)
      ++ testEvents before (body t) after
      ++ flat_map weventsOf (flat_map afterAll (rev chain))
    /\ crashed (runNode envs sc (nest chain t) r) = false.
Proof.
  induction chain as [|s chain IH]; intros sc r before after Hc Hq Hs Hb.
  - cbn [nest runNode]. rewrite Hc.
    subst before after. cbn [flat_map] in *. rewrite !app_nil_r in *.
    rewrite orb_false_r in Hs.
    destruct (runTest_events envs sc t r Hq Hs Hb) as [H1 H2].
    split; [exact H1|exact H2].
  - cbn [nest runNode]. rewrite Hc. cbn [existsb].
    rewrite hasTests_nest. cbn [orb fold_left].
    destruct (runAllHooks_log (beforeAll s) r) as [P1 P2].
    set (r1 := runAllHooks (beforeAll s) r) in *.
    assert (Hq' : forallb quiet
                    (somes (map env_beforeEach envs)
                     ++ sc_beforeEach (enter sc s)
                     ++ flat_map beforeEach chain) = true).
    { subst before. cbn [enter sc_beforeEach flat_map] in *.
      now rewrite <- app_assoc. }
    assert (Hs' : sc_skipped (enter sc s) || existsb s_skipped chain
                  || sp_skipped t = false).
    { cbn [enter sc_skipped existsb] in *.
      destruct (sc_skipped sc), (s_skipped s), (existsb s_skipped chain);
        assumption || discriminate. }
    assert (Hb' : totalAwaited
                    (somes (map env_beforeEach envs)
                     ++ sc_beforeEach (enter sc s)
                     ++ flat_map beforeEach chain)
                  + awaited (body t)
                  + totalAwaited
                      (rev (sc_afterEach (enter sc s)
                            ++ flat_map afterEach chain)
                       ++ rev (somes (map env_afterEach envs)))
                  <= timeout t).
    { subst before after. cbn [enter sc_beforeEach sc_afterEach flat_map] in *.
      now rewrite <- !app_assoc. }
    destruct (IH (enter sc s) r1 ltac:(now rewrite P2) Hq' Hs' Hb')
      as [I1 I2].
    rewrite I2.
    destruct (runAllHooks_log (afterAll s)
                (runNode envs (enter sc s) (nest chain t) r1)) as [Q1 Q2].
    rewrite Q1, Q2, I1, I2, P1. subst before after.
    cbn [enter sc_beforeEach sc_afterEach flat_map rev].
    rewrite !flat_map_app. cbn [flat_map]. rewrite app_nil_r.
    rewrite <- !app_assoc. split; reflexivity.
Qed.

(** Whatever a function does, the trace only grows. *)
Lemma runSteps_keeps_trace (budget : nat) (l : list action) : forall st e,
  In e (trace st) -> In e (trace (fst (runSteps budget l st))).
Proof.
  induction l as [|a l IH]; intros st e He; [exact He|].
  destruct a as [x| | |ms|msg]; cbn [runSteps].
  - apply IH. cbn [trace]. apply in_or_app. now left.
  - apply IH. exact He.
  - apply IH. exact He.
  - destruct (Nat.leb (elapsed st + ms) budget); [apply IH|]; exact He.
  - exact He.
Qed.

Lemma call_enters (budget : nat) (h : Hook) (st : TestState) :
  In (Began (location h)) (trace (fst (call budget h st)))
  /\ forall e, In e (trace st) -> In e (trace (fst (call budget h st))).
Proof.
  unfold call. split; [|intros e He]; apply runSteps_keeps_trace;
    cbn [trace]; apply in_or_app; [right; now left|now left].
Qed.

(** Unless the worker ends itself on an overrun, every [afterEach]
    function is entered, whatever happened before it. *)
Lemma runAfter_enters_all (budget : nat) (hooks : list Hook) : forall st,
  snd (runAfter budget hooks st) = false ->
  (forall h, In h hooks ->
             In (Began (location h)) (trace (fst (runAfter budget hooks st))))
  /\ forall e, In e (trace st) ->
               In e (trace (fst (runAfter budget hooks st))).
Proof.
  induction hooks as [|h hooks IH]; intros st Hrun.
  - split; [intros h []|intros e He; exact He].
  - cbn [runAfter] in *.
    destruct (call_enters budget h st) as [E1 E2].
    destruct (call budget h st) as [st' o]. cbn [fst] in E1, E2.
    destruct o as [|msg|]; [| |discriminate Hrun].
    + destruct (IH st' Hrun) as [I1 I2]. split.
      * intros h' [<-|Hin]; [now apply I2|now apply I1].
      * intros e He. apply I2, E2, He.
    + destruct (IH (recordError msg st') Hrun) as [I1 I2]. split.
      * intros h' [<-|Hin]; [now apply I2|now apply I1].
      * intros e He. apply I2, E2, He.
Qed.

(** For any test at all: when the worker goes on after it, every
    [afterEach] function in its scope and of its envs was entered, even if
    a [beforeEach] function, the body or another [afterEach] function threw
    or the timer fired before the teardown. *)
Lemma afterEach_always_entered (envs : list Env) (sc : Scope) (t : Spec)
  (r : Run) (h : Hook) :
  crashed (fst (runTest envs sc t r)) = false ->
  In h (sc_afterEach sc ++ somes (map env_afterEach envs)) ->
  In (Began (location h)) (log (fst (runTest envs sc t r))).
Proof.
  unfold runTest.
  match goal with
  | |- context [runAfter ?b ?hs ?st] =>
      pose proof (runAfter_enters_all b hs st) as Ha;
      destruct (runAfter b hs st) as [st3 overrun]
  end.
  cbn [fst snd] in Ha.
  destruct overrun; cbn [fst crashed log]; intros Hc Hin; [discriminate|].
  destruct (Ha eq_refl) as [H1 _]. apply H1.
  apply in_or_app. apply in_app_or in Hin.
  destruct Hin as [Hin|Hin]; [left|right]; now apply in_rev in Hin.
Qed.

(** *** The order in every run *)

Lemma Subseq_nil_l {A} (m : list A) : Subseq [] m.
Proof. induction m; constructor; assumption. Qed.

Lemma Subseq_refl {A} (l : list A) : Subseq l l.
Proof. induction l; constructor; assumption. Qed.

Lemma Subseq_app {A} (l1 m1 l2 m2 : list A) :
  Subseq l1 m1 -> Subseq l2 m2 -> Subseq (l1 ++ l2) (m1 ++ m2).
Proof.
  intros H1 H2. induction H1; simpl; try constructor; assumption.
Qed.

Lemma Subseq_weaken {A} (l m k : list A) :
  Subseq l m -> Subseq l (m ++ k).
Proof.
  intros H. rewrite <- (app_nil_r l).
  apply Subseq_app; [exact H|apply Subseq_nil_l].
Qed.

Lemma Subseq_same {A} (l m m' : list A) :
  Subseq l m -> m = m' -> Subseq l m'.
Proof. now intros H <-. Qed.

Lemma entered_app (a b : list event) :
  entered (a ++ b) = entered a ++ entered b.
Proof. unfold entered. apply flat_map_app. Qed.

Lemma runSteps_entered (budget : nat) (l : list action) : forall st,
  entered (trace (fst (runSteps budget l st))) = entered (trace st).
Proof.
  induction l as [|a l IH]; intros st; [reflexivity|].
  destruct a as [x| | |ms|msg]; cbn [runSteps];
    try (destruct (Nat.leb (elapsed st + ms) budget));
    try rewrite IH; cbn [trace fst]; try reflexivity.
  rewrite entered_app. cbn. now rewrite app_nil_r.
Qed.

Lemma call_entered (budget : nat) (h : Hook) (st : TestState) :
  entered (trace (fst (call budget h st)))
  = entered (trace st) ++ [location h].
Proof.
  unfold call. rewrite runSteps_entered. cbn [trace].
  now rewrite entered_app.
Qed.

Lemma runBefore_entered (budget : nat) (hooks : list Hook) : forall st,
  exists l,
    entered (trace (runBefore budget hooks st)) = entered (trace st) ++ l
    /\ Subseq l (map location hooks).
Proof.
  induction hooks as [|h hooks IH]; intros st.
  - exists []. split; [now rewrite app_nil_r|constructor].
  - cbn [runBefore map]. pose proof (call_entered budget h st) as Hc.
    destruct (call budget h st) as [st' o]. cbn [fst] in Hc.
    destruct o as [|msg|].
    + destruct (IH st') as [l [H1 H2]]. exists (location h :: l).
      rewrite H1, Hc, <- app_assoc. split; [reflexivity|now apply Subseq_take].
    + destruct (IH (recordError msg st')) as [l [H1 H2]].
      exists (location h :: l). rewrite H1. cbn [recordError trace].
      rewrite Hc, <- app_assoc. split; [reflexivity|now apply Subseq_take].
    + exists [location h]. cbn [cancel trace]. rewrite Hc.
      split; [reflexivity|]. apply Subseq_take, Subseq_nil_l.
Qed.

Lemma runBody_entered (budget : nat) (b : Hook) (st : TestState) :
  exists l,
    entered (trace (runBody budget b st)) = entered (trace st) ++ l
    /\ Subseq l [location b].
Proof.
  unfold runBody.
  destruct (error st); [exists []; split;
                        [now rewrite app_nil_r|apply Subseq_nil_l]|].
  destruct (skipSeen st || cancelled st);
    [exists []; split; [now rewrite app_nil_r|apply Subseq_nil_l]|].
  pose proof (call_entered budget b st) as Hc.
  destruct (call budget b st) as [st' o]. cbn [fst] in Hc.
  exists [location b]. split; [|apply Subseq_refl].
  destruct o; cbn [recordError cancel trace]; exact Hc.
Qed.

Lemma runAfter_entered (budget : nat) (hooks : list Hook) : forall st,
  exists l,
    entered (trace (fst (runAfter budget hooks st)))
    = entered (trace st) ++ l
    /\ Subseq l (map location hooks).
Proof.
  induction hooks as [|h hooks IH]; intros st.
  - exists []. split; [now rewrite app_nil_r|constructor].
  - cbn [runAfter map]. pose proof (call_entered budget h st) as Hc.
    destruct (call budget h st) as [st' o]. cbn [fst] in Hc.
    destruct o as [|msg|].
    + destruct (IH st') as [l [H1 H2]]. exists (location h :: l).
      rewrite H1, Hc, <- app_assoc. split; [reflexivity|now apply Subseq_take].
    + destruct (IH (recordError msg st')) as [l [H1 H2]].
      exists (location h :: l). rewrite H1. cbn [recordError trace].
      rewrite Hc, <- app_assoc. split; [reflexivity|now apply Subseq_take].
    + exists [location h]. cbn [fst]. rewrite Hc.
      split; [reflexivity|]. apply Subseq_take, Subseq_nil_l.
Qed.

Lemma runTest_entered (envs : list Env) (sc : Scope) (t : Spec) (r : Run) :
  exists l,
    entered (log (fst (runTest envs sc t r))) = entered (log r) ++ l
    /\ Subseq l
         (map location (somes (map env_beforeEach envs) ++ sc_beforeEach sc)
          ++ [location (body t)]
          ++ map location (rev (sc_afterEach sc)
                           ++ rev (somes (map env_afterEach envs)))).
Proof.
  unfold runTest.
  match goal with
  | |- context [runBefore ?b ?hs ?st] =>
      destruct (runBefore_entered b hs st) as [l1 [B1 B2]];
      set (st1 := runBefore b hs st) in *
  end.
  destruct (runBody_entered (timeout t) (body t) st1) as [l2 [D1 D2]].
  set (st2 := runBody (timeout t) (body t) st1) in *.
  match goal with
  | |- context [runAfter ?b ?hs st2] =>
      destruct (runAfter_entered b hs st2) as [l3 [A1 A2]];
      destruct (runAfter b hs st2) as [st3 overrun]
  end.
  cbn [fst trace] in A1, B1.
  exists (l1 ++ l2 ++ l3). split.
  - destruct overrun; cbn [fst log]; rewrite A1, D1, B1, <- !app_assoc;
      reflexivity.
  - repeat apply Subseq_app; assumption.
Qed.

Lemma runAllHooks_entered (hooks : list AllHook) : forall r,
  entered (log (runAllHooks hooks r))
  = entered (log r) ++ map wlocation hooks.
Proof.
  intros r. destruct (runAllHooks_log hooks r) as [H _]. rewrite H.
  rewrite entered_app. f_equal. clear H.
  induction hooks as [|h hooks IH]; [reflexivity|].
  cbn [flat_map map]. rewrite entered_app, IH. f_equal.
  unfold weventsOf. cbn. f_equal.
  induction (woutputOf (wsteps h)) as [|x l IHl]; [reflexivity|exact IHl].
Qed.

Lemma runNode_nest_entered (envs : list Env) (t : Spec)
  (chain : list SuiteInfo) :
  forall sc r,
    exists l,
      entered (log (runNode envs sc (nest chain t) r)) = entered (log r) ++ l
      /\ Subseq l
           (map wlocation (flat_map beforeAll chain)
            ++ (map location (somes (map env_beforeEach envs)
                              ++ sc_beforeEach sc
                              ++ flat_map beforeEach chain)
                ++ [location (body t)]
                ++ map location
                     (rev (sc_afterEach sc ++ flat_map afterEach chain)
                      ++ rev (somes (map env_afterEach envs))))
            ++ map wlocation (flat_map afterAll (rev chain))).
Proof.
  induction chain as [|s chain IH]; intros sc r.
  - cbn [nest runNode flat_map map app]. rewrite !app_nil_r.
    destruct (crashed r).
    + exists []. split; [now rewrite app_nil_r|apply Subseq_nil_l].
    + apply runTest_entered.
  - cbn [nest runNode]. destruct (crashed r).
    { exists []. split; [now rewrite app_nil_r|apply Subseq_nil_l]. }
    cbn [existsb]. rewrite hasTests_nest. cbn [orb fold_left].
    set (r1 := runAllHooks (beforeAll s) r).
    destruct (IH (enter sc s) r1) as [l [I1 I2]].
    cbn [enter sc_beforeEach sc_afterEach] in I2.
    rewrite <- !app_assoc in I2.
    pose proof (runAllHooks_entered (beforeAll s) r) as P. fold r1 in P.
    cbn [flat_map rev]. rewrite !flat_map_app, !map_app.
    cbn [flat_map]. rewrite app_nil_r.
    destruct (crashed (runNode envs (enter sc s) (nest chain t) r1)).
    + exists (map wlocation (beforeAll s) ++ l ++ []).
      rewrite I1, P, app_nil_r, <- app_assoc. split; [reflexivity|].
      rewrite <- !app_assoc. apply Subseq_app; [apply Subseq_refl|].
      rewrite !map_app in I2. rewrite <- !app_assoc in I2.
      rewrite <- (app_nil_r l). rewrite !app_assoc.
      apply Subseq_app; [|apply Subseq_nil_l].
      rewrite <- !app_assoc. exact I2.
    + exists (map wlocation (beforeAll s) ++ l ++ map wlocation (afterAll s)).
      rewrite runAllHooks_entered, I1, P, <- !app_assoc.
      split; [reflexivity|].
      apply Subseq_app; [apply Subseq_refl|].
      rewrite !map_app in I2. rewrite <- !app_assoc in I2.
      rewrite !app_assoc. apply Subseq_app; [|apply Subseq_refl].
      rewrite <- !app_assoc. exact I2.
Qed.

Lemma crashed_test_stops_suites (envs : list Env) (t : Spec)
  (chain : list SuiteInfo) : forall sc r,
  crashed r = false ->
  crashed (runNode envs sc (nest chain t) r) = false ->
  crashed (fst (runTest envs (fold_left enter chain sc) t
                  (fold_left (fun r s => runAllHooks (beforeAll s) r)
                             chain r))) = false
  /\ forall e,
       In e (log (fst (runTest envs (fold_left enter chain sc) t
                         (fold_left (fun r s => runAllHooks (beforeAll s) r)
                                    chain r)))) ->
       In e (log (runNode envs sc (nest chain t) r)).
Proof.
  induction chain as [|s chain IH]; intros sc r Hr Hn.
  - cbn [nest runNode fold_left] in *. rewrite Hr in *. split; auto.
  - cbn [nest runNode fold_left] in *. rewrite Hr in Hn |- *.
    cbn [existsb] in *. rewrite hasTests_nest in *. cbn [orb fold_left] in *.
    destruct (runAllHooks_log (beforeAll s) r) as [_ P2].
    set (r1 := runAllHooks (beforeAll s) r) in *.
    destruct (crashed (runNode envs (enter sc s) (nest chain t) r1)) eqn:Ec;
      [congruence|].
    destruct (IH (enter sc s) r1 ltac:(congruence) Ec) as [I1 I2].
    split; [exact I1|]. intros e He.
    destruct (runAllHooks_log (afterAll s)
                (runNode envs (enter sc s) (nest chain t) r1)) as [Q1 _].
    rewrite Q1. apply in_or_app. left. now apply I2.
Qed.

Lemma scope_of_chain (chain : list SuiteInfo) : forall sc,
  sc_afterEach (fold_left enter chain sc)
  = sc_afterEach sc ++ flat_map afterEach chain.
Proof.
  induction chain as [|s chain IH]; intros sc; cbn [fold_left flat_map].
  - now rewrite app_nil_r.
  - rewrite IH. cbn [enter sc_afterEach]. now rewrite app_assoc.
Qed.

(** A file that holds one test, nested in suites and bound to envs.  (1) In
    every run the functions entered, in the order in which they are
    entered, are taken from [plan] and keep its order.  (2) Unless the
    worker ends itself on an overrun, every [afterEach] function of the
    suites and of the envs is entered, whatever threw before it.  (3) When
    the test is not skipped, the functions before its body neither throw
    nor skip and all stay within its timeout, every function of the list
    is entered and the log is the output of each in turn, whether or not
    the body or an [afterEach] function throws. *)
Lemma single_test_order (envs : list Env) (chain : list SuiteInfo) (t : Spec) :
  Subseq (entered (log (runGroup envs [nest chain t]))) (plan envs chain t)
  /\ (crashed (runGroup envs [nest chain t]) = false ->
      forall h,
        In h (flat_map afterEach chain ++ somes (map env_afterEach envs)) ->
        In (Began (location h)) (log (runGroup envs [nest chain t])))
  /\ (forallb quiet (somes (map env_beforeEach envs)
                     ++ flat_map beforeEach chain) = true ->
      existsb s_skipped chain || sp_skipped t = false ->
      totalAwaited (somes (map env_beforeEach envs)
                    ++ flat_map beforeEach chain)
      + awaited (body t)
      + totalAwaited (rev (flat_map afterEach chain)
                      ++ rev (somes (map env_afterEach envs)))
      <= timeout t ->
      log (runGroup envs [nest chain t])
      = flat_map weventsOf (somes (map env_beforeAll envs))
        ++ flat_map weventsOf (flat_map beforeAll chain)
        ++ flat_map eventsOf (somes (map env_beforeEach envs))
        ++ flat_map eventsOf (flat_map beforeEach chain)
        ++ eventsOf (body t)
        ++ flat_map eventsOf (rev (flat_map afterEach chain))
        ++ flat_map eventsOf (rev (somes (map env_afterEach envs)))
        ++ flat_map weventsOf (flat_map afterAll (rev chain))
        ++ flat_map weventsOf (rev (somes (map env_afterAll envs)))).
Proof.
  unfold runGroup.
  destruct (runAllHooks_log (somes (map env_beforeAll envs)) emptyRun)
    as [P1 P2].
  pose proof (runAllHooks_entered (somes (map env_beforeAll envs)) emptyRun)
    as P3.
  set (r0 := runAllHooks (somes (map env_beforeAll envs)) emptyRun) in *.
  cbn [fold_left]. cbn [emptyRun log crashed app entered flat_map] in P1, P2, P3.
  split; [|split].
  - destruct (runNode_nest_entered envs t chain rootScope r0) as [l [N1 N2]].
    cbn [rootScope sc_beforeEach sc_afterEach app] in N2.
    unfold plan.
    destruct (crashed (runNode envs rootScope (nest chain t) r0)).
    + rewrite N1, P3. apply Subseq_app; [apply Subseq_refl|].
      apply (Subseq_weaken _ _
               (map wlocation (rev (somes (map env_afterAll envs))))) in N2.
      eapply Subseq_same; [exact N2|].
      do 2 (rewrite ?map_app, <- ?app_assoc; cbn [app]). reflexivity.
    + rewrite runAllHooks_entered, N1, P3, <- !app_assoc.
      apply Subseq_app; [apply Subseq_refl|].
      eapply Subseq_same;
        [apply Subseq_app; [exact N2|apply Subseq_refl]|].
      do 2 (rewrite ?map_app, <- ?app_assoc; cbn [app]). reflexivity.
  - destruct (crashed (runNode envs rootScope (nest chain t) r0)) eqn:Ec;
      [congruence|]. intros _ h Hh.
    destruct (crashed_test_stops_suites envs t chain rootScope r0 P2 Ec)
      as [C1 C2].
    destruct (runAllHooks_log (rev (somes (map env_afterAll envs)))
                (runNode envs rootScope (nest chain t) r0)) as [Q1 _].
    rewrite Q1. apply in_or_app. left. apply C2.
    apply afterEach_always_entered; [exact C1|].
    rewrite scope_of_chain. exact Hh.
  - intros Hq Hs Hb.
    destruct (runNode_nest envs t chain rootScope r0
                ltac:(exact P2) Hq Hs Hb) as [N1 N2].
    rewrite N2.
    destruct (runAllHooks_log (rev (somes (map env_afterAll envs)))
                (runNode envs rootScope (nest chain t) r0)) as [Q1 _].
    rewrite Q1, N1, P1.
    cbn [rootScope sc_beforeEach sc_afterEach app].
    unfold testEvents. rewrite !flat_map_app, <- !app_assoc. reflexivity.
Qed.

(** *** Every test of a file *)

Lemma Node_induction (P : Node -> Prop) :
  (forall t, P (NSpec t)) ->
  (forall info entries, Forall P entries -> P (NSuite info entries)) ->
  forall n, P n.
Proof.
  intros Hs Hn. fix IH 1. intros [t|info entries]; [apply Hs|].
  apply Hn. induction entries as [|e l IHl]; constructor;
    [apply IH|exact IHl].
Qed.

(** What a test does is the same whatever the worker did before it: the
    earlier events only come first in the trace. *)
Lemma runSteps_after (p : list event) (budget : nat) (l : list action) :
  forall st,
    runSteps budget l (after_ p st)
    = (after_ p (fst (runSteps budget l st)), snd (runSteps budget l st)).
Proof.
  induction l as [|a l IH]; intros st; [reflexivity|].
  destruct a as [x| | |ms|msg]; cbn [runSteps].
  - rewrite <- IH. unfold after_. cbn [trace skipSeen expectedToFail error
                                        elapsed cancelled].
    now rewrite app_assoc.
  - rewrite <- IH. reflexivity.
  - rewrite <- IH. reflexivity.
  - cbn [after_ elapsed].
    destruct (Nat.leb (elapsed st + ms) budget); [|reflexivity].
    rewrite <- IH. reflexivity.
  - reflexivity.
Qed.

Lemma call_after (p : list event) (budget : nat) (h : Hook)
  (st : TestState) :
  call budget h (after_ p st)
  = (after_ p (fst (call budget h st)), snd (call budget h st)).
Proof.
  unfold call. rewrite <- runSteps_after. unfold after_.
  cbn [trace skipSeen expectedToFail error elapsed cancelled].
  now rewrite app_assoc.
Qed.

Lemma runBefore_after (p : list event) (budget : nat) (hooks : list Hook) :
  forall st,
    runBefore budget hooks (after_ p st)
    = after_ p (runBefore budget hooks st).
Proof.
  induction hooks as [|h hooks IH]; intros st; [reflexivity|].
  cbn [runBefore]. rewrite call_after.
  destruct (call budget h st) as [st' o]. cbn [fst snd].
  destruct o as [|msg|]; [apply IH| |reflexivity].
  change (recordError msg (after_ p st'))
    with (after_ p (recordError msg st')).
  apply IH.
Qed.

Lemma runBody_after (p : list event) (budget : nat) (b : Hook)
  (st : TestState) :
  runBody budget b (after_ p st) = after_ p (runBody budget b st).
Proof.
  unfold runBody. cbn [after_ error skipSeen cancelled].
  destruct (error st); [reflexivity|].
  destruct (skipSeen st || cancelled st); [reflexivity|].
  change {| trace := p ++ trace st; skipSeen := skipSeen st;
            expectedToFail := expectedToFail st; error := error st;
            elapsed := elapsed st; cancelled := cancelled st |}
    with (after_ p st).
  rewrite call_after.
  destruct (call budget b st) as [st' o]. cbn [fst snd].
  destruct o; reflexivity.
Qed.

Lemma runAfter_after (p : list event) (budget : nat) (hooks : list Hook) :
  forall st,
    runAfter budget hooks (after_ p st)
    = (after_ p (fst (runAfter budget hooks st)),
       snd (runAfter budget hooks st)).
Proof.
  induction hooks as [|h hooks IH]; intros st; [reflexivity|].
  cbn [runAfter]. rewrite call_after.
  destruct (call budget h st) as [st' o]. cbn [fst snd].
  destruct o as [|msg|]; [apply IH| |reflexivity].
  change (recordError msg (after_ p st'))
    with (after_ p (recordError msg st')).
  apply IH.
Qed.

Lemma runTest_after (envs : list Env) (sc : Scope) (t : Spec) (r : Run) :
  runTest envs sc t r
  = ({| log := log r ++ log (fst (runTest envs sc t emptyRun));
        reports := reports r ++ reports (fst (runTest envs sc t emptyRun));
        workerErrors := workerErrors r;
        crashed := crashed (fst (runTest envs sc t emptyRun)) |},
     after_ (log r) (snd (runTest envs sc t emptyRun))).
Proof.
  unfold runTest. cbn [emptyRun log reports workerErrors].
  replace {| trace := log r; skipSeen := sc_skipped sc || sp_skipped t;
             expectedToFail := sc_expectedToFail sc || sp_expectedToFail t;
             error := None; elapsed := 0; cancelled := false |}
    with (after_ (log r)
            {| trace := []; skipSeen := sc_skipped sc || sp_skipped t;
               expectedToFail :=
                 sc_expectedToFail sc || sp_expectedToFail t;
               error := None; elapsed := 0; cancelled := false |})
    by (unfold after_; cbn [trace skipSeen expectedToFail error elapsed
                              cancelled]; now rewrite app_nil_r).
  rewrite runBefore_after, runBody_after, runAfter_after.
  destruct (runAfter (timeout t) _ _) as [st3 overrun]. cbn [fst snd].
  destruct overrun; cbn [fst snd log reports crashed after_ trace cancelled
                             skipSeen error expectedToFail app];
    [now rewrite app_nil_r|reflexivity].
Qed.

(** The scope at the end of a chain of suites. *)
Lemma scope_fields (chain : list SuiteInfo) : forall sc,
  sc_beforeEach (fold_left enter chain sc)
  = sc_beforeEach sc ++ flat_map beforeEach chain
  /\ sc_afterEach (fold_left enter chain sc)
     = sc_afterEach sc ++ flat_map afterEach chain
  /\ sc_skipped (fold_left enter chain sc)
     = sc_skipped sc || existsb s_skipped chain
  /\ sc_expectedToFail (fold_left enter chain sc)
     = sc_expectedToFail sc || existsb s_expectedToFail chain.
Proof.
  induction chain as [|s chain IH]; intros sc; cbn [fold_left flat_map existsb].
  - now rewrite !app_nil_r, !orb_false_r.
  - destruct (IH (enter sc s)) as [H1 [H2 [H3 H4]]].
    rewrite H1, H2, H3, H4. cbn [enter sc_beforeEach sc_afterEach sc_skipped
                                   sc_expectedToFail].
    now rewrite <- !app_assoc, <- !orb_assoc.
Qed.

Lemma scopeOf_fields (chain : list SuiteInfo) :
  sc_beforeEach (scopeOf chain) = flat_map beforeEach chain
  /\ sc_afterEach (scopeOf chain) = flat_map afterEach chain
  /\ sc_skipped (scopeOf chain) = existsb s_skipped chain
  /\ sc_expectedToFail (scopeOf chain) = existsb s_expectedToFail chain.
Proof. exact (scope_fields chain rootScope). Qed.

Lemma scopeOf_enter (chain : list SuiteInfo) (info : SuiteInfo) :
  enter (scopeOf chain) info = scopeOf (chain ++ [info]).
Proof. unfold scopeOf. now rewrite fold_left_app. Qed.

(** One test run on its own, by the suites around it. *)
Lemma attempt_steps (envs : list Env) (chain : list SuiteInfo) (t : Spec) :
  attempt envs (chain, t)
  = (let st0 :=
       {| trace := [];
          skipSeen := existsb s_skipped chain || sp_skipped t;
          expectedToFail := existsb s_expectedToFail chain
                            || sp_expectedToFail t;
          error := None; elapsed := 0; cancelled := false |} in
     let st1 := runBefore (timeout t) (beforeOf envs chain) st0 in
     let st2 := runBody (timeout t) (body t) st1 in
     let st3 := fst (runAfter (timeout t) (afterOf envs chain) st2) in
     if snd (runAfter (timeout t) (afterOf envs chain) st2) then
       ({| log := trace st3; reports := []; workerErrors := [];
           crashed := true |}, st3)
     else
       ({| log := trace st3;
           reports :=
             [(title t,
               computeStatus (cancelled st3) (skipSeen st3) (error st3)
                             (expectedToFail st3),
               reportedError (cancelled st3) (skipSeen st3) (error st3)
                             (expectedToFail st3))];
           workerErrors := []; crashed := false |}, st3)).
Proof.
  unfold attempt, runTest, beforeOf, afterOf. cbn [fst snd].
  destruct (scopeOf_fields chain) as [H1 [H2 [H3 H4]]].
  rewrite H1, H2, H3, H4. cbv zeta.
  destruct (runAfter (timeout t) _ _) as [st3 overrun]. cbn [fst snd].
  destruct overrun; reflexivity.
Qed.

(** A test during which the worker goes on has exactly one [testEnd]. *)
Lemma attempt_report (envs : list Env) (ct : list SuiteInfo * Spec) :
  (crashes envs ct = true -> reports (fst (attempt envs ct)) = [])
  /\ (crashes envs ct = false ->
      exists e,
        reports (fst (attempt envs ct))
        = [(title (snd ct), attemptStatus envs ct, e)]).
Proof.
  unfold crashes, attemptStatus. destruct ct as [chain t].
  rewrite attempt_steps. cbv zeta. cbn [fst snd].
  destruct (snd (runAfter (timeout t) (afterOf envs chain) _));
    cbn [fst snd crashed reports]; split; intros H;
    try discriminate; [reflexivity|eexists; reflexivity].
Qed.

(** [afterEach] functions that do not overrun are all entered, in order. *)
Lemma runAfter_entered_all (budget : nat) (hooks : list Hook) : forall st,
  snd (runAfter budget hooks st) = false ->
  entered (trace (fst (runAfter budget hooks st)))
  = entered (trace st) ++ map location hooks.
Proof.
  induction hooks as [|h hooks IH]; intros st Hrun.
  - cbn. now rewrite app_nil_r.
  - cbn [runAfter map] in *. pose proof (call_entered budget h st) as Hc.
    destruct (call budget h st) as [st' o]. cbn [fst] in Hc.
    destruct o as [|msg|]; [| |discriminate Hrun].
    + rewrite (IH st' Hrun), Hc, <- app_assoc. reflexivity.
    + rewrite (IH (recordError msg st') Hrun). cbn [recordError trace].
      rewrite Hc, <- app_assoc. reflexivity.
Qed.

(** The functions entered during a test after which the worker goes on:
    some of those before the body, in order, the body or not, and every
    one of those after it. *)
Lemma attempt_entered (envs : list Env) (chain : list SuiteInfo) (t : Spec) :
  crashes envs (chain, t) = false ->
  exists l1 l2,
    entered (log (fst (attempt envs (chain, t))))
    = l1 ++ l2 ++ map location (afterOf envs chain)
    /\ Subseq l1 (map location (beforeOf envs chain))
    /\ Subseq l2 [location (body t)].
Proof.
  unfold crashes. rewrite attempt_steps. cbv zeta.
  match goal with
  | |- context [runBefore ?b ?hs ?st] =>
      destruct (runBefore_entered b hs st) as [l1 [B1 B2]];
      set (st1 := runBefore b hs st) in *
  end.
  destruct (runBody_entered (timeout t) (body t) st1) as [l2 [D1 D2]].
  set (st2 := runBody (timeout t) (body t) st1) in *.
  pose proof (runAfter_entered_all (timeout t) (afterOf envs chain) st2) as A.
  destruct (runAfter (timeout t) (afterOf envs chain) st2) as [st3 overrun].
  cbn [fst snd] in *. destruct overrun; cbn [fst crashed log]; intros Hc;
    [discriminate|].
  exists l1, l2. rewrite (A eq_refl), D1, B1. cbn [trace entered flat_map app].
  rewrite <- app_assoc. repeat split; assumption.
Qed.

(** A test that is not skipped, whose functions before the body neither
    throw nor skip, and whose functions stay within its timeout. *)
Lemma attempt_events (envs : list Env) (chain : list SuiteInfo) (t : Spec) :
  forallb quiet (beforeOf envs chain) = true ->
  existsb s_skipped chain || sp_skipped t = false ->
  fits envs (chain, t) = true ->
  log (fst (attempt envs (chain, t)))
  = testEvents (beforeOf envs chain) (body t) (afterOf envs chain).
Proof.
  intros Hq Hs Hf. unfold fits in Hf. cbn [fst snd] in Hf.
  apply Nat.leb_le in Hf.
  destruct (scopeOf_fields chain) as [H1 [H2 [H3 _]]].
  unfold attempt. cbn [fst snd].
  destruct (runTest_events envs (scopeOf chain) t emptyRun) as [E _].
  - rewrite H1. exact Hq.
  - rewrite H3. exact Hs.
  - rewrite H1, H2. exact Hf.
  - rewrite E, H1, H2. reflexivity.
Qed.

(** Functions within the budget leave the timer alone, whatever they
    throw. *)
Lemma runBefore_within (budget : nat) (hooks : list Hook) : forall st,
  elapsed st + totalAwaited hooks <= budget ->
  elapsed (runBefore budget hooks st) <= elapsed st + totalAwaited hooks
  /\ cancelled (runBefore budget hooks st) = cancelled st.
Proof.
  induction hooks as [|h hooks IH]; intros st Hb.
  - cbn. split; [lia|reflexivity].
  - cbn [totalAwaited] in *. cbn [runBefore].
    destruct (call_within budget h st ltac:(lia)) as [C1 [_ [C3 [C4 _]]]].
    destruct (call budget h st) as [st' o]. cbn [fst snd] in *.
    destruct o as [|msg|]; [| |contradiction].
    + destruct (IH st' ltac:(lia)) as [I1 I2]. rewrite I2, C4. split; [lia|auto].
    + destruct (IH (recordError msg st') ltac:(simpl; lia)) as [I1 I2].
      rewrite I2. cbn [recordError elapsed cancelled] in *.
      rewrite C4. split; [lia|auto].
Qed.

Lemma runBody_fits (budget : nat) (b : Hook) (st : TestState) :
  elapsed st + awaited b <= budget ->
  elapsed (runBody budget b st) <= elapsed st + awaited b
  /\ cancelled (runBody budget b st) = cancelled st.
Proof.
  intros Hb. unfold runBody.
  destruct (error st); [split; [lia|reflexivity]|].
  destruct (skipSeen st || cancelled st); [split; [lia|reflexivity]|].
  destruct (call_within budget b st Hb) as [C1 [_ [C3 [C4 _]]]].
  destruct (call budget b st) as [st' o]. cbn [fst snd] in *.
  destruct o as [|msg|]; [| |contradiction];
    cbn [recordError elapsed cancelled]; split; assumption.
Qed.

(** A test whose functions stay within its timeout: the timer does not
    fire and the worker goes on. *)
Lemma attempt_fits (envs : list Env) (ct : list SuiteInfo * Spec) :
  fits envs ct = true ->
  crashes envs ct = false /\ timesOut envs ct = false.
Proof.
  destruct ct as [chain t]. unfold fits, crashes, timesOut. cbn [fst snd].
  intros Hf. apply Nat.leb_le in Hf.
  rewrite attempt_steps. cbv zeta.
  match goal with
  | |- context [runBefore ?b ?hs ?st] =>
      destruct (runBefore_within b hs st ltac:(simpl; lia)) as [B1 B2];
      set (st1 := runBefore b hs st) in *
  end.
  cbn [elapsed cancelled] in B1, B2.
  destruct (runBody_fits (timeout t) (body t) st1 ltac:(lia)) as [D1 D2].
  set (st2 := runBody (timeout t) (body t) st1) in *.
  destruct (runAfter_within (timeout t) (afterOf envs chain) st2 ltac:(lia))
    as [A1 [_ A3]].
  destruct (runAfter (timeout t) (afterOf envs chain) st2) as [st3 overrun].
  cbn [fst snd] in *. subst overrun. cbn [fst snd crashed].
  split; [reflexivity|]. now rewrite A3, D2, B2.
Qed.










(** A worker that ended itself runs nothing more. *)
Lemma crashed_runNode (envs : list Env) (sc : Scope) (n : Node) (r : Run) :
  crashed r = true -> runNode envs sc n r = r.
Proof. intros H. destruct n; cbn [runNode]; now rewrite H. Qed.

Lemma crashed_runEntries (envs : list Env) (sc : Scope)
  (entries : list Node) : forall r,
  crashed r = true ->
  fold_left (fun r e => runNode envs sc e r) entries r = r.
Proof.
  induction entries as [|e l IH]; intros r H; [reflexivity|].
  cbn [fold_left]. rewrite (crashed_runNode envs sc e r H). now apply IH.
Qed.

Lemma runWSteps_reports (l : list wstep) : forall r,
  reports (runWSteps l r) = reports r.
Proof.
  induction l as [|a l IH]; intros r; [reflexivity|].
  destruct a as [x|msg]; cbn [runWSteps]; [now rewrite IH|reflexivity].
Qed.

Lemma runAllHooks_reports (hooks : list AllHook) : forall r,
  reports (runAllHooks hooks r) = reports r.
Proof.
  unfold runAllHooks.
  induction hooks as [|h hooks IH]; intros r; [reflexivity|].
  cbn [fold_left]. rewrite IH. unfold callAll. now rewrite runWSteps_reports.
Qed.

(** Entries without tests. *)
Lemma flatten_without_tests (n : Node) : forall chain,
  hasTests n = false -> flatten chain n = [].
Proof.
  induction n as [t|info entries IH] using Node_induction; intros chain H;
    [discriminate|].
  cbn [hasTests flatten] in *.
  induction IH as [|e l He Hl IHl]; [reflexivity|].
  cbn [existsb flat_map] in *. apply orb_false_elim in H. destruct H as [H1 H2].
  now rewrite (He _ H1), (IHl H2).
Qed.

Lemma flatten_entries_without_tests (entries : list Node)
  (chain : list SuiteInfo) :
  existsb hasTests entries = false -> flat_map (flatten chain) entries = [].
Proof.
  induction entries as [|e l IH]; intros H; [reflexivity|].
  cbn [existsb flat_map] in *. apply orb_false_elim in H. destruct H as [H1 H2].
  now rewrite (flatten_without_tests e chain H1), (IH H2).
Qed.

Lemma survivors_all (envs : list Env) (l : list (list SuiteInfo * Spec)) :
  existsb (crashes envs) l = false -> survivors envs l = l.
Proof.
  induction l as [|ct l IH]; intros H; [reflexivity|].
  cbn [existsb survivors] in *. apply orb_false_elim in H.
  destruct H as [H1 H2]. now rewrite H1, (IH H2).
Qed.

Lemma survivors_app (envs : list Env) (a b : list (list SuiteInfo * Spec)) :
  survivors envs (a ++ b)
  = if existsb (crashes envs) a then survivors envs a
    else a ++ survivors envs b.
Proof.
  induction a as [|ct a IH]; [reflexivity|].
  cbn [app survivors existsb]. destruct (crashes envs ct); [reflexivity|].
  cbn [orb]. rewrite IH. now destruct (existsb (crashes envs) a).
Qed.


(** The entries of a suite, or of a file, run one after the other. *)
Lemma runEntries_tests (envs : list Env)
  (perTest : list SuiteInfo -> Spec -> list event) (entries : list Node) :
  Forall (fun n => forall chain r,
            crashed r = false ->
            ranTests envs (flatten chain n) (fileLog perTest chain n) r
                     (runNode envs (scopeOf chain) n r)) entries ->
  forall chain r,
    crashed r = false ->
    ranTests envs (flat_map (flatten chain) entries)
             (flat_map (fileLog perTest chain) entries) r
             (fold_left (fun r e => runNode envs (scopeOf chain) e r)
                        entries r).
Proof.
  intros Hall. induction Hall as [|e l He Hl IH]; intros chain r Hc.
  - cbn [fold_left flat_map]. unfold ranTests. cbn [survivors flat_map existsb].
    rewrite !app_nil_r.
    split; [reflexivity|split; [exact Hc|intros _; reflexivity]].
  - cbn [fold_left flat_map]. destruct (He chain r Hc) as [R1 [R2 R3]].
    set (r1 := runNode envs (scopeOf chain) e r) in *.
    unfold ranTests. rewrite survivors_app, existsb_app, <- R2.
    destruct (crashed r1) eqn:E1.
    + rewrite (crashed_runEntries envs (scopeOf chain) l r1 E1).
      split; [exact R1|split; [exact E1|intros H; congruence]].
    + destruct (IH chain r1 E1) as [I1 [I2 I3]]. cbn [orb].
      rewrite flat_map_app. rewrite I1, R1.
      rewrite (survivors_all envs (flatten chain e)) by congruence.
      rewrite <- app_assoc. split; [reflexivity|split; [exact I2|]].
      intros H. rewrite (I3 H), (R3 eq_refl), <- app_assoc. reflexivity.
Qed.

(** Every entry of a file: the reports, whether the worker ended itself,
    and the log if it did not, by the tests of the entry run on their
    own. *)
Lemma runNode_tests (envs : list Env) (n : Node) : forall chain r,
  crashed r = false ->
  ranTests envs (flatten chain n)
           (fileLog (fun c t => log (fst (attempt envs (c, t)))) chain n) r
           (runNode envs (scopeOf chain) n r).
Proof.
  induction n as [t|info entries IH] using Node_induction;
    intros chain r Hc.
  - cbn [runNode flatten fileLog]. rewrite Hc, runTest_after. cbn [fst].
    change (runTest envs (scopeOf chain) t emptyRun)
      with (attempt envs (chain, t)).
    unfold ranTests. cbn [reports crashed log survivors existsb flat_map].
    change (crashed (fst (attempt envs (chain, t))))
      with (crashes envs (chain, t)).
    destruct (attempt_report envs (chain, t)) as [A1 _].
    destruct (crashes envs (chain, t)) eqn:Ec.
    + rewrite (A1 eq_refl). cbn [flat_map orb].
      split; [reflexivity|split; [reflexivity|intros H; discriminate]].
    + cbn [flat_map orb]. rewrite app_nil_r.
      split; [reflexivity|split; [reflexivity|intros _; reflexivity]].
  - cbn [runNode flatten fileLog]. rewrite Hc.
    destruct (existsb hasTests entries) eqn:Eh.
    + destruct (runAllHooks_log (beforeAll info) r) as [P1 P2].
      pose proof (runAllHooks_reports (beforeAll info) r) as P3.
      set (r0 := runAllHooks (beforeAll info) r) in *.
      rewrite scopeOf_enter.
      destruct (runEntries_tests envs _ entries IH (chain ++ [info]) r0
                  ltac:(congruence)) as [L1 [L2 L3]].
      set (rf := fold_left _ entries r0) in *.
      unfold ranTests. destruct (crashed rf) eqn:Ef.
      * rewrite L1, P3, <- L2.
        split; [reflexivity|split; [exact Ef|intros H; congruence]].
      * destruct (runAllHooks_log (afterAll info) rf) as [Q1 Q2].
        rewrite runAllHooks_reports, Q1, Q2, L1, P3, <- L2.
        split; [reflexivity|split; [exact Ef|intros _]].
        rewrite (L3 eq_refl), P1, <- !app_assoc. reflexivity.
    + rewrite (flatten_entries_without_tests entries _ Eh).
      unfold ranTests. cbn [survivors flat_map existsb].
      rewrite !app_nil_r.
      split; [reflexivity|split; [exact Hc|intros _; reflexivity]].
Qed.

(** A worker on a file. *)
Lemma runGroup_tests (envs : list Env) (file : list Node) :
  reports (runGroup envs file)
  = flat_map (fun ct => reports (fst (attempt envs ct)))
             (survivors envs (testsOf file))
  /\ crashed (runGroup envs file) = existsb (crashes envs) (testsOf file)
  /\ (crashed (runGroup envs file) = false ->
      log (runGroup envs file)
      = flat_map weventsOf (somes (map env_beforeAll envs))
        ++ flat_map (fileLog (fun c t => log (fst (attempt envs (c, t)))) [])
                    file
        ++ flat_map weventsOf (rev (somes (map env_afterAll envs)))).
Proof.
  unfold runGroup, testsOf.
  destruct (runAllHooks_log (somes (map env_beforeAll envs)) emptyRun)
    as [P1 P2].
  pose proof (runAllHooks_reports (somes (map env_beforeAll envs)) emptyRun)
    as P3.
  set (r0 := runAllHooks (somes (map env_beforeAll envs)) emptyRun) in *.
  cbn [emptyRun log crashed reports app] in P1, P2, P3.
  assert (Hall : Forall (fun n => forall chain r,
                           crashed r = false ->
                           ranTests envs (flatten chain n)
                             (fileLog (fun c t =>
                                         log (fst (attempt envs (c, t))))
                                      chain n) r
                             (runNode envs (scopeOf chain) n r)) file).
  { apply Forall_forall. intros n _. apply runNode_tests. }
  destruct (runEntries_tests envs _ file Hall [] r0 P2) as [L1 [L2 L3]].
  change (scopeOf []) with rootScope in L1, L2, L3.
  set (rf := fold_left _ file r0) in *.
  rewrite P3 in L1. cbn [app] in L1.
  destruct (crashed rf) eqn:Ef.
  - split; [exact L1|split; [now rewrite <- L2|intros H; congruence]].
  - destruct (runAllHooks_log (rev (somes (map env_afterAll envs))) rf)
      as [Q1 Q2].
    rewrite runAllHooks_reports, Q1, Q2.
    split; [exact L1|split; [now rewrite <- L2|intros _]].
    rewrite (L3 eq_refl), P1, <- app_assoc. reflexivity.
Qed.

(** In every run, the functions entered under an entry keep the order of
    its plan. *)
Lemma runEntries_entered (envs : list Env) (entries : list Node) :
  Forall (fun n => forall chain r,
            exists l,
              entered (log (runNode envs (scopeOf chain) n r))
              = entered (log r) ++ l
              /\ Subseq l (planNode envs chain n)) entries ->
  forall chain r,
    exists l,
      entered (log (fold_left (fun r e => runNode envs (scopeOf chain) e r)
                              entries r))
      = entered (log r) ++ l
      /\ Subseq l (flat_map (planNode envs chain) entries).
Proof.
  intros Hall. induction Hall as [|e l He Hl IH]; intros chain r.
  - exists []. cbn. split; [now rewrite app_nil_r|constructor].
  - cbn [fold_left flat_map]. destruct (He chain r) as [l1 [E1 S1]].
    destruct (IH chain (runNode envs (scopeOf chain) e r)) as [l2 [E2 S2]].
    exists (l1 ++ l2). rewrite E2, E1, <- app_assoc.
    split; [reflexivity|now apply Subseq_app].
Qed.

Lemma runNode_entered (envs : list Env) (n : Node) : forall chain r,
  exists l,
    entered (log (runNode envs (scopeOf chain) n r)) = entered (log r) ++ l
    /\ Subseq l (planNode envs chain n).
Proof.
  induction n as [t|info entries IH] using Node_induction; intros chain r.
  - cbn [runNode planNode]. destruct (crashed r).
    + exists []. split; [now rewrite app_nil_r|apply Subseq_nil_l].
    + destruct (runTest_entered envs (scopeOf chain) t r) as [l [E S]].
      destruct (scopeOf_fields chain) as [H1 [H2 _]].
      rewrite H1, H2 in S. exists l. split; [exact E|exact S].
  - cbn [runNode planNode]. destruct (crashed r).
    { exists []. split; [now rewrite app_nil_r|apply Subseq_nil_l]. }
    destruct (existsb hasTests entries).
    2:{ exists []. split; [now rewrite app_nil_r|apply Subseq_nil_l]. }
    pose proof (runAllHooks_entered (beforeAll info) r) as P.
    set (r0 := runAllHooks (beforeAll info) r) in *.
    rewrite scopeOf_enter.
    destruct (runEntries_entered envs entries IH (chain ++ [info]) r0)
      as [l [E S]].
    set (rf := fold_left _ entries r0) in *.
    destruct (crashed rf).
    + exists (map wlocation (beforeAll info) ++ l ++ []).
      rewrite E, P, app_nil_r, <- app_assoc. split; [reflexivity|].
      apply Subseq_app; [apply Subseq_refl|].
      now apply Subseq_weaken.
    + exists (map wlocation (beforeAll info) ++ l
              ++ map wlocation (afterAll info)).
      rewrite runAllHooks_entered, E, P, <- !app_assoc.
      split; [reflexivity|].
      apply Subseq_app; [apply Subseq_refl|].
      apply Subseq_app; [exact S|apply Subseq_refl].
Qed.

Lemma runGroup_entered (envs : list Env) (file : list Node) :
  Subseq (entered (log (runGroup envs file))) (planFile envs file).
Proof.
  unfold runGroup, planFile.
  pose proof (runAllHooks_entered (somes (map env_beforeAll envs)) emptyRun)
    as P.
  set (r0 := runAllHooks (somes (map env_beforeAll envs)) emptyRun) in *.
  cbn [emptyRun log entered flat_map app] in P.
  assert (Hall : Forall (fun n => forall chain r,
                           exists l,
                             entered (log (runNode envs (scopeOf chain) n r))
                             = entered (log r) ++ l
                             /\ Subseq l (planNode envs chain n)) file).
  { apply Forall_forall. intros n _. apply runNode_entered. }
  destruct (runEntries_entered envs file Hall [] r0) as [l [E S]].
  change (scopeOf []) with rootScope in E.
  set (rf := fold_left _ file r0) in *.
  destruct (crashed rf).
  - rewrite E, P. apply Subseq_app; [apply Subseq_refl|].
    now apply Subseq_weaken.
  - rewrite runAllHooks_entered, E, P, <- app_assoc.
    apply Subseq_app; [apply Subseq_refl|].
    apply Subseq_app; [exact S|apply Subseq_refl].
Qed.

Lemma fits_all_no_crash (envs : list Env)
  (l : list (list SuiteInfo * Spec)) :
  forallb (fits envs) l = true -> existsb (crashes envs) l = false.
Proof.
  induction l as [|ct l IH]; intros H; [reflexivity|].
  cbn [forallb existsb] in *. apply andb_prop in H. destruct H as [H1 H2].
  destruct (attempt_fits envs ct H1) as [Hc _]. now rewrite Hc, (IH H2).
Qed.

Lemma no_crash_each (envs : list Env) (l : list (list SuiteInfo * Spec))
  (ct : list SuiteInfo * Spec) :
  existsb (crashes envs) l = false -> In ct l -> crashes envs ct = false.
Proof.
  intros H Hin. destruct (crashes envs ct) eqn:Ec; [|reflexivity].
  assert (Ht : existsb (crashes envs) l = true)
    by (apply existsb_exists; exists ct; split; assumption).
  congruence.
Qed.

(** C2.  Every test of a file, whatever the suites around it and the envs
    it is bound to.  (1) In every run the functions entered, in the order
    in which they are entered, are taken from the plan of the file and
    keep its order: the env [beforeAll]; for each suite its [beforeAll]
    hooks, its entries and its [afterAll] hooks; for each test the env
    [beforeEach], the [beforeEach] hooks outermost first, the body, the
    [afterEach] hooks innermost first and the env [afterEach]; the env
    [afterAll] last.  (2) When the functions of every test stay within
    its timeout, the worker does not end itself.  (3) When the worker
    does not end itself, the log is made of the logs of the tests, one
    after the other in declaration order, between the hooks of the suites
    that hold them; during every test every [afterEach] function of its
    suites and of its envs is entered, in that order and after whatever
    ran of the functions before them, whether or not one of these or the
    body threw; and a test that is not skipped, whose functions before the
    body neither throw nor skip and whose functions stay within its
    timeout logs the output of each of its functions in turn. *)
Theorem hook_order (envs : list Env) (file : list Node) :
  Subseq (entered (log (runGroup envs file))) (planFile envs file)
  /\ (forallb (fits envs) (testsOf file) = true ->
      crashed (runGroup envs file) = false)
  /\ (crashed (runGroup envs file) = false ->
      exists perTest,
        log (runGroup envs file)
        = flat_map weventsOf (somes (map env_beforeAll envs))
          ++ flat_map (fileLog perTest []) file
          ++ flat_map weventsOf (rev (somes (map env_afterAll envs)))
        /\ forall chain t,
             In (chain, t) (testsOf file) ->
             (exists l1 l2,
                entered (perTest chain t)
                = l1 ++ l2 ++ map location (afterOf envs chain)
                /\ Subseq l1 (map location (beforeOf envs chain))
                /\ Subseq l2 [location (body t)])
             /\ (forallb quiet (beforeOf envs chain) = true ->
                 existsb s_skipped chain || sp_skipped t = false ->
                 fits envs (chain, t) = true ->
                 perTest chain t
                 = testEvents (beforeOf envs chain) (body t)
                              (afterOf envs chain))).
Proof.
  split; [apply runGroup_entered|].
  destruct (runGroup_tests envs file) as [_ [G2 G3]].
  split.
  - intros Hf. rewrite G2. now apply fits_all_no_crash.
  - intros Hc. exists (fun c t => log (fst (attempt envs (c, t)))).
    split; [exact (G3 Hc)|]. intros chain t Hin.
    rewrite Hc in G2. symmetry in G2.
    pose proof (no_crash_each envs _ _ G2 Hin) as Hn.
    split; [now apply attempt_entered|].
    intros Hq Hs Hf. now apply attempt_events.
Qed.

Lemma hook_order_witness :
  let envs := [MyEnv] in
  let file :=
    [NSuite loggingSuite
       [NSpec (spec "one" [Log (u "test"); Raise (u "expect")]);
        NSpec (spec "two" [Log (u "two")])];
     NSpec (spec "three" [Log (u "three")])] in
  (forallb (fits envs) (testsOf file) = true
   /\ crashed (runGroup envs file) = false)
  /\ exists perTest,
       log (runGroup envs file)
       = flat_map weventsOf (somes (map env_beforeAll envs))
         ++ flat_map (fileLog perTest []) file
         ++ flat_map weventsOf (rev (somes (map env_afterAll envs)))
       /\ forall chain t,
            In (chain, t) (testsOf file) ->
            (exists l1 l2,
               entered (perTest chain t)
               = l1 ++ l2 ++ map location (afterOf envs chain)
               /\ Subseq l1 (map location (beforeOf envs chain))
               /\ Subseq l2 [location (body t)])
            /\ (forallb quiet (beforeOf envs chain) = true ->
                existsb s_skipped chain || sp_skipped t = false ->
                fits envs (chain, t) = true ->
                perTest chain t
                = testEvents (beforeOf envs chain) (body t)
                             (afterOf envs chain)).
Proof.
  intros envs file. split.
  - split; [reflexivity|].
    apply (proj1 (proj2 (hook_order envs file))). reflexivity.
  - apply (proj2 (proj2 (hook_order envs file))). reflexivity.
Defined.

(** The log of a file with two tests in a suite and one outside it: the
    second test of the suite has the suite's hooks around it too. *)
Example two_tests_in_a_suite_log :
  logged (log (runGroup [MyEnv]
                 [NSuite loggingSuite
                    [NSpec (spec "one" [Log (u "test"); Raise (u "expect")]);
                     NSpec (spec "two" [Log (u "two")])];
                  NSpec (spec "three" [Log (u "three")])]))
  = map u ["+w"; "beforeAll-17";
           "+t"; "beforeEach-42"; "test"; "afterEach-42"; "-t";
           "+t"; "beforeEach-42"; "two"; "afterEach-42"; "-t";
           "afterAll-17"; "+t"; "three"; "-t"; "-w"]%string.
Proof. reflexivity. Qed.

(** The log of the runner's test of hooks with an env, as the second test
    of the file finds it (up to its own [+t]), and what follows. *)
Example hooks_with_env_log :
  logged (log (runGroup [MyEnv]
                 [NSuite loggingSuite [NSpec (spec "one" [Log (u "test")])];
                  NSpec (spec "two" [Log (u "two")])]))
  = map u ["+w"; "beforeAll-17"; "+t"; "beforeEach-42"; "test";
           "afterEach-42"; "-t"; "afterAll-17"; "+t"; "two"; "-t";
           "-w"]%string.
Proof. reflexivity. Qed.

(** An [afterEach] hook that throws keeps neither the other hook nor the
    env from running, and its error is the one reported. *)
Example afterEach_failure_log :
  let r := runGroup [MyEnv]
             [NSuite throwingSuite [NSpec (spec "one" [Log (u "test")])]] in
  logged (log r)
  = map u ["+w"; "+t"; "test"; "afterEach2"; "afterEach1"; "-t";
           "-w"]%string
  /\ reports r = [(u "one", failed, Some (u "afterEach2"))].
Proof. split; reflexivity. Qed.

(** The four tests of the failing suite: one skipped, two passed, one
    failed. *)
Example skip_over_fail_counts :
  map statusOf
    (reports
       (runGroup []
          [NSuite failingSuite
             [NSpec (spec "skipped" [CallSkip; Raise (u "expect")]);
              NSpec (spec "passing" [Raise (u "expect")]);
              NSpec (spec "passing2" [Raise (u "expect")]);
              NSpec (spec "failing" [])]]))
  = [skipped; passed; passed; failed].
Proof. reflexivity. Qed.

(** A test marked with [fail()] whose body passes is reported failed,
    with a message of its own. *)
Example unexpected_pass_report :
  reports (runGroup [] [NSpec (spec "succeeds" [CallFail])])
  = [(u "succeeds", failed, Some (u "passed unexpectedly"))].
Proof. reflexivity. Qed.

(** The status of a test on which both marks are set. *)
Lemma computeStatus_skip_and_fail (c : bool) (e : option jsstring) :
  computeStatus c true e true = (if c then timedOut else skipped)
  /\ computeStatus c true e true <> failed.
Proof. destruct c; split; (reflexivity || discriminate). Qed.

(** A [beforeEach] hook that throws keeps the body from running, but
    neither the other [beforeEach] hook nor the [afterEach] hook. *)
Example beforeEach_failure_log :
  let suite :=
    {| s_title := u "suite"; s_skipped := false; s_expectedToFail := false;
       beforeAll := []; afterAll := [];
       beforeEach :=
         [hook "beforeEach1" [Log (u "beforeEach1")];
          hook "beforeEach2" [Log (u "beforeEach2");
                              Raise (u "beforeEach2")]];
       afterEach := [hook "afterEach" [Log (u "afterEach")]] |} in
  let r := runGroup [] [NSuite suite [NSpec (spec "one" [Log (u "test")])]] in
  logged (log r) = map u ["beforeEach1"; "beforeEach2"; "afterEach"]%string
  /\ reports r = [(u "one", failed, Some (u "beforeEach2"))].
Proof. split; reflexivity. Qed.

(** *** The statuses that reach the reporters *)










(** The statuses of the four tests of the failing suite, as they reach
    the reporters. *)
Example skip_over_fail_reported :
  map snd
    (reportedStatuses []
       [NSuite failingSuite
          [NSpec (spec "skipped" [CallSkip; Raise (u "expect")]);
           NSpec (spec "passing" [Raise (u "expect")]);
           NSpec (spec "passing2" [Raise (u "expect")]);
           NSpec (spec "failing" [])]])
  = [skipped; passed; passed; failed].
Proof. reflexivity. Qed.


End WorkerProperties.

(* ===================================================================== *)
(** ** More on strings: prefixes and [indexOf] *)
(* ===================================================================== *)

Lemma prefixb_app (p s : jsstring) : prefixb p (p ++ s) = true.
Proof.
  induction p as [|x p IH]; [reflexivity|].
  cbn [app prefixb]. now rewrite N.eqb_refl, IH.
Qed.

Lemma prefixb_split (p : jsstring) : forall s,
  prefixb p s = true -> exists rest, s = p ++ rest.
Proof.
  induction p as [|x p IH]; intros s H; [now exists s|].
  destruct s as [|y s]; [discriminate|].
  cbn [prefixb] in H. apply andb_true_iff in H. destruct H as [Hxy H].
  apply N.eqb_eq in Hxy. subst y.
  destruct (IH s H) as [rest ->]. now exists rest.
Qed.

Lemma prefixb_shorter (a b s : jsstring) :
  prefixb (a ++ b) s = true -> prefixb a s = true.
Proof.
  revert s. induction a as [|x a IH]; intros s H; [reflexivity|].
  destruct s as [|y s]; [discriminate|].
  cbn [app prefixb] in *. apply andb_true_iff in H. destruct H as [H1 H2].
  now rewrite H1, (IH s H2).
Qed.

(** [indexOf] answers -1 exactly when the pattern occurs nowhere, and
    otherwise the length of what comes before its first occurrence. *)
Lemma indexOf_from_spec (pat : jsstring) (s : jsstring) : forall i,
  (indexOf_from pat i s = (-1)%Z /\ forall a b, s <> a ++ pat ++ b)
  \/ (exists a b, s = a ++ pat ++ b
                  /\ indexOf_from pat i s = (i + Z.of_nat (length a))%Z
                  /\ forall a' b', s = a' ++ pat ++ b' ->
                                   length a <= length a').
Proof.
  induction s as [|c s IH]; intros i.
  - cbn [indexOf_from]. destruct (prefixb pat []) eqn:Hp.
    + right. destruct (prefixb_split pat [] Hp) as [b Hb].
      exists [], b. split; [exact Hb|]. split; [cbn; lia|].
      intros a' b' _. cbn. lia.
    + left. split; [reflexivity|]. intros a b E.
      destruct a; [|discriminate]. cbn [app] in E.
      rewrite E, prefixb_app in Hp. discriminate.
  - cbn [indexOf_from]. destruct (prefixb pat (c :: s)) eqn:Hp.
    + right. destruct (prefixb_split pat (c :: s) Hp) as [b Hb].
      exists [], b. split; [exact Hb|]. split; [cbn; lia|].
      intros a' b' _. cbn. lia.
    + destruct (IH (i + 1)%Z) as [[Hn Hno]|[a [b [Hs [Hi Hmin]]]]].
      * left. split; [exact Hn|]. intros a b E.
        destruct a as [|x a].
        -- cbn [app] in E. rewrite E, prefixb_app in Hp. discriminate.
        -- injection E as _ E. exact (Hno a b E).
      * right. exists (c :: a), b. split; [now rewrite Hs|].
        split; [rewrite Hi; cbn [length]; lia|].
        intros a' b' E. destruct a' as [|x a'].
        -- cbn [app] in E. rewrite E, prefixb_app in Hp. discriminate.
        -- injection E as _ E. specialize (Hmin a' b' E).
           cbn [length]. lia.
Qed.

(* ===================================================================== *)
(** ** The command line: the files that are loaded *)
(* ===================================================================== *)

Section CliFilesProperties.
Import Cli CliFiles.

Lemma str_ltb_irrefl (a : jsstring) : str_ltb a a = false.
Proof.
  induction a as [|x a IH]; [reflexivity|].
  cbn [str_ltb]. now rewrite N.ltb_irrefl, N.eqb_refl, IH.
Qed.

Lemma str_ltb_asym (a : jsstring) : forall b,
  str_ltb a b = true -> str_ltb b a = false.
Proof.
  induction a as [|x a IH]; intros [|y b] H; try reflexivity;
    try discriminate.
  cbn [str_ltb] in *.
  apply orb_true_iff in H. destruct H as [H|H].
  - apply N.ltb_lt in H.
    destruct (N.ltb_spec y x); [lia|].
    destruct (N.eqb_spec y x); [lia|reflexivity].
  - apply andb_true_iff in H. destruct H as [Hxy H].
    apply N.eqb_eq in Hxy. subst y.
    now rewrite N.ltb_irrefl, N.eqb_refl, (IH b H).
Qed.

Lemma str_ltb_total (a : jsstring) : forall b,
  str_ltb a b = false -> str_ltb b a = false -> a = b.
Proof.
  induction a as [|x a IH]; intros [|y b] H1 H2; try reflexivity;
    try discriminate.
  cbn [str_ltb] in *.
  apply orb_false_iff in H1. destruct H1 as [L1 E1].
  apply orb_false_iff in H2. destruct H2 as [L2 E2].
  apply N.ltb_ge in L1. apply N.ltb_ge in L2.
  assert (x = y) by lia. subst y.
  rewrite N.eqb_refl in E1, E2. cbn [andb] in E1, E2.
  f_equal. now apply IH.
Qed.

(** X1.  The comparator of [collectFiles] is antisymmetric: swapping its
    arguments negates the result; and it answers 0 only for two entries
    with the same path. *)
Theorem compareEntries_antisymmetric (a b : Entry) :
  compareEntries b a = (- compareEntries a b)%Z
  /\ (compareEntries a b = 0%Z -> path a = path b).
Proof.
  unfold compareEntries.
  rewrite (Z.eqb_sym (depth b) (depth a)).
  rewrite (orb_comm (prefixb (dirname a) (dirname b))).
  destruct (Z.eqb_spec (depth a) (depth b)) as [Hd|Hd]; cbn [negb andb].
  - destruct (str_ltb (path b) (path a)) eqn:Hba.
    + rewrite (str_ltb_asym _ _ Hba). split; [reflexivity|discriminate].
    + destruct (str_ltb (path a) (path b)) eqn:Hab.
      * split; [reflexivity|discriminate].
      * split; [reflexivity|]. intros _. now apply str_ltb_total.
  - destruct (prefixb (dirname b) (dirname a) || prefixb (dirname a) (dirname b)).
    + split; [lia|]. intros H. lia.
    + destruct (str_ltb (path b) (path a)) eqn:Hba.
      * rewrite (str_ltb_asym _ _ Hba). split; [reflexivity|discriminate].
      * destruct (str_ltb (path a) (path b)) eqn:Hab.
        -- split; [reflexivity|discriminate].
        -- split; [reflexivity|]. intros _. now apply str_ltb_total.
Qed.

Section FilterProperties.

Variable relative : jsstring -> jsstring -> jsstring.
Variable minimatch : jsstring -> jsstring -> bool.

Lemma filter_filter {A} (p q : A -> bool) (l : list A) :
  filter p (filter q l) = filter (fun x => q x && p x) l.
Proof.
  induction l as [|x l IH]; [reflexivity|].
  cbn [filter]. destruct (q x); cbn [filter andb]; now rewrite IH.
Qed.

Lemma includes_occurs (sub s : jsstring) :
  includes sub s = true -> exists a b, s = a ++ sub ++ b.
Proof.
  unfold includes, indexOf. intros H.
  destruct (indexOf_from_spec sub s 0) as [[Hn _]|[a [b [Hs _]]]].
  - rewrite Hn in H. discriminate.
  - now exists a, b.
Qed.

(** X2.  The names given on the command line only narrow the selection:
    the files kept with a non-empty list of names are those kept without
    any name that also pass the test on the names, in the same order; and
    a file passes that test only if one of the names, not the empty one,
    occurs in its path relative to the test directory. *)
Theorem filterFiles_names_narrow (base : jsstring)
  (files filters : list jsstring) (filesMatch filesIgnore : jsstring) :
  filters <> [] ->
  filterFiles relative minimatch base files filters filesMatch filesIgnore
  = filter (nameSelected relative base filters)
      (filterFiles relative minimatch base files [] filesMatch filesIgnore)
  /\ forall file,
       In file (filterFiles relative minimatch base files filters filesMatch
                  filesIgnore) ->
       In file files
       /\ exists name a b,
            In name filters /\ name <> []
            /\ relative base file = a ++ name ++ b.
Proof.
  intros Hne.
  assert (E : filterFiles relative minimatch base files filters filesMatch
                filesIgnore
              = filter (nameSelected relative base filters)
                  (filterFiles relative minimatch base files [] filesMatch
                     filesIgnore)).
  { unfold filterFiles. cbv zeta.
    rewrite filter_filter. apply filter_ext. intros file.
    unfold keepFile, nameSelected. cbv zeta.
    destruct filters as [|f fs]; [contradiction|].
    change (Nat.eqb (length (f :: fs)) 0) with false.
    change (Nat.eqb (length (@nil jsstring)) 0) with true.
    cbn [negb andb].
    destruct (_ && minimatch _ _); [reflexivity|].
    destruct (_ && negb (minimatch _ _)); [reflexivity|].
    cbn [andb].
    now destruct (match find _ (f :: fs) with Some _ => _ | None => _ end). }
  split; [exact E|].
  intros file Hin. rewrite E in Hin. apply filter_In in Hin.
  destruct Hin as [Hin Hsel]. split.
  - unfold filterFiles in Hin. cbv zeta in Hin.
    apply filter_In in Hin. tauto.
  - unfold nameSelected in Hsel.
    destruct (find _ filters) as [found|] eqn:Ef; [|discriminate].
    apply find_some in Ef. destruct Ef as [Hf Hinc].
    destruct (includes_occurs _ _ Hinc) as [a [b Hab]].
    exists found, a, b. repeat split; try assumption.
    intros ->. discriminate.
Qed.

Lemma includes_empty (s : jsstring) : includes [] s = true.
Proof. unfold includes, indexOf. now destruct s. Qed.

(** X3.  An empty string among the names, in front of the others, selects
    nothing: it occurs in every file name, [find] returns it, and the
    empty string it returns counts as not found. *)
Theorem filterFiles_empty_name_selects_nothing (base : jsstring)
  (files rest : list jsstring) (filesMatch filesIgnore : jsstring) :
  filterFiles relative minimatch base files ([] :: rest) filesMatch
    filesIgnore = [].
Proof.
  unfold filterFiles. cbv zeta.
  induction files as [|file files IH]; [reflexivity|].
  cbn [filter]. rewrite IH.
  unfold keepFile. cbv zeta. cbn [find].
  rewrite includes_empty. cbn [JUnit.nonempty negb length Nat.eqb andb].
  destruct (_ && minimatch _ _); [reflexivity|].
  now destruct (_ && negb (minimatch _ _)).
Qed.

End FilterProperties.

Lemma filterFiles_names_narrow_witness :
  [u "a.spec.ts"] <> []
  /\ filterFiles relativeInside (fun _ pattern => str_eqb pattern (u "**/*.ts")) (u "/w")
       [u "/w/a.spec.ts"; u "/w/b.spec.ts"] [u "a.spec.ts"] (u "*.ts") []
     = filter (nameSelected relativeInside (u "/w") [u "a.spec.ts"])
         (filterFiles relativeInside (fun _ pattern => str_eqb pattern (u "**/*.ts")) (u "/w")
            [u "/w/a.spec.ts"; u "/w/b.spec.ts"] [] (u "*.ts") []).
Proof.
  split; [discriminate|].
  apply (filterFiles_names_narrow relativeInside (fun _ pattern => str_eqb pattern (u "**/*.ts"))).
  discriminate.
Defined.

(** *** The shard selector on text that is not of the form c/t *)

Lemma digits_value_stop (ds : jsstring) : forall acc x rest,
  Forall (fun d => is_digit d = true) ds ->
  is_digit x = false ->
  digits_value acc (ds ++ x :: rest) = digits_value acc ds.
Proof.
  induction ds as [|d ds IH]; intros acc x rest Hd Hx.
  - cbn [app digits_value]. rewrite Hx. reflexivity.
  - inversion Hd; subst. cbn [app digits_value].
    rewrite H1. now apply IH.
Qed.

Lemma parseInt10_decimal_then (n : N) (x : N) (rest : jsstring) :
  is_digit x = false ->
  parseInt10 (decimal n ++ x :: rest) = VNum (Z.of_N n).
Proof.
  intros Hx. pose proof (parseInt10_decimal n) as H.
  pose proof (decimal_digits n) as Hd.
  pose proof (decimal_nonempty n) as Hn.
  unfold parseInt10 in *.
  destruct (decimal n) as [|d ds] eqn:E; [contradiction|].
  inversion Hd; subst.
  cbn [app skip_space] in *.
  rewrite (digit_not_space d H2) in *.
  rewrite (read_sign_digit d ds H2) in H.
  change (d :: ds ++ x :: rest) with (d :: (ds ++ x :: rest)).
  rewrite (read_sign_digit d (ds ++ x :: rest) H2).
  change (d :: (ds ++ x :: rest)) with ((d :: ds) ++ x :: rest).
  rewrite digits_value_stop; [exact H|now constructor|exact Hx].
Qed.

Lemma split_on_head (sep : N) (s : jsstring) :
  exists p ps, split_on sep s = p :: ps.
Proof.
  induction s as [|c s IH]; [now exists [], []|].
  cbn [split_on]. destruct (N.eqb c sep); [now eexists; eexists|].
  destruct IH as [p [ps ->]]. now eexists; eexists.
Qed.

Lemma split_on_digits_then (sep : N) (ds : jsstring) (x : N)
  (rest : jsstring) :
  Forall (fun d => is_digit d = true) ds ->
  is_digit sep = false ->
  exists tail more,
    split_on sep (ds ++ x :: rest) = (ds ++ tail) :: more
    /\ (tail = [] \/ exists r, tail = x :: r).
Proof.
  intros Hd Hs. induction Hd as [|d ds Hdig Hd IH].
  - cbn [app split_on]. destruct (N.eqb x sep).
    + exists [], (split_on sep rest). split; [reflexivity|now left].
    + destruct (split_on_head sep rest) as [p [ps ->]].
      exists (x :: p), ps. split; [reflexivity|right; now exists p].
  - cbn [app split_on].
    destruct (N.eqb_spec d sep) as [->|Hne]; [congruence|].
    destruct IH as [tail [more [-> Ht]]].
    exists tail, more. split; [reflexivity|exact Ht].
Qed.

(** X4.  [--shard] is read leniently.  After the two numbers of c/t any
    text that does not start with a digit is ignored, further slashes
    included; and a selector with no slash at all is accepted with an
    undefined total.  The numbers are below 2^53, where [parseInt] is
    exact. *)
Theorem parseShard_lenient (c t : N) (x : N) (junk : jsstring) (l : bool) :
  (c < 2 ^ 53)%N -> (t < 2 ^ 53)%N ->
  is_digit x = false ->
  parseShard {| cmd_shard := VStr (decimal c ++ u "/" ++ decimal t
                                   ++ x :: junk);
                cmd_list := l |}
  = Some {| current := VNum (Z.of_N c - 1); total := VNum (Z.of_N t) |}
  /\ parseShard {| cmd_shard := VStr (decimal c); cmd_list := l |}
     = Some {| current := VNum (Z.of_N c - 1); total := VUndefined |}.
Proof.
  intros _ _ Hx. split.
  - unfold parseShard. cbn [cmd_shard].
    replace (truthy (VStr (decimal c ++ u "/" ++ decimal t ++ x :: junk)))
      with true.
    2:{ pose proof (decimal_nonempty c). cbn [truthy].
        destruct (decimal c); [contradiction|reflexivity]. }
    change (u "/" ++ decimal t ++ x :: junk)
      with (47%N :: (decimal t ++ x :: junk)).
    rewrite (split_on_digits 47 (decimal c) (decimal t ++ x :: junk)
               (decimal_digits c) eq_refl).
    destruct (split_on_digits_then 47 (decimal t) x junk (decimal_digits t)
                eq_refl) as [tail [more [-> Ht]]].
    cbn [map index nth].
    rewrite parseInt10_decimal. cbn [minus_one].
    destruct Ht as [->|[r ->]].
    + now rewrite app_nil_r, parseInt10_decimal.
    + now rewrite (parseInt10_decimal_then t x r Hx).
  - unfold parseShard. cbn [cmd_shard].
    replace (truthy (VStr (decimal c))) with true.
    2:{ pose proof (decimal_nonempty c). cbn [truthy].
        destruct (decimal c); [contradiction|reflexivity]. }
    rewrite (split_on_no_sep 47 (decimal c) (decimal_digits c) eq_refl).
    cbn [map index nth]. now rewrite parseInt10_decimal.
Qed.

Lemma parseShard_lenient_witness :
  (2 < 2 ^ 53)%N /\ (3 < 2 ^ 53)%N /\ is_digit 47 = false
  /\ parseShard {| cmd_shard := VStr (u "2/3/5"); cmd_list := false |}
     = Some {| current := VNum 1; total := VNum 3 |}
  /\ parseShard {| cmd_shard := VStr (u "2"); cmd_list := false |}
     = Some {| current := VNum 1; total := VUndefined |}.
Proof.
  split; [reflexivity|]. split; [reflexivity|]. split; [reflexivity|].
  exact (parseShard_lenient 2 3 47 (u "5") false eq_refl eq_refl eq_refl).
Defined.

(** *** The options and the exits *)

Lemma truthy_decimal (n : N) : truthy (VStr (decimal n)) = true.
Proof.
  pose proof (decimal_nonempty n) as H. cbn [truthy].
  destruct (decimal n); [contradiction|reflexivity].
Qed.

(** X5.  An option that takes a number and is given as decimal text of a
    number below 2^53, where [parseInt] is exact, ends in the
    configuration as that number, 0 included: the text of a zero is not
    empty, so the option counts as given.  [-x] sets the number of allowed
    failures to 1 and wins over [--max-failures]. *)
Theorem numeric_options_are_parsed (config : CliOptions.Config)
  (command : CliOptions.Command) (testDir : jsstring)
  (shard : option Shard) (g r t w m : N) :
  (g < 2 ^ 53)%N -> (r < 2 ^ 53)%N -> (t < 2 ^ 53)%N -> (w < 2 ^ 53)%N ->
  (m < 2 ^ 53)%N ->
  CliOptions.globalTimeout command = VStr (decimal g) ->
  CliOptions.repeatEach command = VStr (decimal r) ->
  CliOptions.retries command = VStr (decimal t) ->
  CliOptions.timeout command = VStr (decimal w) ->
  CliOptions.maxFailures command = VStr (decimal m) ->
  let c := CliOptions.assignOptions config command testDir shard in
  CliOptions.c_globalTimeout c = VNum (Z.of_N g)
  /\ CliOptions.c_repeatEach c = VNum (Z.of_N r)
  /\ CliOptions.c_retries c = VNum (Z.of_N t)
  /\ CliOptions.c_timeout c = VNum (Z.of_N w)
  /\ CliOptions.c_maxFailures c
     = (if CliOptions.x command then VNum 1 else VNum (Z.of_N m))
  /\ (CliOptions.workers command = VUndefined ->
      CliOptions.c_workers c = CliOptions.c_workers config).
Proof.
  intros _ _ _ _ _ Hg Hr Ht Hw Hm. cbv zeta.
  unfold CliOptions.assignOptions.
  cbn [CliOptions.c_globalTimeout CliOptions.c_repeatEach
       CliOptions.c_retries CliOptions.c_timeout CliOptions.c_maxFailures
       CliOptions.c_workers].
  rewrite Hg, Hr, Ht, Hw, Hm, !truthy_decimal. cbn [CliOptions.parseIntOf].
  rewrite !parseInt10_decimal.
  cbn [orb]. repeat split. now intros ->.
Qed.

Lemma numeric_options_are_parsed_witness :
  let command :=
    {| CliOptions.forbidOnly := false;
       CliOptions.globalTimeout := VStr (u "0");
       CliOptions.grep := VUndefined;
       CliOptions.maxFailures := VStr (u "5");
       CliOptions.x := true;
       CliOptions.output := VUndefined;
       CliOptions.quiet := false;
       CliOptions.repeatEach := VStr (u "3");
       CliOptions.retries := VStr (u "0");
       CliOptions.snapshotDir := VUndefined;
       CliOptions.timeout := VStr (u "1000");
       CliOptions.updateSnapshots := false;
       CliOptions.workers := VUndefined |} in
  let config :=
    {| CliOptions.c_testDir := VUndefined;
       CliOptions.c_forbidOnly := false;
       CliOptions.c_globalTimeout := VNum 0;
       CliOptions.c_grep := VStr (u ".*");
       CliOptions.c_maxFailures := VNum 0;
       CliOptions.c_outputDir := VStr (u "test-results");
       CliOptions.c_quiet := false;
       CliOptions.c_repeatEach := VNum 1;
       CliOptions.c_retries := VNum 2;
       CliOptions.c_shard := None;
       CliOptions.c_snapshotDir := VStr (u "__snapshots__");
       CliOptions.c_timeout := VNum 10000;
       CliOptions.c_updateSnapshots := false;
       CliOptions.c_workers := VNum 4 |} in
  ((0 < 2 ^ 53)%N /\ (3 < 2 ^ 53)%N /\ (1000 < 2 ^ 53)%N /\ (5 < 2 ^ 53)%N)
  /\ CliOptions.globalTimeout command = VStr (decimal 0)
  /\ CliOptions.repeatEach command = VStr (decimal 3)
  /\ CliOptions.retries command = VStr (decimal 0)
  /\ CliOptions.timeout command = VStr (decimal 1000)
  /\ CliOptions.maxFailures command = VStr (decimal 5)
  /\ CliOptions.c_retries
       (CliOptions.assignOptions config command (u "/w") None) = VNum 0
  /\ CliOptions.c_maxFailures
       (CliOptions.assignOptions config command (u "/w") None) = VNum 1.
Proof.
  cbv zeta.
  split; [repeat split|].
  do 5 (split; [reflexivity|]).
  match goal with
  | |- CliOptions.c_retries (CliOptions.assignOptions ?c ?cmd ?d ?s) = _ /\ _ =>
      pose proof (numeric_options_are_parsed c cmd d s 0 3 0 1000 5
                    eq_refl eq_refl eq_refl eq_refl eq_refl
                    eq_refl eq_refl eq_refl eq_refl eq_refl) as H
  end.
  cbv zeta in H. destruct H as [_ [_ [H3 [_ [H5 _]]]]].
  split; [exact H3|exact H5].
Defined.

(** X6.  A test directory that does not exist, or is not a directory,
    makes [runTests] throw an error that names it; the action of the
    program turns the error into exit code 1; the configuration is still
    the default one, no option has been copied into it. *)
Theorem bad_test_directory_exits_1 (d : Config) (cmd : Command) (w : World) :
  reportersResolve w = true ->
  existsSync w && isDirectory w = false ->
  action d cmd w = Exited 1
  /\ fst (runTests d cmd w) = d
  /\ snd (runTests d cmd w)
     = Threw (testDir w ++ (if existsSync w then u " is not a directory"
                            else u " does not exist")).
Proof.
  intros Hr Hd. unfold action, runTests. rewrite Hr. cbn [negb].
  destruct (existsSync w); cbn [negb]; [|repeat split].
  cbn [andb] in Hd. rewrite Hd. repeat split.
Qed.

Lemma bad_test_directory_exits_1_witness :
  let w := {| reportersResolve := true; testDir := u "/w/missing";
              existsSync := false; isDirectory := false;
              runResult := u "passed" |} in
  let cmd := {| cmd_shard := VUndefined; cmd_list := false |} in
  let d := {| c_testDir := VUndefined; c_shard := None |} in
  reportersResolve w = true
  /\ existsSync w && isDirectory w = false
  /\ action d cmd w = Exited 1
  /\ snd (runTests d cmd w) = Threw (u "/w/missing does not exist").
Proof.
  cbv zeta. split; [reflexivity|]. split; [reflexivity|].
  match goal with
  | |- action ?d ?cmd ?w = _ /\ _ =>
      pose proof (bad_test_directory_exits_1 d cmd w eq_refl eq_refl) as H
  end.
  destruct H as [H1 [_ H3]]. split; [exact H1|exact H3].
Defined.

End CliFilesProperties.

(* ===================================================================== *)
(** ** The JUnit reporter: the shape of the report *)
(* ===================================================================== *)

Section ShapeProperties.
Import JUnit JUnitShape.

Variable relative : jsstring -> jsstring -> jsstring.
Variable basename : jsstring -> jsstring.
Variable formatFailure : FullConfig -> Test -> jsstring.
Variable stripAscii : jsstring -> jsstring.
Variable String_number : jsnumber -> jsstring.

(** Induction on an entry, with the property known of its children. *)
Lemma XMLEntry_induction (P : XMLEntry -> Prop) :
  (forall n a c t,
      Forall P (match c with Some l => l | None => [] end) ->
      P (Entry n a c t)) ->
  forall e, P e.
Proof.
  intros H. fix IH 1. intros [n a c t]. apply H.
  destruct c as [l|]; [|constructor].
  induction l as [|k l IHl]; constructor; [apply IH|exact IHl].
Qed.

Lemma serialize_children (strip : bool) (l : list XMLEntry) :
  Forall (fun e => forall tokens,
            serializeXML String_number e tokens strip
            = tokens ++ serializeXML String_number e [] strip) l ->
  forall tokens,
    fold_left (fun tokens child =>
                 serializeXML String_number child tokens strip) l tokens
    = tokens
      ++ flat_map (fun child => serializeXML String_number child [] strip) l.
Proof.
  induction 1 as [|k l Hk Hl IH]; intros tokens.
  - cbn. now rewrite app_nil_r.
  - cbn [fold_left flat_map]. rewrite IH, Hk, <- app_assoc. reflexivity.
Qed.

Lemma serializeXML_push (strip : bool) (e : XMLEntry) :
  forall tokens,
    serializeXML String_number e tokens strip
    = tokens ++ serializeXML String_number e [] strip.
Proof.
  induction e as [n a c t IH] using XMLEntry_induction. intros tokens.
  cbn [serializeXML].
  destruct c as [l|].
  - rewrite (serialize_children strip l IH (tokens ++ _)).
    rewrite (serialize_children strip l IH ([] ++ _)).
    destruct t as [s|]; [destruct (nonempty s)|];
      rewrite <- ?app_assoc; reflexivity.
  - destruct t as [s|]; [destruct (nonempty s)|];
      rewrite <- ?app_assoc; reflexivity.
Qed.

Lemma serializeXML_push_all (strip : bool) (l : list XMLEntry) :
  Forall (fun e => forall tokens,
            serializeXML String_number e tokens strip
            = tokens ++ serializeXML String_number e [] strip) l.
Proof. apply Forall_forall. intros k _ tokens. apply serializeXML_push. Qed.

(** X7.  [serializeXML] only appends: the tokens it is given stay in
    front, unchanged, and what it adds does not depend on them; so the
    children of an entry, serialized one after the other into the same
    list, give the concatenation of what each gives alone. *)
Theorem serializeXML_appends (strip : bool) (e : XMLEntry)
  (l : list XMLEntry) (tokens : list jsstring) :
  serializeXML String_number e tokens strip
  = tokens ++ serializeXML String_number e [] strip
  /\ fold_left (fun tokens child =>
                  serializeXML String_number child tokens strip) l tokens
     = tokens
       ++ flat_map (fun child => serializeXML String_number child [] strip) l.
Proof.
  split; [apply serializeXML_push|].
  apply serialize_children, serializeXML_push_all.
Qed.

Lemma length_flat_map_serialize (strip : bool) (l : list XMLEntry) :
  Forall (fun e => length (serializeXML String_number e [] strip)
                   = 2 * entries e + texts e) l ->
  length (flat_map (fun child => serializeXML String_number child [] strip) l)
  = 2 * fold_right (fun k n => entries k + n) 0 l
    + fold_right (fun k n => texts k + n) 0 l.
Proof.
  induction 1 as [|k l Hk Hl IH]; [reflexivity|].
  cbn [flat_map fold_right]. rewrite length_app, Hk, IH. lia.
Qed.

(** X8.  The number of tokens of an entry: an opening and a closing tag
    for each entry of the tree, and one token more for each entry with a
    non-empty text.  An empty text adds nothing. *)
Theorem serializeXML_token_count (strip : bool) (e : XMLEntry)
  (tokens : list jsstring) :
  length (serializeXML String_number e tokens strip)
  = length tokens + 2 * entries e + texts e.
Proof.
  rewrite serializeXML_push, length_app.
  enough (length (serializeXML String_number e [] strip)
          = 2 * entries e + texts e) by lia.
  clear tokens.
  induction e as [n a c t IH] using XMLEntry_induction.
  cbn [serializeXML entries texts].
  destruct c as [l|].
  - assert (Happ : Forall (fun e => forall tokens,
                      serializeXML String_number e tokens strip
                      = tokens ++ serializeXML String_number e [] strip) l).
    { apply serializeXML_push_all. }
    rewrite (serialize_children strip l Happ).
    pose proof (length_flat_map_serialize strip l IH) as Hl.
    destruct t as [s|]; [destruct (nonempty s)|];
      rewrite ?length_app, Hl; cbn [length app]; lia.
  - destruct t as [s|]; [destruct (nonempty s)|];
      rewrite ?length_app; cbn [length app fold_right]; lia.
Qed.

Lemma suffixb_app (p s : jsstring) : suffixb p (s ++ p) = true.
Proof. unfold suffixb. rewrite rev_app_distr. apply prefixb_app. Qed.

Lemma join_cons (sep x : jsstring) (l : list jsstring) :
  l <> [] -> join sep (x :: l) = x ++ sep ++ join sep l.
Proof. destruct l; [contradiction|reflexivity]. Qed.

Lemma join_ends (sep z : jsstring) (l : list jsstring) :
  exists front, join sep (l ++ [z]) = front ++ z.
Proof.
  induction l as [|x l [front IH]]; [now exists []|].
  exists (x ++ sep ++ front).
  change ((x :: l) ++ [z]) with (x :: (l ++ [z])).
  rewrite join_cons by (now destruct l).
  rewrite IH, <- !app_assoc. reflexivity.
Qed.

Lemma suffixb_join_last (sep z x : jsstring) (l : list jsstring) :
  suffixb z (x ++ sep ++ join sep (l ++ [z])) = true.
Proof.
  destruct (join_ends sep z l) as [front ->].
  rewrite (app_assoc sep front z), (app_assoc x (sep ++ front) z).
  apply suffixb_app.
Qed.

(** The first and the last token of an entry. *)
Lemma serializeXML_brackets (strip : bool) (n : jsstring)
  (a : option (list (jsstring * attr))) (c : option (list XMLEntry))
  (t : option jsstring) :
  exists middle,
    serializeXML String_number (Entry n a c t) [] strip
    = (let attrs :=
         map (fun na : jsstring * attr =>
                fst na ++ [61; 34]%N
                ++ escape (String_attr String_number (snd na)) strip false
                ++ [34]%N)
             (match a with Some a => a | None => [] end) in
       u "<" ++ n ++ (match attrs with [] => [] | _ => u " " end)
       ++ join (u " ") attrs ++ u ">")
      :: middle ++ [u "</" ++ n ++ u ">"].
Proof.
  cbn [serializeXML]. cbv zeta.
  destruct c as [l|].
  - rewrite (serialize_children strip l).
    2:{ apply serializeXML_push_all. }
    destruct t as [s|]; [destruct (nonempty s)|].
    + exists (flat_map (fun child =>
                          serializeXML String_number child [] strip) l
              ++ [escape s strip true]).
      cbn [app]. reflexivity.
    + exists (flat_map (fun child =>
                          serializeXML String_number child [] strip) l).
      reflexivity.
    + exists (flat_map (fun child =>
                          serializeXML String_number child [] strip) l).
      reflexivity.
  - destruct t as [s|]; [destruct (nonempty s)|].
    + exists [escape s strip true]. reflexivity.
    + exists []. reflexivity.
    + exists []. reflexivity.
Qed.

Lemma build_all_keeps cfg (l : list Suite) : forall r es,
  let res :=
    fold_left (pushTestSuite relative basename formatFailure stripAscii
                 String_number cfg) l (r, es) in
  suite (fst res) = suite r /\ config (fst res) = config r
  /\ startTime (fst res) = startTime r.
Proof.
  induction l as [|s l IH]; intros r es; [now cbn|].
  cbn [fold_left]. rewrite pushTestSuite_eq. cbn [fst snd].
  specialize (IH (fst (_buildTestSuite relative basename formatFailure
                         stripAscii String_number r cfg s))
                 (es ++ [snd (_buildTestSuite relative basename formatFailure
                                stripAscii String_number r cfg s)])).
  cbv zeta in IH. destruct IH as [I1 [I2 I3]].
  cbv zeta. rewrite I1, I2, I3. now cbn.
Qed.

(** X9.  The report is the serialized root alone: it starts with the
    opening tag of [testsuites], whose first attribute is [id], and ends
    with its closing tag; nothing comes before or after, no XML
    declaration either. *)
Theorem junit_report_is_the_root r0 cfg top now mono mono' env :
  exists r' out,
    onEnd relative basename formatFailure stripAscii String_number
      (onBegin r0 cfg top now mono) mono' env = Some (r', out)
    /\ prefixb (u "<testsuites id=") (reportString out) = true
    /\ suffixb (u "</testsuites>") (reportString out) = true.
Proof.
  unfold onEnd. cbn [onBegin suite config].
  destruct (fold_left _ (suites top) _) as [r' kids].
  eexists. eexists. split; [reflexivity|]. cbn [reportString].
  match goal with
  | |- context [serializeXML _ (Entry ?n ?a ?c ?t) [] ?s] =>
      destruct (serializeXML_brackets s n a c t) as [middle E]
  end.
  rewrite E. clear E.
  change (u "</" ++ u "testsuites" ++ u ">") with (u "</testsuites>").
  rewrite join_cons by (now destruct middle).
  split; [lazy; reflexivity|apply suffixb_join_last].
Qed.

(** *** Escaping text that needs none *)

Lemma closeCdata_no_gt (s : jsstring) :
  ~ In 62%N s -> closeCdata s = s.
Proof.
  induction s as [|c s IH]; intros Hs; [reflexivity|].
  assert (Hrest : closeCdata s = s).
  { apply IH. intros H. apply Hs. now right. }
  rewrite closeCdata_cons.
  destruct (N.eqb c 93); [|now rewrite Hrest].
  destruct s as [|d [|e s']]; try now rewrite Hrest.
  destruct (N.eqb_spec e 62) as [->|He].
  - exfalso. apply Hs. right. right. now left.
  - rewrite andb_false_r. now rewrite Hrest.
Qed.

Lemma plain_units (text : jsstring) :
  Forall plainUnit text ->
  flat_map attrUnit text = text /\ flat_map dataUnit text = text
  /\ filter (fun c => negb (discouraged c)) text = text
  /\ ~ In 62%N text
  /\ Forall (fun c => c <> 27%N /\ c <> 155%N) text.
Proof.
  induction 1 as [|c text [H38 [H34 [H60 [H62 Hd]]]] Hall IH].
  - repeat split; try reflexivity; [intros []|constructor].
  - destruct IH as [I1 [I2 [I3 [I4 I5]]]].
    cbn [flat_map filter]. rewrite I1, I2, I3, Hd. cbn [negb].
    unfold attrUnit, dataUnit. rewrite Hd.
    destruct (N.eqb_spec c 38); [contradiction|].
    destruct (N.eqb_spec c 34); [contradiction|].
    destruct (N.eqb_spec c 60); [contradiction|].
    destruct (N.eqb_spec c 62); [contradiction|].
    repeat split; try reflexivity.
    + intros [E|E]; [now apply H62|contradiction].
    + constructor; [|exact I5].
      split; intros ->; discriminate.
Qed.

(** X10.  Text made of units that are none of [&], [<], [>], the double
    quote and the control characters of the reporter's class comes out of
    [escape] as it went in, in an attribute value and in character data,
    with and without the removal of ANSI sequences. *)
Theorem escape_plain_text (text : jsstring) (strip isCharacterData : bool) :
  Forall plainUnit text ->
  escape text strip isCharacterData = text.
Proof.
  intros H. destruct (plain_units text H) as [H1 [H2 [H3 [H4 H5]]]].
  assert (Hs : stripAnsi strip text = text).
  { destruct strip; [now apply stripAnsi_plain|reflexivity]. }
  destruct isCharacterData.
  - rewrite escape_character_data, Hs, H2, closeCdata_no_gt by assumption.
    exact H3.
  - now rewrite escape_attribute, Hs.
Qed.

Lemma escape_plain_text_witness :
  Forall plainUnit (u "Hello world")
  /\ escape (u "Hello world") true true = u "Hello world".
Proof.
  assert (H : Forall plainUnit (u "Hello world")).
  { repeat constructor; discriminate. }
  split; [exact H|].
  exact (escape_plain_text (u "Hello world") true true H).
Defined.

(** *** Durations and totals *)

Lemma fold_add_shift {A} (f : A -> Z) (l : list A) : forall a,
  fold_left (fun acc x => (acc + f x)%Z) l a
  = (a + fold_left (fun acc x => (acc + f x)%Z) l 0)%Z.
Proof.
  induction l as [|x l IH]; intros a; cbn [fold_left]; [lia|].
  rewrite IH, (IH (0 + f x)%Z). lia.
Qed.

Lemma visit_all_duration cfg (tests : list Test) : forall acc,
  l_duration (fold_left (visit relative basename formatFailure stripAscii
                           String_number cfg) tests acc)
  = (l_duration acc + sumZ (map totalDuration tests))%Z.
Proof.
  induction tests as [|t tests IH]; intros acc.
  - cbn. lia.
  - cbn [fold_left]. rewrite IH. cbn [visit l_duration map].
    unfold sumZ. cbn [fold_right]. unfold totalDuration at 2.
    rewrite (fold_add_shift duration (results t) (l_duration acc)). lia.
Qed.

Lemma testcase_times cfg (tests : list Test) :
  map (msAttr "time")
      (filter (named "testcase")
         (flat_map (fun t => _addTestCase relative basename formatFailure
                               stripAscii String_number cfg t []) tests))
  = map totalDuration tests.
Proof.
  induction tests as [|t tests IH]; [reflexivity|].
  cbn [flat_map]. rewrite filter_app, map_app, IH, testcases_of_test.
  reflexivity.
Qed.

(** X11.  The [time] of a test suite is the sum of the [time] of its test
    cases: both are sums of the durations of the results, counted in
    milliseconds and divided by 1000 when written. *)
Theorem testsuite_time_is_sum_of_testcases r cfg s :
  let e := snd (_buildTestSuite relative basename formatFailure stripAscii
                  String_number r cfg s) in
  attrOf "time" e = Some (ANum (Div1000 (msAttr "time" e)))
  /\ msAttr "time" e
     = sumZ (map (msAttr "time") (filter (named "testcase") (childrenOf e)))
  /\ map (msAttr "time") (filter (named "testcase") (childrenOf e))
     = map totalDuration (findTest s).
Proof.
  cbv zeta.
  destruct (buildTestSuite_result relative basename formatFailure stripAscii
              String_number r cfg s) as [_ [_ [_ [_ [_ [_ [_ Hk]]]]]]].
  cbv zeta in Hk. rewrite Hk, testcase_times.
  unfold _buildTestSuite. cbn [snd]. unfold msAttr, attrOf.
  cbn [attributes].
  match goal with
  | |- context [getAttr (u "time") ?l] =>
      replace (getAttr (u "time") l)
        with (Some (ANum (Div1000 (l_duration
                 (fold_left (visit relative basename formatFailure stripAscii
                               String_number cfg) (findTest s)
                    {| l_tests := 0; l_skipped := 0; l_failures := 0;
                       l_duration := 0; l_children := [] |})))))
        by reflexivity
  end.
  rewrite visit_all_duration. cbn [l_duration].
  repeat split; reflexivity.
Qed.

(** X12.  The reporter never resets its totals: [onEnd] adds the counts
    of the suites to what the reporter already holds.  A second [onEnd]
    on the same reporter builds the same test suites again and writes a
    root whose [tests], [failures] and [skipped] are twice those of the
    first report. *)
Theorem junit_onEnd_twice_doubles opts cfg top now mono m1 m2 env :
  exists r1 out1 r2 out2,
    onEnd relative basename formatFailure stripAscii String_number
      (onBegin (constructor opts) cfg top now mono) m1 env = Some (r1, out1)
    /\ onEnd relative basename formatFailure stripAscii String_number
         r1 m2 env = Some (r2, out2)
    /\ childrenOf (root out2) = childrenOf (root out1)
    /\ intAttr "tests" (root out2) = (2 * intAttr "tests" (root out1))%Z
    /\ intAttr "failures" (root out2)
       = (2 * intAttr "failures" (root out1))%Z
    /\ intAttr "skipped" (root out2)
       = (2 * intAttr "skipped" (root out1))%Z.
Proof.
  set (r0 := onBegin (constructor opts) cfg top now mono).
  unfold onEnd at 1. change (suite r0) with (Some top).
  change (config r0) with (Some cfg). cbv beta iota.
  destruct (build_all relative basename formatFailure stripAscii
              String_number cfg (suites top) r0 [])
    as [B1 [B2 [B3 [B4 [B5 _]]]]].
  destruct (build_all_keeps cfg (suites top) r0 []) as [K1 [K2 _]].
  destruct (fold_left (pushTestSuite relative basename formatFailure
                         stripAscii String_number cfg) (suites top) (r0, []))
    as [r1 kids1] eqn:E1.
  cbn [fst snd app] in B1, B2, B3, B4, B5, K1, K2.
  eexists. eexists.
  unfold onEnd. rewrite K1, K2. change (suite r0) with (Some top).
  change (config r0) with (Some cfg). cbv beta iota.
  destruct (build_all relative basename formatFailure stripAscii
              String_number cfg (suites top) r1 [])
    as [C1 [C2 [C3 [C4 _]]]].
  destruct (fold_left (pushTestSuite relative basename formatFailure
                         stripAscii String_number cfg) (suites top) (r1, []))
    as [r2 kids2] eqn:E2.
  cbn [fst snd app] in C1, C2, C3, C4.
  eexists. eexists. split; [reflexivity|]. split; [reflexivity|].
  cbn [root].
  change (childrenOf (Entry _ _ (Some kids2) _)) with kids2.
  change (childrenOf (Entry _ _ (Some kids1) _)) with kids1.
  assert (Hsame :
    map (fun s => snd (_buildTestSuite relative basename formatFailure
                         stripAscii String_number r1 cfg s)) (suites top)
    = map (fun s => snd (_buildTestSuite relative basename formatFailure
                           stripAscii String_number r0 cfg s)) (suites top)).
  { apply map_ext. intros s. now apply buildTestSuite_entry_timestamp. }
  rewrite Hsame in C1, C2, C3, C4. rewrite <- B1 in C1, C2, C3, C4.
  rewrite <- B1 in B2, B3, B4.
  change (totalTests r0) with 0%Z in B2.
  change (totalFailures r0) with 0%Z in B3.
  change (totalSkipped r0) with 0%Z in B4.
  split; [exact C1|].
  unfold intAttr, attrOf. cbn [attributes].
  replace (getAttr (u "tests") _) with (Some (ANum (Int (totalTests r2))))
    by reflexivity.
  replace (getAttr (u "tests") _) with (Some (ANum (Int (totalTests r1))))
    by reflexivity.
  replace (getAttr (u "failures") _)
    with (Some (ANum (Int (totalFailures r2)))) by reflexivity.
  replace (getAttr (u "failures") _)
    with (Some (ANum (Int (totalFailures r1)))) by reflexivity.
  replace (getAttr (u "skipped") _)
    with (Some (ANum (Int (totalSkipped r2)))) by reflexivity.
  replace (getAttr (u "skipped") _)
    with (Some (ANum (Int (totalSkipped r1)))) by reflexivity.
  repeat split; lia.
Qed.

(** X13.  Where the report goes: to the file of the constructor's
    [outputFile] option when that is a non-empty string, otherwise to the
    file named by FOLIO_JUNIT_OUTPUT_NAME when that is set and not empty,
    otherwise to the console. *)
Theorem junit_report_destination opts cfg top now mono mono' env :
  exists r' out,
    onEnd relative basename formatFailure stripAscii String_number
      (onBegin (constructor opts) cfg top now mono) mono' env
    = Some (r', out)
    /\ destination out
       = match opt_outputFile opts with
         | Some (c :: f) => Some (c :: f)
         | _ => match env (u "FOLIO_JUNIT_OUTPUT_NAME") with
                | VStr (c :: f) => Some (c :: f)
                | _ => None
                end
         end.
Proof.
  set (r0 := onBegin (constructor opts) cfg top now mono).
  unfold onEnd. change (suite r0) with (Some top).
  change (config r0) with (Some cfg). cbv beta iota.
  destruct (build_all relative basename formatFailure stripAscii
              String_number cfg (suites top) r0 [])
    as [_ [_ [_ [_ [_ [B6 _]]]]]].
  destruct (fold_left (pushTestSuite relative basename formatFailure
                         stripAscii String_number cfg) (suites top) (r0, []))
    as [r' kids].
  cbn [fst] in B6. eexists. eexists. split; [reflexivity|].
  cbn [destination]. rewrite B6.
  change (outputFile r0) with (opt_outputFile opts).
  unfold or_else, of_option.
  destruct (opt_outputFile opts) as [[|c f]|]; cbn [truthy];
    destruct (env (u "FOLIO_JUNIT_OUTPUT_NAME")) as [| |z|[|c' f']];
    reflexivity.
Qed.

End ShapeProperties.

(* ===================================================================== *)
(** ** The JUnit reporter: the text of the report, read back *)
(* ===================================================================== *)

Section ReportTextProperties.
Import JUnit JUnitShape JUnitRead.

Variable relative : jsstring -> jsstring -> jsstring.
Variable basename : jsstring -> jsstring.
Variable formatFailure : FullConfig -> Test -> jsstring.
Variable stripAscii : jsstring -> jsstring.
Variable String_number : jsnumber -> jsstring.

(** *** The reader on the pieces of a token *)

(** A line feed at the end of a text changes nothing. *)
Lemma elementsFrom_line_feed (s : jsstring) : forall st,
  elementsFrom st (s ++ [10%N]) = elementsFrom st s.
Proof.
  induction s as [|c s IH]; intros st.
  - destruct st; reflexivity.
  - destruct st; cbn [app elementsFrom];
      repeat match goal with
             | |- context [if ?b then _ else _] => destruct b
             end;
      rewrite ?IH; reflexivity.
Qed.

Lemma read_text (t rest : jsstring) :
  ~ In 60%N t ->
  elementsFrom Outside (t ++ rest) = elementsFrom Outside rest.
Proof.
  induction t as [|c t IH]; intros Ht; [reflexivity|].
  cbn [app elementsFrom].
  destruct (N.eqb_spec c 60) as [->|_]; [exfalso; apply Ht; now left|].
  apply IH. intros H. apply Ht. now right.
Qed.

Lemma cleanName_unit (c : N) (n : jsstring) :
  cleanName (c :: n) = true ->
  N.eqb c 62 = false /\ N.eqb c 32 = false /\ N.eqb c 47 = false
  /\ cleanName n = true.
Proof.
  unfold cleanName. cbn [forallb]. intros H.
  apply andb_true_iff in H. destruct H as [H Hn].
  apply andb_true_iff in H. destruct H as [H H47].
  apply andb_true_iff in H. destruct H as [H62 H32].
  repeat split; try assumption;
    [destruct (N.eqb c 62)|destruct (N.eqb c 32)|destruct (N.eqb c 47)];
    (reflexivity || discriminate).
Qed.

Lemma read_name (n : jsstring) : forall acc rest,
  cleanName n = true ->
  elementsFrom (InName acc) (n ++ rest)
  = elementsFrom (InName (rev n ++ acc)) rest.
Proof.
  induction n as [|c n IH]; intros acc rest Hn; [reflexivity|].
  destruct (cleanName_unit c n Hn) as [H62 [H32 [H47 Hn']]].
  cbn [app elementsFrom]. rewrite H62, H32, H47. cbn [andb].
  rewrite IH by assumption. cbn [rev]. now rewrite <- app_assoc.
Qed.

Lemma read_closing (n : jsstring) : forall rest,
  cleanName n = true ->
  elementsFrom Closing (n ++ 62%N :: rest) = elementsFrom Outside rest.
Proof.
  induction n as [|c n IH]; intros rest Hn; [reflexivity|].
  destruct (cleanName_unit c n Hn) as [H62 [_ [_ Hn']]].
  cbn [app elementsFrom]. rewrite H62. now apply IH.
Qed.

(** A closing tag holds no element. *)
Lemma read_close (n rest : jsstring) :
  cleanName n = true ->
  elementsFrom Outside (u "</" ++ n ++ u ">" ++ rest)
  = elementsFrom Outside rest.
Proof.
  intros Hn.
  change (u "</" ++ n ++ u ">" ++ rest)
    with (60%N :: 47%N :: (n ++ 62%N :: rest)).
  cbn [elementsFrom N.eqb Pos.eqb nonempty negb andb].
  now apply read_closing.
Qed.

Lemma cleanKey_unit (c : N) (k : jsstring) :
  forallb (fun c => negb (N.eqb c 62) && negb (N.eqb c 32)
                    && negb (N.eqb c 61)) (c :: k) = true ->
  N.eqb c 62 = false /\ N.eqb c 32 = false /\ N.eqb c 61 = false
  /\ forallb (fun c => negb (N.eqb c 62) && negb (N.eqb c 32)
                       && negb (N.eqb c 61)) k = true.
Proof.
  cbn [forallb]. intros H.
  apply andb_true_iff in H. destruct H as [H Hn].
  apply andb_true_iff in H. destruct H as [H H61].
  apply andb_true_iff in H. destruct H as [H62 H32].
  repeat split; try assumption;
    [destruct (N.eqb c 62)|destruct (N.eqb c 32)|destruct (N.eqb c 61)];
    (reflexivity || discriminate).
Qed.

Lemma read_key (n : jsstring) (attrs : list (jsstring * jsstring))
  (k : jsstring) : forall acc rest,
  forallb (fun c => negb (N.eqb c 62) && negb (N.eqb c 32)
                    && negb (N.eqb c 61)) k = true ->
  elementsFrom (InKey n attrs acc) (k ++ 61%N :: 34%N :: rest)
  = elementsFrom (InValue n attrs (rev acc ++ k) []) rest.
Proof.
  induction k as [|c k IH]; intros acc rest Hk.
  - cbn [app elementsFrom N.eqb]. cbn. now rewrite app_nil_r.
  - destruct (cleanKey_unit c k Hk) as [_ [_ [H61 Hk']]].
    cbn [app elementsFrom]. rewrite H61, IH by assumption.
    cbn [rev]. now rewrite <- app_assoc.
Qed.

Lemma read_value (n : jsstring) (attrs : list (jsstring * jsstring))
  (k v : jsstring) : forall acc rest,
  ~ In 34%N v ->
  elementsFrom (InValue n attrs k acc) (v ++ 34%N :: rest)
  = elementsFrom (InTag n (attrs ++ [(k, rev acc ++ v)])) rest.
Proof.
  induction v as [|c v IH]; intros acc rest Hv.
  - cbn [app elementsFrom N.eqb]. cbn. now rewrite app_nil_r.
  - cbn [app elementsFrom].
    destruct (N.eqb_spec c 34) as [->|_]; [exfalso; apply Hv; now left|].
    rewrite IH by (intros H; apply Hv; now right).
    cbn [rev]. now rewrite <- app_assoc.
Qed.

(** One attribute: its name, [=], and its value between quotes. *)
Lemma read_attribute (n : jsstring) (attrs : list (jsstring * jsstring))
  (k v rest : jsstring) :
  cleanKey k = true -> ~ In 34%N v ->
  elementsFrom (InTag n attrs) ((k ++ [61; 34]%N ++ v ++ [34%N]) ++ rest)
  = elementsFrom (InTag n (attrs ++ [(k, v)])) rest.
Proof.
  intros Hk Hv. unfold cleanKey in Hk.
  destruct k as [|c k]; [discriminate|]. cbn [nonempty andb] in Hk.
  destruct (cleanKey_unit c k Hk) as [H62 [H32 [H61 Hk']]].
  rewrite <- !app_assoc. cbn [app elementsFrom]. rewrite H62, H32.
  rewrite (read_key n attrs k [c] _ Hk'). cbn [rev app].
  now rewrite (read_value n attrs (c :: k) v [] rest Hv).
Qed.

(** The attributes of a tag, joined by spaces, up to its [>]. *)
Lemma read_attributes (n : jsstring) (kvs : list (jsstring * jsstring)) :
  forall attrs rest,
    Forall (fun kv => cleanKey (fst kv) = true /\ ~ In 34%N (snd kv)) kvs ->
    elementsFrom (InTag n attrs)
      (join (u " ")
            (map (fun kv => fst kv ++ [61; 34]%N ++ snd kv ++ [34%N]) kvs)
       ++ 62%N :: rest)
    = (n, attrs ++ kvs) :: elementsFrom Outside rest.
Proof.
  induction kvs as [|[k v] kvs IH]; intros attrs rest Hall.
  - cbn. now rewrite app_nil_r.
  - inversion Hall as [|kv l [Hk Hv] Hl]; subst. cbn [fst snd] in Hk, Hv.
    destruct kvs as [|kv2 kvs].
    + cbn [map join fst snd].
      rewrite (read_attribute n attrs k v _ Hk Hv).
      cbn [elementsFrom N.eqb]. cbn. reflexivity.
    + change (join (u " ")
                (map (fun kv => fst kv ++ [61; 34]%N ++ snd kv ++ [34%N])
                     ((k, v) :: kv2 :: kvs)))
        with ((k ++ [61; 34]%N ++ v ++ [34%N])
              ++ 32%N
                 :: join (u " ")
                      (map (fun kv => fst kv ++ [61; 34]%N ++ snd kv
                                      ++ [34%N]) (kv2 :: kvs))).
      rewrite <- app_assoc.
      rewrite (read_attribute n attrs k v _ Hk Hv).
      cbn [app elementsFrom N.eqb]. cbn [Pos.eqb].
      etransitivity; [exact (IH (attrs ++ [(k, v)]) rest Hl)|].
      now rewrite <- app_assoc.
Qed.

(** An opening tag as [serializeXML] writes it holds one element. *)
Lemma read_open (n : jsstring) (kvs : list (jsstring * jsstring))
  (rest : jsstring) :
  cleanName n = true ->
  Forall (fun kv => cleanKey (fst kv) = true /\ ~ In 34%N (snd kv)) kvs ->
  elementsFrom Outside
    (u "<" ++ n
     ++ (match map (fun kv => fst kv ++ [61; 34]%N ++ snd kv ++ [34%N]) kvs
         with [] => [] | _ => u " " end)
     ++ join (u " ")
          (map (fun kv => fst kv ++ [61; 34]%N ++ snd kv ++ [34%N]) kvs)
     ++ u ">" ++ rest)
  = (n, kvs) :: elementsFrom Outside rest.
Proof.
  intros Hn Hall.
  change (u "<" ++ n ++ ?x) with (60%N :: (n ++ x)).
  cbn [elementsFrom N.eqb Pos.eqb].
  rewrite (read_name n [] _ Hn). rewrite app_nil_r.
  destruct kvs as [|kv kvs].
  - cbn [map join app]. change (u ">" ++ rest) with (62%N :: rest).
    cbn [elementsFrom N.eqb Pos.eqb].
    now rewrite rev_involutive.
  - cbn [map]. change (u " " ++ ?x) with (32%N :: x).
    cbn [elementsFrom N.eqb Pos.eqb andb].
    rewrite rev_involutive.
    change (u ">" ++ rest) with (62%N :: rest).
    exact (read_attributes n (kv :: kvs) [] rest Hall).
Qed.

(** *** What [escape] leaves out *)

Lemma escape_attribute_no_quote (s : jsstring) (strip : bool) :
  ~ In 34%N (escape s strip false).
Proof.
  rewrite escape_attribute. intros H. apply in_flat_map in H.
  destruct H as [x [_ Hx]].
  pose proof (attrUnit_safe x) as Hs. rewrite Forall_forall in Hs.
  destruct (Hs _ Hx) as [_ [_ [H34 _]]]. now apply H34.
Qed.

Lemma escape_text_no_tag (s : jsstring) (strip : bool) :
  ~ In 60%N (escape s strip true).
Proof.
  rewrite escape_character_data. intros H. apply filter_In in H.
  destruct H as [H _].
  apply (closeCdata_units _ _ (Nat.le_refl _)) in H. destruct H as [H|H].
  - apply in_flat_map in H. destruct H as [x [_ Hx]].
    now apply (dataUnit_no_lt x 60 Hx).
  - cbn in H. repeat (destruct H as [H|H]; [discriminate|]). exact H.
Qed.

(** *** The reader on the tokens of an entry *)

Lemma clean_parts (n : jsstring) (a : option (list (jsstring * attr)))
  (c : option (list XMLEntry)) (t : option jsstring) :
  clean (Entry n a c t) = true ->
  cleanName n = true
  /\ forallb (fun na : jsstring * attr => cleanKey (fst na))
             (match a with Some a => a | None => [] end) = true
  /\ forallb clean (match c with Some l => l | None => [] end) = true.
Proof.
  cbn [clean]. intros H.
  apply andb_true_iff in H. destruct H as [H Hc].
  apply andb_true_iff in H. destruct H as [Hn Ha].
  repeat split; try assumption. now destruct c.
Qed.

(** Read after one another with a line feed after each, the tokens of a
    clean entry give back its elements, attribute values as written. *)
Lemma read_entry (strip : bool) (e : XMLEntry) :
  clean e = true ->
  forall rest,
    elementsFrom Outside
      (flat_map (fun tok => tok ++ [10%N])
                (serializeXML String_number e [] strip) ++ rest)
    = content (fun v => escape (String_attr String_number v) strip false) e
      ++ elementsFrom Outside rest.
Proof.
  induction e as [n a c t IH] using XMLEntry_induction.
  intros Hclean rest.
  destruct (clean_parts n a c t Hclean) as [Hn [Ha Hc]].
  assert (Hkids : forall l rest0,
            Forall (fun e0 =>
                      clean e0 = true ->
                      forall rest1,
                        elementsFrom Outside
                          (flat_map (fun tok => tok ++ [10%N])
                             (serializeXML String_number e0 [] strip)
                           ++ rest1)
                        = content (fun v => escape (String_attr String_number
                                                      v) strip false) e0
                          ++ elementsFrom Outside rest1) l ->
            forallb clean l = true ->
            elementsFrom Outside
              (flat_map (fun tok => tok ++ [10%N])
                 (flat_map (fun child =>
                              serializeXML String_number child [] strip) l)
               ++ rest0)
            = flat_map (content (fun v => escape (String_attr String_number v)
                                            strip false)) l
              ++ elementsFrom Outside rest0).
  { intros l rest0 Hall. induction Hall as [|k l Hk Hl IHl]; intros Hcl.
    - reflexivity.
    - cbn [forallb] in Hcl. apply andb_true_iff in Hcl.
      destruct Hcl as [Hck Hcl].
      cbn [flat_map]. rewrite flat_map_app, <- !app_assoc.
      rewrite (Hk Hck). f_equal. exact (IHl Hcl). }
  assert (Htoks :
    serializeXML String_number (Entry n a c t) [] strip
    = [u "<" ++ n
       ++ (match map (fun kv : jsstring * jsstring =>
                        fst kv ++ [61; 34]%N ++ snd kv ++ [34%N])
                     (map (fun na : jsstring * attr =>
                             (fst na,
                              escape (String_attr String_number (snd na))
                                     strip false))
                          (match a with Some a => a | None => [] end))
           with [] => [] | _ => u " " end)
       ++ join (u " ")
            (map (fun kv : jsstring * jsstring =>
                    fst kv ++ [61; 34]%N ++ snd kv ++ [34%N])
                 (map (fun na : jsstring * attr =>
                         (fst na,
                          escape (String_attr String_number (snd na))
                                 strip false))
                      (match a with Some a => a | None => [] end)))
       ++ u ">"]
      ++ flat_map (fun child => serializeXML String_number child [] strip)
                  (match c with Some l => l | None => [] end)
      ++ (match t with
          | Some s => if nonempty s then [escape s strip true] else []
          | None => []
          end)
      ++ [u "</" ++ n ++ u ">"]).
  { cbn [serializeXML]. rewrite !map_map. cbn [fst snd].
    destruct c as [l|].
    - rewrite (serialize_children String_number strip l
                 (serializeXML_push_all String_number strip l)).
      destruct t as [s|]; [destruct (nonempty s)|];
        cbn [app]; rewrite <- ?app_assoc; reflexivity.
    - destruct t as [s|]; [destruct (nonempty s)|]; reflexivity. }
  rewrite Htoks. clear Htoks.
  rewrite !flat_map_app. cbn [flat_map]. rewrite !app_nil_r.
  rewrite <- !app_assoc.
  rewrite read_open.
  2: exact Hn.
  2:{ apply Forall_forall. intros kv Hkv. apply in_map_iff in Hkv.
      destruct Hkv as [na [<- Hna]]. cbn [fst snd]. split.
      - rewrite forallb_forall in Ha. now apply Ha.
      - apply escape_attribute_no_quote. }
  cbn [content]. change ((?x :: ?l) ++ ?r) with (x :: (l ++ r)). f_equal.
  change ([10%N] ++ ?x) with (10%N :: x).
  cbn [elementsFrom N.eqb Pos.eqb].
  assert (Hrest :
    elementsFrom Outside
      (flat_map (fun tok => tok ++ [10%N])
         (match t with
          | Some s => if nonempty s then [escape s strip true] else []
          | None => []
          end)
       ++ u "</" ++ n ++ u ">" ++ 10%N :: rest)
    = elementsFrom Outside rest).
  { assert (Hclose : elementsFrom Outside
                       (u "</" ++ n ++ u ">" ++ 10%N :: rest)
                     = elementsFrom Outside rest).
    { rewrite read_close by assumption. reflexivity. }
    destruct t as [s|]; [destruct (nonempty s)|]; cbn [flat_map];
      try exact Hclose.
    rewrite app_nil_r, <- app_assoc, read_text by apply escape_text_no_tag.
    exact Hclose. }
  destruct c as [l|].
  - etransitivity; [exact (Hkids l _ IH Hc)|]. f_equal. exact Hrest.
  - exact Hrest.
Qed.

Lemma lines_join (toks : list jsstring) :
  toks <> [] ->
  flat_map (fun tok => tok ++ [10%N]) toks = join [10%N] toks ++ [10%N].
Proof.
  induction toks as [|x toks IH]; [contradiction|]. intros _.
  destruct toks as [|y toks]; [cbn; now rewrite app_nil_r|].
  change (join [10%N] (x :: y :: toks))
    with (x ++ [10%N] ++ join [10%N] (y :: toks)).
  cbn [flat_map] in *. rewrite IH by discriminate.
  now rewrite <- !app_assoc.
Qed.

(** The text that [onEnd] writes for a clean tree, read back. *)
Lemma read_report (strip : bool) (e : XMLEntry) :
  clean e = true ->
  elements (join [10%N] (serializeXML String_number e [] strip))
  = content (fun v => escape (String_attr String_number v) strip false) e.
Proof.
  intros Hc. unfold elements.
  rewrite <- elementsFrom_line_feed, <- lines_join.
  - rewrite <- (app_nil_r (flat_map _ _)).
    rewrite (read_entry strip e Hc []). now rewrite app_nil_r.
  - destruct e as [n a c t].
    destruct (serializeXML_brackets String_number strip n a c t)
      as [middle ->]. discriminate.
Qed.

(** *** The tree of [onEnd] is clean, and its elements *)

Lemma clean_outputs (t : Test) :
  forallb clean (outputsOf t) = true.
Proof.
  unfold outputsOf.
  induction (results t) as [|r rs IH]; [reflexivity|].
  cbn [flat_map]. rewrite !forallb_app, IH, andb_true_r.
  apply andb_true_iff. split.
  - induction (stdout r) as [|x l IHl]; [reflexivity|exact IHl].
  - induction (stderr r) as [|x l IHl]; [reflexivity|exact IHl].
Qed.

Lemma clean_test cfg (t : Test) :
  forallb clean (_addTestCase relative basename formatFailure stripAscii
                   String_number cfg t []) = true.
Proof.
  rewrite addTestCase_appends. cbn [app forallb].
  apply andb_true_iff. split.
  - destruct (skipped t); [reflexivity|]. now destruct (ok t).
  - destruct (skipped t); [reflexivity|]. apply clean_outputs.
Qed.

Lemma clean_tests cfg (tests : list Test) :
  forallb clean
    (flat_map (fun t => _addTestCase relative basename formatFailure
                          stripAscii String_number cfg t []) tests) = true.
Proof.
  induction tests as [|t tests IH]; [reflexivity|].
  cbn [flat_map]. now rewrite forallb_app, clean_test, IH.
Qed.

Lemma clean_suite r cfg s :
  clean (snd (_buildTestSuite relative basename formatFailure stripAscii
                String_number r cfg s)) = true.
Proof.
  destruct (buildTestSuite_result relative basename formatFailure stripAscii
              String_number r cfg s) as [_ [_ [_ [_ [_ [_ [_ Hk]]]]]]].
  cbv zeta in Hk. unfold _buildTestSuite in *. cbn [snd] in *.
  unfold childrenOf in Hk. cbn [children] in Hk.
  cbn [clean]. rewrite Hk. rewrite clean_tests. reflexivity.
Qed.

Lemma names_of_outputs (render : attr -> jsstring) (t : Test) :
  map fst (flat_map (content render) (outputsOf t))
  = flat_map (fun r => map (fun _ => u "system-out") (stdout r)
                       ++ map (fun _ => u "system-err") (stderr r))
             (results t).
Proof.
  unfold outputsOf.
  induction (results t) as [|r rs IH]; [reflexivity|].
  cbn [flat_map]. rewrite !flat_map_app, !map_app.
  f_equal; [f_equal|exact IH].
  - induction (stdout r) as [|x l IHl]; [reflexivity|].
    cbn [map flat_map]. unfold systemOut at 1.
    cbn [content map app fst]. f_equal. exact IHl.
  - induction (stderr r) as [|x l IHl]; [reflexivity|].
    cbn [map flat_map]. unfold systemErr at 1.
    cbn [content map app fst]. f_equal. exact IHl.
Qed.

(** The elements of one test. *)
Lemma names_of_test (render : attr -> jsstring) cfg (t : Test) :
  map fst (flat_map (content render)
             (_addTestCase relative basename formatFailure stripAscii
                String_number cfg t []))
  = elementNamesOf t.
Proof.
  rewrite addTestCase_appends. cbn [app flat_map]. unfold elementNamesOf.
  destruct (skipped t); [reflexivity|].
  cbn [testcaseEntry content]. cbn [map fst app]. f_equal.
  rewrite map_app. f_equal; [|apply names_of_outputs].
  now destruct (ok t).
Qed.

Lemma names_of_tests (render : attr -> jsstring) cfg (tests : list Test) :
  map fst (flat_map (content render)
             (flat_map (fun t => _addTestCase relative basename formatFailure
                                   stripAscii String_number cfg t []) tests))
  = flat_map elementNamesOf tests.
Proof.
  induction tests as [|t tests IH]; [reflexivity|].
  cbn [flat_map]. rewrite flat_map_app, map_app.
  f_equal; [apply names_of_test|exact IH].
Qed.

Lemma test_names_are_not_testsuite (t : Test) :
  Forall (fun n => str_eqb n (u "testsuite") = false) (elementNamesOf t).
Proof.
  unfold elementNamesOf. constructor; [reflexivity|].
  destruct (skipped t); [repeat constructor|].
  apply Forall_app. split; [destruct (ok t); repeat constructor|].
  induction (results t) as [|r rs IH]; [constructor|].
  cbn [flat_map]. apply Forall_app. split; [|exact IH].
  apply Forall_app. split.
  - induction (stdout r); constructor; [reflexivity|assumption].
  - induction (stderr r); constructor; [reflexivity|assumption].
Qed.

Lemma filter_by_name_nil (key : string) (l : list element) :
  Forall (fun n => str_eqb n (u key) = false) (map fst l) ->
  filter (isElement key) l = [].
Proof.
  induction l as [|e l IH]; intros H; [reflexivity|].
  inversion H as [|x y Hx Hy]; subst. cbn [filter]. unfold isElement at 1.
  rewrite Hx. now apply IH.
Qed.

(** The elements of the test suite of a file: its own, with the counts of
    its tests, then those of its tests. *)
Lemma content_of_suite (render : attr -> jsstring) r cfg s :
  exists timev,
    content render (snd (_buildTestSuite relative basename formatFailure
                           stripAscii String_number r cfg s))
    = (u "testsuite",
       [ (u "name", render (AStr (relative (testDir cfg) (suiteFile s))));
         (u "timestamp", render (ANum (Int (timestamp r))));
         (u "hostname", render (AStr []));
         (u "tests", render (ANum (Int (Z.of_nat (length (findTest s))))));
         (u "failures",
          render (ANum (Int (count (fun t => negb (ok t)) (findTest s)))));
         (u "skipped", render (ANum (Int (count skipped (findTest s)))));
         (u "time", timev);
         (u "errors", render (ANum (Int 0))) ])
      :: flat_map (content render)
           (flat_map (fun t => _addTestCase relative basename formatFailure
                                 stripAscii String_number cfg t [])
                     (findTest s)).
Proof.
  unfold _buildTestSuite. cbn [snd content map fst snd].
  destruct (visit_all relative basename formatFailure stripAscii
              String_number cfg (findTest s)
              {| l_tests := 0; l_skipped := 0; l_failures := 0;
                 l_duration := 0; l_children := [] |})
    as [H1 [H2 [H3 H4]]].
  cbv zeta in H1, H2, H3, H4.
  cbn [l_tests l_skipped l_failures l_children app] in H1, H2, H3, H4.
  rewrite H1, H2, H3, H4. cbn [Z.add]. eexists. reflexivity.
Qed.

(** C5.  After [onEnd] on a reporter that was constructed and begun, the
    report, as a tree and as the text written, holds a [testsuites] root
    whose children are one [testsuite] per suite of a file, in order and
    named after the file relative to the test directory; each has one
    [testcase] per test of the file; the root's [tests], [failures] and
    [skipped] are the sums of those of its children, and its [errors] is
    0.  The text is read back by [elements]: its opening tags, with their
    attributes, are those of the tree; their names in order are
    [testsuites], then for each file [testsuite] and the elements of its
    tests; the [testsuite] tags carry the counts of their files, and the
    first tag carries the sums. *)
Theorem junit_report_totals opts cfg top now mono mono' env :
  let strip := stripANSIControlSequences (constructor opts) in
  let text := fun s : jsstring => escape s strip false in
  let num := fun z : Z => escape (String_number (Int z)) strip false in
  let tests := fun s => Z.of_nat (length (findTest s)) in
  let failures := fun s => count (fun t => negb (ok t)) (findTest s) in
  let skips := fun s => count skipped (findTest s) in
  exists r' out,
    onEnd relative basename formatFailure stripAscii String_number
      (onBegin (constructor opts) cfg top now mono) mono' env
    = Some (r', out)
    /\ named "testsuites" (root out) = true
    /\ map (fun e => (name e, attrOf "name" e)) (childrenOf (root out))
       = map (fun s => (u "testsuite",
                        Some (AStr (relative (testDir cfg) (suiteFile s)))))
             (suites top)
    /\ map (fun e => map (attrOf "name")
                         (filter (named "testcase") (childrenOf e)))
           (childrenOf (root out))
       = map (fun s => map (fun t => Some (AStr (fullTitle (spec t))))
                           (findTest s))
             (suites top)
    /\ map (intAttr "tests") (childrenOf (root out))
       = map (fun s => Z.of_nat (length (findTest s))) (suites top)
    /\ intAttr "tests" (root out)
       = sumZ (map (intAttr "tests") (childrenOf (root out)))
    /\ intAttr "failures" (root out)
       = sumZ (map (intAttr "failures") (childrenOf (root out)))
    /\ intAttr "skipped" (root out)
       = sumZ (map (intAttr "skipped") (childrenOf (root out)))
    /\ attrOf "errors" (root out) = Some (ANum (Int 0))
    /\ elements (reportString out)
       = content (fun v => escape (String_attr String_number v) strip false)
                 (root out)
    /\ map fst (elements (reportString out))
       = u "testsuites"
         :: flat_map (fun s => u "testsuite"
                               :: flat_map elementNamesOf (findTest s))
                     (suites top)
    /\ map (fun e => (attribute "name" e, attribute "tests" e,
                      attribute "failures" e, attribute "skipped" e))
           (filter (isElement "testsuite") (elements (reportString out)))
       = map (fun s => (Some (text (relative (testDir cfg) (suiteFile s))),
                        Some (num (tests s)), Some (num (failures s)),
                        Some (num (skips s))))
             (suites top)
    /\ exists first others,
         elements (reportString out) = first :: others
         /\ isElement "testsuites" first = true
         /\ attribute "tests" first
            = Some (num (sumZ (map tests (suites top))))
         /\ attribute "failures" first
            = Some (num (sumZ (map failures (suites top))))
         /\ attribute "skipped" first
            = Some (num (sumZ (map skips (suites top))))
         /\ attribute "errors" first = Some (num 0%Z).
Proof.
  cbv zeta.
  destruct (junit_report_tree relative basename formatFailure stripAscii
              String_number opts cfg top now mono mono' env)
    as [r' [out [E [T1 [T2 [T3 [T4 [T5 [T6 [T7 [T8 [T9 T10]]]]]]]]]]]].
  destruct T10 as [idv [namev [timev Hroot]]].
  exists r', out.
  do 9 (split; [assumption|]).
  set (strip := stripANSIControlSequences (constructor opts)) in *.
  set (render := fun v => escape (String_attr String_number v) strip false).
  set (r0 := onBegin (constructor opts) cfg top now mono) in *.
  (* the totals *)
  assert (Htot : totalTests r'
                 = sumZ (map (fun s => Z.of_nat (length (findTest s)))
                             (suites top))
                 /\ totalFailures r'
                    = sumZ (map (fun s => count (fun t => negb (ok t))
                                            (findTest s)) (suites top))
                 /\ totalSkipped r'
                    = sumZ (map (fun s => count skipped (findTest s))
                                (suites top))).
  { rewrite Hroot in T5, T6, T7.
    change (childrenOf (Entry _ _ (Some ?k) _)) with k in T5, T6, T7.
    unfold intAttr at 1, attrOf in T5. cbn [attributes] in T5.
    replace (getAttr (u "tests") _) with (Some (ANum (Int (totalTests r'))))
      in T5 by reflexivity.
    unfold intAttr at 1, attrOf in T6. cbn [attributes] in T6.
    replace (getAttr (u "failures") _)
      with (Some (ANum (Int (totalFailures r')))) in T6 by reflexivity.
    unfold intAttr at 1, attrOf in T7. cbn [attributes] in T7.
    replace (getAttr (u "skipped") _)
      with (Some (ANum (Int (totalSkipped r')))) in T7 by reflexivity.
    rewrite T5, T6, T7, !map_map.
    repeat split; f_equal; apply map_ext; intros s;
      destruct (buildTestSuite_result relative basename formatFailure
                  stripAscii String_number r0 cfg s)
        as [_ [_ [_ [Ht [Hf [Hs _]]]]]]; cbv zeta in Ht, Hf, Hs;
      assumption. }
  destruct Htot as [Ht [Hf Hs]].
  (* the text read back *)
  assert (Hclean : clean (root out) = true).
  { rewrite Hroot. cbn [clean]. cbn [cleanName cleanKey forallb fst andb].
    apply andb_true_iff. split; [reflexivity|].
    generalize (suites top). intros l.
    induction l as [|s l IH]; [reflexivity|].
    cbn [map forallb]. rewrite clean_suite. exact IH. }
  assert (Hread : elements (reportString out) = content render (root out)).
  { rewrite T9. now apply read_report. }
  assert (Hkids : forall l,
            flat_map (content render)
              (map (fun s => snd (_buildTestSuite relative basename
                                    formatFailure stripAscii String_number
                                    r0 cfg s)) l)
            = flat_map (fun s =>
                          content render
                            (snd (_buildTestSuite relative basename
                                    formatFailure stripAscii String_number
                                    r0 cfg s))) l).
  { intros l. induction l as [|s l IH]; [reflexivity|].
    cbn [map flat_map]. now rewrite IH. }
  split; [exact Hread|].
  rewrite Hread, Hroot. cbn [content]. rewrite Hkids.
  split; [|split].
  - cbn [map fst]. f_equal.
    generalize (suites top). intros l.
    induction l as [|s l IH]; [reflexivity|].
    cbn [flat_map]. rewrite map_app. f_equal; [|exact IH].
    destruct (content_of_suite render r0 cfg s) as [tv ->].
    cbn [map fst]. f_equal. apply names_of_tests.
  - cbn [filter]. unfold isElement at 1. cbn [fst].
    replace (str_eqb (u "testsuites") (u "testsuite")) with false
      by reflexivity.
    generalize (suites top). intros l.
    induction l as [|s l IH]; [reflexivity|].
    cbn [flat_map map]. rewrite filter_app, map_app.
    destruct (content_of_suite render r0 cfg s) as [tv ->].
    cbn [filter]. unfold isElement at 1. cbn [fst].
    replace (str_eqb (u "testsuite") (u "testsuite")) with true
      by reflexivity.
    rewrite filter_by_name_nil.
    2:{ rewrite names_of_tests.
        induction (findTest s) as [|t ts IHt]; [constructor|].
        cbn [flat_map]. apply Forall_app. split; [|exact IHt].
        apply test_names_are_not_testsuite. }
    cbn [map app]. apply (f_equal2 cons); [reflexivity|exact IH].
  - eexists. eexists. split; [reflexivity|].
    split; [reflexivity|].
    unfold attribute. cbn [snd map fst].
    rewrite <- Ht, <- Hf, <- Hs. repeat split; reflexivity.
Qed.

End ReportTextProperties.

(** The two files of the reporter's own test again, this time by the text
    written: its tags in order, the names of the test suites and the
    counts on the root.  Integers are written in decimal. *)
Example junit_two_passing_files_text :
  let passing (file title : string) :=
    {| JUnit.spec := {| JUnit.title := u title; JUnit.fullTitle := u title;
                        JUnit.parentFullTitle := [];
                        JUnit.file := u file; JUnit.line := 2;
                        JUnit.column := 7 |};
       JUnit.skipped := false; JUnit.ok := true;
       JUnit.results := [{| JUnit.duration := 3; JUnit.stdout := [];
                            JUnit.stderr := [] |}] |} in
  let top :=
    JUnit.MkSuite []
      [JUnit.MkSuite (u "/w/a.test.js") []
         [[passing "/w/a.test.js"%string "one"%string]];
       JUnit.MkSuite (u "/w/b.test.js") []
         [[passing "/w/b.test.js"%string "two"%string]]]
      [] in
  let r :=
    JUnit.onBegin
      (JUnit.constructor {| JUnit.opt_outputFile := None;
                            JUnit.opt_stripANSIControlSequences := None |})
      {| JUnit.testDir := u "/w" |} top 0 0 in
  let show := fun n => match n with
                       | JUnit.Int z => decimal (Z.to_N z)
                       | JUnit.Div1000 _ => []
                       end in
  match JUnit.onEnd relativeInside basenameOf (fun _ _ => [])
          (fun s => s) show r 5 (fun _ => VUndefined) with
  | Some (_, out) =>
      map fst (JUnitRead.elements (JUnit.reportString out))
      = map u ["testsuites"; "testsuite"; "testcase"; "testsuite";
               "testcase"]%string
      /\ map (JUnitRead.attribute "name")
             (filter (JUnitRead.isElement "testsuite")
                     (JUnitRead.elements (JUnit.reportString out)))
         = [Some (u "a.test.js"); Some (u "b.test.js")]
      /\ map (fun key => JUnitRead.attribute key
                           (hd ([], [])
                               (JUnitRead.elements (JUnit.reportString out))))
             ["tests"; "failures"; "skipped"; "errors"]%string
         = [Some (u "2"); Some (u "0"); Some (u "0"); Some (u "0")]
  | None => False
  end.
Proof. vm_compute. repeat split; reflexivity. Qed.

(* ===================================================================== *)
(** ** The service reporter: paths, URIs and the end of the run *)
(* ===================================================================== *)

Section ServiceEndProperties.
Import Service ServiceEnd.

Variable relative : jsstring -> jsstring -> jsstring.
Variable String_num : Z -> jsstring.
Variable env : jsstring -> jsval.
Variable formatFailure : option Config -> Test -> jsstring.
Variable stripAscii : jsstring -> jsstring.
Variable stringify : list TestSuiteResult -> jsstring.

(** *** The URI of a blob *)

Lemma split_go_passes (base : jsstring) : forall cur rest,
  ~ In 63%N base ->
  split_go (u "?sv") 0 cur (base ++ rest)
  = split_go (u "?sv") 0 (rev base ++ cur) rest.
Proof.
  induction base as [|c base IH]; intros cur rest Hb; [reflexivity|].
  cbn [app split_go].
  change (u "?sv") with [63%N; 115%N; 118%N]. cbn [prefixb].
  destruct (N.eqb_spec 63 c) as [<-|Hc]; [exfalso; apply Hb; now left|].
  cbn [andb]. change [63%N; 115%N; 118%N] with (u "?sv").
  rewrite IH by (intros H; apply Hb; now right).
  cbn [rev]. now rewrite <- app_assoc.
Qed.

Lemma split_no_marker (tok : jsstring) :
  ~ In 63%N tok -> split (u "?sv") tok = [tok].
Proof.
  intros H. unfold split.
  rewrite <- (app_nil_r tok) at 1. rewrite split_go_passes by assumption.
  cbn [split_go]. now rewrite app_nil_r, rev_involutive.
Qed.

Lemma split_go_hit (cur q : jsstring) :
  split_go (u "?sv") 0 cur (u "?sv" ++ q)
  = rev cur :: split_go (u "?sv") 0 [] q.
Proof. reflexivity. Qed.

Lemma split_at_marker (base q : jsstring) :
  ~ In 63%N base -> ~ In 63%N q ->
  split (u "?sv") (base ++ u "?sv" ++ q) = [base; q].
Proof.
  intros Hb Hq. unfold split. rewrite split_go_passes by assumption.
  rewrite split_go_hit, app_nil_r, rev_involutive. f_equal.
  now apply split_no_marker.
Qed.

(** X14.  With a read token of the form base?sv..., in which no other
    question mark occurs, [_getSasUriForBlob] puts the path of the blob
    between the base and the query: base/path?sv... *)
Theorem getSasUriForBlob_inserts_path (r : Reporter)
  (base q filePath : jsstring) :
  readSasToken r = VStr (base ++ u "?sv" ++ q) ->
  ~ In 63%N base -> ~ In 63%N q ->
  _getSasUriForBlob String_num r filePath
  = Ok (base ++ u "/" ++ filePath ++ u "?sv" ++ q).
Proof.
  intros Ht Hb Hq. unfold _getSasUriForBlob. rewrite Ht.
  rewrite split_at_marker by assumption. reflexivity.
Qed.

(** X15.  A read token in which ?sv does not occur is not rejected: the
    second piece of the split is undefined and the URI ends with the text
    ?svundefined. *)
Theorem getSasUriForBlob_without_query (r : Reporter)
  (tok filePath : jsstring) :
  readSasToken r = VStr tok ->
  ~ In 63%N tok ->
  _getSasUriForBlob String_num r filePath
  = Ok (tok ++ u "/" ++ filePath ++ u "?svundefined").
Proof.
  intros Ht Hq. unfold _getSasUriForBlob. rewrite Ht.
  rewrite split_no_marker by assumption. reflexivity.
Qed.

(** *** The path below test-results *)

(** X16.  [_getRelativePath] returns what follows the first
    [test-results/] of the path.  When the path has no such part, it does
    not return the path: [indexOf] answers -1 and the first twelve units
    are dropped. *)
Theorem getRelativePath_cases (file : jsstring) :
  (exists before,
      file = before ++ u "test-results/" ++ _getRelativePath file
      /\ indexOf (u "test-results/") file = Z.of_nat (length before)
      /\ forall a b, file = a ++ u "test-results/" ++ b ->
                     length before <= length a)
  \/ ((forall a b, file <> a ++ u "test-results/" ++ b)
      /\ _getRelativePath file = skipn 12 file).
Proof.
  unfold _getRelativePath, indexOf, substring_from. cbv zeta.
  change (Z.of_nat (length (u "test-results/"))) with 13%Z.
  destruct (indexOf_from_spec (u "test-results/") file 0)
    as [[Hn Hno]|[a [b [Hs [Hi Hmin]]]]].
  - right. split; [exact Hno|]. now rewrite Hn.
  - left. exists a. rewrite Hi. split; [|split; [lia|exact Hmin]].
    replace (Z.to_nat (0 + Z.of_nat (length a) + 13)) with (length a + 13)
      by lia.
    rewrite Hs at 2. rewrite skipn_app, skipn_all2 by lia.
    replace (length a + 13 - length a) with 13 by lia.
    exact Hs.
Qed.

(** *** The folder and the key of a test *)

Lemma replace_first_at (a b by_ : jsstring) (pat : N) :
  ~ In pat a ->
  replace_first pat by_ (a ++ pat :: b) = a ++ by_ ++ b.
Proof.
  induction a as [|x a IH]; intros Ha.
  - cbn [app replace_first]. now rewrite N.eqb_refl.
  - cbn [app replace_first]. destruct (N.eqb_spec x pat) as [->|Hx].
    + exfalso. apply Ha. now left.
    + rewrite IH; [reflexivity|]. intros H. apply Ha. now right.
Qed.

Lemma replace_first_absent (s by_ : jsstring) (pat : N) :
  ~ In pat s -> replace_first pat by_ s = s.
Proof.
  induction s as [|x s IH]; intros Hs; [reflexivity|].
  cbn [replace_first]. destruct (N.eqb_spec x pat) as [->|Hx].
  - exfalso. apply Hs. now left.
  - rewrite IH; [reflexivity|]. intros H. apply Hs. now right.
Qed.

(** X17.  The folder and the key of a test do not tell a space from a
    dash: two tests of one file and one variation whose titles are a b
    and a-b get the same output folder and the same key in the artifact
    map, although their titles differ. *)
Theorem output_dir_collision (cfg : Config) (f : jsstring)
  (v : list (jsstring * jsval)) (a b : jsstring) :
  ~ In 32%N a -> ~ In 32%N b ->
  let t1 := {| spec := {| file := f; fullTitle := a ++ u " " ++ b |};
               variation := v |} in
  let t2 := {| spec := {| file := f; fullTitle := a ++ u "-" ++ b |};
               variation := v |} in
  fullTitle (spec t1) <> fullTitle (spec t2)
  /\ _getTestOutputDir relative String_num cfg t1
     = _getTestOutputDir relative String_num cfg t2
  /\ _getTestKey relative String_num cfg t1
     = _getTestKey relative String_num cfg t2.
Proof.
  intros Ha Hb. cbv zeta.
  assert (H1 : replace_first 32 (u "-") (a ++ u " " ++ b) = a ++ u "-" ++ b).
  { exact (replace_first_at a b (u "-") 32 Ha). }
  assert (H2 : replace_first 32 (u "-") (a ++ u "-" ++ b) = a ++ u "-" ++ b).
  { apply replace_first_absent. intros H. apply in_app_or in H.
    destruct H as [H|[H|H]]; [now apply Ha|discriminate|now apply Hb]. }
  unfold _getTestOutputDir, _getTestKey. cbn [spec fullTitle file variation].
  rewrite H1, H2. split; [|split; reflexivity].
  intros E. apply app_inv_head in E. discriminate.
Qed.

(** X18.  The folder of a test drops the last eight units of the file
    name relative to the test directory, whatever they are: for a name
    that ends in an extension of eight units, such as .spec.ts, what is
    left is the name without it. *)
Theorem output_dir_drops_eight_units (cfg : Config) (t : Service.Test)
  (stem ext : jsstring) :
  relative (testDir cfg) (file (spec t)) = stem ++ ext ->
  length ext = 8 ->
  _getTestOutputDir relative String_num cfg t
  = outputDir cfg ++ u "/" ++ stem ++ u "/"
    ++ replace_first 32 (u "-") (fullTitle (spec t)) ++ u "/"
    ++ tpl String_num (lookup (u "browserName") (variation t)).
Proof.
  intros Hr He. unfold _getTestOutputDir. cbv zeta. rewrite Hr.
  unfold substring0. rewrite length_app, He.
  replace (Z.to_nat (Z.of_nat (length stem + 8) - 8)) with (length stem + 0)
    by lia.
  now rewrite firstn_app_2, app_nil_r.
Qed.

(** *** The files of a folder *)

Lemma Folder_induction (P : Folder -> Prop) :
  (forall entries,
      Forall (fun e => match snd e with Some sub => P sub | None => True end)
             entries ->
      P (Listing entries)) ->
  forall f, P f.
Proof.
  intros H. fix IH 1. intros [entries]. apply H.
  induction entries as [|[name [sub|]] l IHl]; constructor;
    [apply IH|exact IHl|exact I|exact IHl].
Qed.

(** What one entry of a listing contributes. *)
Lemma getAllFiles_listing (dir : jsstring)
  (entries : list (jsstring * option Folder)) :
  getAllFilesFromFolder dir (Listing entries)
  = flat_map (fun e => match snd e with
                       | Some sub =>
                           getAllFilesFromFolder (dir ++ u "/" ++ fst e) sub
                       | None => [dir ++ u "/" ++ fst e]
                       end) entries.
Proof.
  cbn [getAllFilesFromFolder].
  enough (H : forall acc,
    fold_left
      (fun results entry =>
         match snd entry with
         | Some sub =>
             results ++ getAllFilesFromFolder (dir ++ u "/" ++ fst entry) sub
         | None => results ++ [dir ++ u "/" ++ fst entry]
         end) entries acc
    = acc ++ flat_map (fun e => match snd e with
                       | Some sub =>
                           getAllFilesFromFolder (dir ++ u "/" ++ fst e) sub
                       | None => [dir ++ u "/" ++ fst e]
                       end) entries) by exact (H []).
  induction entries as [|e l IH]; intros acc.
  - cbn. now rewrite app_nil_r.
  - cbn [fold_left flat_map]. rewrite IH.
    destruct e as [name [sub|]]; cbn [fst snd]; now rewrite <- app_assoc.
Qed.

(** X19.  [getAllFilesFromFolder] lists the files below a folder, and
    only them: as many paths as there are files, each one starting with
    the folder's own path and a slash; and the folder's path is a mere
    prefix, the rest of each path does not depend on it. *)
Theorem getAllFilesFromFolder_lists_files (folder : Folder) :
  forall dir,
    length (getAllFilesFromFolder dir folder) = fileCount folder
    /\ Forall (fun p => prefixb (dir ++ u "/") p = true)
              (getAllFilesFromFolder dir folder)
    /\ getAllFilesFromFolder dir folder
       = map (app dir) (getAllFilesFromFolder [] folder).
Proof.
  induction folder as [entries IH] using Folder_induction. intros dir.
  rewrite !getAllFiles_listing. cbn [fileCount].
  induction IH as [|e l He Hl IHl].
  - repeat split. constructor.
  - destruct IHl as [I1 [I2 I3]].
    cbn [flat_map fold_right]. rewrite length_app, map_app.
    destruct e as [name [sub|]]; cbn [fst snd] in *.
    + destruct (He (dir ++ u "/" ++ name)) as [S1 [S2 S3]].
      destruct (He ([] ++ u "/" ++ name)) as [_ [_ S4]].
      repeat split.
      * f_equal; [exact S1|exact I1].
      * apply Forall_app. split; [|exact I2].
        eapply Forall_impl; [|exact S2]. intros p Hp.
        apply (prefixb_shorter (dir ++ u "/") (name ++ u "/")).
        now rewrite <- !app_assoc in *.
      * f_equal; [|exact I3].
        rewrite S3, S4, map_map. apply map_ext.
        intros p. cbn [app]. now rewrite <- !app_assoc.
    + repeat split.
      * cbn [length Nat.add]. f_equal. exact I1.
      * apply Forall_app. split; [|exact I2].
        constructor; [|constructor].
        rewrite app_assoc. apply prefixb_app.
      * f_equal. exact I3.
Qed.

(** *** The end of a test *)

(** X20.  As long as the artifact map is undefined, [onTestEnd] records
    nothing, whether or not the reporter has its storage clients: when the
    folder of the test does not exist it does nothing and leaves the
    reporter as it is, and when the folder exists it raises, with no files
    in it too, because the artifacts it has collected are then set in that
    map; at most one upload per file has been started. *)
Theorem onTestEnd_records_nothing (r : Reporter) (cfg : Config)
  (t : Service.Test) (filesOf : jsstring -> option (list jsstring)) :
  artifactMap r = None ->
  config r = Some cfg ->
  (filesOf (_getTestOutputDir relative String_num cfg t) = None ->
   onTestEnd relative String_num env r t filesOf = ([], Ok r))
  /\ (filesOf (_getTestOutputDir relative String_num cfg t) = Some [] ->
      onTestEnd relative String_num env r t filesOf
      = ([], Throw (TypeError (u "set"))))
  /\ (forall files,
        filesOf (_getTestOutputDir relative String_num cfg t) = Some files ->
        exists ups e,
          onTestEnd relative String_num env r t filesOf = (ups, Throw e)
          /\ length ups <= length files).
Proof.
  intros Hm Hc. unfold onTestEnd. rewrite Hc.
  split; [|split].
  - now intros ->.
  - intros ->. cbn [uploadAll]. now rewrite Hm.
  - intros files ->.
    assert (Hu : forall fs ups arts,
              length (fst (uploadAll String_num env r fs ups arts))
              <= length ups + length fs).
    { induction fs as [|f fs IH]; intros ups arts; cbn [uploadAll].
      - cbn. lia.
      - cbv zeta.
        assert (Hl : length (match _createBlobInContainer r f
                                     (_getRelativePath f) with
                             | Ok up => ups ++ [up]
                             | Throw _ => ups
                             end) <= length ups + 1).
        { destruct (_createBlobInContainer r f (_getRelativePath f));
            [rewrite length_app; cbn [length]|]; lia. }
        destruct (_getSasUriForBlob _ r _) as [uri|e].
        + match goal with
          | |- context [uploadAll _ _ r fs ?ups1 ?arts1] =>
              specialize (IH ups1 arts1)
          end.
          cbn [length]. lia.
        + cbn [fst length]. lia. }
    specialize (Hu files [] []). cbn [length Nat.add] in Hu.
    destruct (uploadAll String_num env r files [] []) as [ups [arts|e]].
    + rewrite Hm. exists ups, (TypeError (u "set")). now split.
    + exists ups, e. now split.
Qed.

(** *** The end of the run *)

Lemma addTestCaseResult_without_map (r : Reporter) (t : Test)
  (testcases : list TestCaseResult) :
  artifactMap r = None ->
  _addTestCaseResult relative String_num formatFailure stripAscii r t
    testcases
  = Throw (TypeError (u "get")).
Proof.
  intros H. unfold _addTestCaseResult.
  destruct (skipped t); [|destruct (ok t)]; now rewrite H.
Qed.

Lemma collectSuites_without_map (l : list Suite) : forall st acc,
  artifactMap (reporter st) = None ->
  Exists (fun s => findTest s <> []) l ->
  exists st',
    collectSuites relative String_num formatFailure stripAscii st l acc
    = (st', Throw (TypeError (u "get")))
    /\ reporter st' = reporter st /\ suite st' = suite st
    /\ endTime st' = endTime st
    /\ totalTests st' = totalTests st
    /\ failedTests st' = failedTests st
    /\ skippedTests st' = skippedTests st.
Proof.
  induction l as [|s l IH]; intros st acc Hm Hex; [inversion Hex|].
  cbn [collectSuites]. unfold _getTestSuiteResults.
  destruct (findTest s) as [|t ts] eqn:Et.
  - cbn [visitAll bind l_tests l_skipped l_failures l_duration l_testCases].
    assert (Hl : Exists (fun s => findTest s <> []) l).
    { inversion Hex; subst; [congruence|assumption]. }
    match goal with
    | |- context [collectSuites _ _ _ _ ?st1 l ?acc1] =>
        destruct (IH st1 acc1 Hm Hl) as [st' [E [R [S [T [A [B C]]]]]]]
    end.
    exists st'. rewrite E. cbn in R, S, T, A, B, C.
    repeat split; try assumption; lia.
  - cbn [visitAll]. unfold visit at 1.
    rewrite addTestCaseResult_without_map by assumption.
    cbn [bind]. exists st. repeat split.
Qed.

(** X21.  [onEnd] never gets as far as posting the run: for every state
    of the reporter it ends in an error, because [_registerRunResult]
    calls [_getTestResultBlobs] before [postRunResult]; and [onTimeout]
    is the same call. *)
Theorem service_onEnd_always_raises (st : State) (mono : Z) :
  let o := onEnd relative String_num env formatFailure stripAscii stringify
             st mono in
  raised o <> None
  /\ existsb isPost (effects o) = false
  /\ onTimeout relative String_num env formatFailure stripAscii stringify
       st mono = o.
Proof.
  cbv zeta. unfold onTimeout, onEnd.
  match goal with
  | |- context [_registerTestResults _ _ _ _ _ ?s] =>
      generalize s; intros st0
  end.
  set (o1 := _registerTestResults relative String_num formatFailure
               stripAscii stringify st0).
  assert (H1 : existsb isPost (effects o1) = false).
  { subst o1. unfold _registerTestResults.
    destruct (suite st0) as [top|]; [|reflexivity].
    destruct (collectSuites _ _ _ _ st0 (suites top) []) as [st' [ts|e]];
      [|reflexivity].
    destruct (config (reporter st')) as [cfg|]; [|reflexivity].
    cbn [effects existsb isPost].
    now destruct (_createBlobInContainer _ _ _). }
  destruct (raised o1) as [e|] eqn:E.
  - rewrite E. repeat split; [discriminate|exact H1].
  - unfold _registerRunResult.
    change (_getTestResultBlobs String_num env (reporter (after o1)))
      with (@Throw (list jsstring) (TypeError (u "push"))).
    cbn [raised effects after]. rewrite app_nil_r.
    repeat split; [discriminate|exact H1].
Qed.

(** X22.  As the artifact map is never created, the first test that
    [onEnd] meets stops it: when a file of the run has a test, [onEnd]
    raises the TypeError of reading [get] on undefined, before anything
    is written, zipped or uploaded, and the totals of the tests are as
    they were. *)
Theorem service_onEnd_stops_at_first_test (st : State) (top : Suite)
  (mono : Z) :
  artifactMap (reporter st) = None ->
  suite st = Some top ->
  Exists (fun s => findTest s <> []) (suites top) ->
  let o := onEnd relative String_num env formatFailure stripAscii stringify
             st mono in
  raised o = Some (TypeError (u "get"))
  /\ effects o = []
  /\ totalTests (after o) = totalTests st
  /\ failedTests (after o) = failedTests st
  /\ skippedTests (after o) = skippedTests st.
Proof.
  intros Hm Hs Hex. cbv zeta. unfold onEnd, _registerTestResults.
  cbn [suite]. rewrite Hs.
  match goal with
  | |- context [collectSuites _ _ _ _ ?st1 _ _] =>
      destruct (collectSuites_without_map (suites top) st1 [] Hm Hex)
        as [st' [E [_ [_ [_ [A [B C]]]]]]]
  end.
  rewrite E. cbn [raised effects after]. cbn in A, B, C.
  repeat split; assumption.
Qed.

Lemma collectSuites_of_empty_suites (l : list Suite) : forall st acc,
  Forall (fun s => findTest s = []) l ->
  exists st',
    collectSuites relative String_num formatFailure stripAscii st l acc
    = (st',
       Ok (acc ++ map (fun s => {| ts_path := suiteFile s;
                                   ts_numTotalTests := 0;
                                   ts_numFailedTests := 0;
                                   ts_numSkippedTests := 0;
                                   ts_numPassedTests := 0;
                                   ts_duration := 0;
                                   ts_tests := [] |}) l))
    /\ reporter st' = reporter st
    /\ totalTestSuites st' = (totalTestSuites st + Z.of_nat (length l))%Z
    /\ skippedTestSuites st'
       = (skippedTestSuites st + Z.of_nat (length l))%Z
    /\ failedTestSuites st' = failedTestSuites st
    /\ totalTests st' = totalTests st.
Proof.
  induction l as [|s l IH]; intros st acc Hall.
  - exists st. cbn [collectSuites map length]. rewrite app_nil_r.
    repeat split; cbn; lia.
  - inversion Hall as [|s0 l0 Hs Hl]; subst.
    cbn [collectSuites]. unfold _getTestSuiteResults. rewrite Hs.
    cbn [visitAll bind l_tests l_skipped l_failures l_duration l_testCases].
    match goal with
    | |- context [collectSuites _ _ _ _ ?st1 l ?acc1] =>
        destruct (IH st1 acc1 Hl) as [st' [E [R [T [S [F N]]]]]]
    end.
    exists st'. rewrite E. cbn in R, T, S, F, N.
    cbn [map]. rewrite <- app_assoc. cbn [app length].
    repeat split; try assumption; lia.
Qed.

(** X23.  When no file of the run has a test, [onEnd] gets further
    before it raises: it writes the results of the suites, zips them and
    starts the upload, and only then fails in [_getTestResultBlobs]; and
    every suite has been counted as skipped, since a suite without tests
    has as many skipped tests as it has tests. *)
Theorem service_onEnd_without_tests (st : State) (top : Suite) (cfg : Config)
  (mono : Z) :
  suite st = Some top ->
  config (reporter st) = Some cfg ->
  Forall (fun s => findTest s = []) (suites top) ->
  let o := onEnd relative String_num env formatFailure stripAscii stringify
             st mono in
  raised o = Some (TypeError (u "push"))
  /\ (exists content upload,
        effects o
        = [WriteFile (outputDir cfg ++ u "/testResults.json") content;
           Exec (u "zip " ++ outputDir cfg ++ u "/testResults "
                 ++ outputDir cfg ++ u "/testResults.json");
           upload])
  /\ totalTestSuites (after o)
     = (totalTestSuites st + Z.of_nat (length (suites top)))%Z
  /\ skippedTestSuites (after o)
     = (skippedTestSuites st + Z.of_nat (length (suites top)))%Z
  /\ failedTestSuites (after o) = failedTestSuites st.
Proof.
  intros Hs Hc Hall. cbv zeta. unfold onEnd, _registerTestResults.
  cbn [suite]. rewrite Hs.
  match goal with
  | |- context [collectSuites _ _ _ _ ?st1 _ _] =>
      destruct (collectSuites_of_empty_suites (suites top) st1 [] Hall)
        as [st' [E [R [T [S [F _]]]]]]
  end.
  rewrite E. cbn [reporter] in R. rewrite R, Hc.
  cbn [raised after effects]. unfold _registerRunResult.
  change (_getTestResultBlobs String_num env (reporter st'))
    with (@Throw (list jsstring) (TypeError (u "push"))).
  cbn [raised after effects app]. cbn in T, S, F.
  split; [reflexivity|]. split; [eexists; eexists; reflexivity|].
  repeat split; assumption.
Qed.

End ServiceEndProperties.

Lemma getSasUriForBlob_inserts_path_witness :
  let r := {| Service.config := None;
              Service.readSasToken := VStr (u "https://h/c?sv=1&sig=x");
              Service.writeSasToken := VUndefined;
              Service.blobService := None;
              Service.containerClient := None;
              Service.startTime := 0;
              Service.artifactMap := None |} in
  Service.readSasToken r = VStr (u "https://h/c" ++ u "?sv" ++ u "=1&sig=x")
  /\ ~ In 63%N (u "https://h/c") /\ ~ In 63%N (u "=1&sig=x")
  /\ Service._getSasUriForBlob (fun _ => []) r (u "7/a.png")
     = Service.Ok (u "https://h/c/7/a.png?sv=1&sig=x").
Proof.
  cbv zeta.
  assert (H1 : ~ In 63%N (u "https://h/c")).
  { intros H. cbn in H. repeat (destruct H as [H|H]; [discriminate|]).
    exact H. }
  assert (H2 : ~ In 63%N (u "=1&sig=x")).
  { intros H. cbn in H. repeat (destruct H as [H|H]; [discriminate|]).
    exact H. }
  split; [reflexivity|]. split; [exact H1|]. split; [exact H2|].
  match goal with
  | |- Service._getSasUriForBlob _ ?r _ = _ =>
      exact (getSasUriForBlob_inserts_path (fun _ => []) r (u "https://h/c")
               (u "=1&sig=x") (u "7/a.png") eq_refl H1 H2)
  end.
Defined.

Lemma getSasUriForBlob_without_query_witness :
  let r := {| Service.config := None;
              Service.readSasToken := VStr (u "https://h/c");
              Service.writeSasToken := VUndefined;
              Service.blobService := None;
              Service.containerClient := None;
              Service.startTime := 0;
              Service.artifactMap := None |} in
  Service.readSasToken r = VStr (u "https://h/c")
  /\ ~ In 63%N (u "https://h/c")
  /\ Service._getSasUriForBlob (fun _ => []) r (u "7/a.png")
     = Service.Ok (u "https://h/c/7/a.png?svundefined").
Proof.
  cbv zeta.
  assert (H1 : ~ In 63%N (u "https://h/c")).
  { intros H. cbn in H. repeat (destruct H as [H|H]; [discriminate|]).
    exact H. }
  split; [reflexivity|]. split; [exact H1|].
  match goal with
  | |- Service._getSasUriForBlob _ ?r _ = _ =>
      exact (getSasUriForBlob_without_query (fun _ => []) r (u "https://h/c")
               (u "7/a.png") eq_refl H1)
  end.
Defined.

Lemma output_dir_collision_witness :
  let cfg := {| Service.testDir := u "/w"; Service.outputDir := u "/w/out" |} in
  let t (title : string) :=
    {| Service.spec := {| Service.file := u "/w/a.spec.ts";
                          Service.fullTitle := u title |};
       Service.variation := [(u "browserName", VStr (u "chromium"))] |} in
  ~ In 32%N (u "log") /\ ~ In 32%N (u "in")
  /\ Service._getTestOutputDir relativeInside (fun _ => []) cfg
       (t "log in"%string)
     = Service._getTestOutputDir relativeInside (fun _ => []) cfg
         (t "log-in"%string)
  /\ Service._getTestOutputDir relativeInside (fun _ => []) cfg
       (t "log in"%string)
     = u "/w/out/a/log-in/chromium".
Proof.
  cbv zeta.
  assert (H1 : ~ In 32%N (u "log")).
  { intros H. cbn in H. repeat (destruct H as [H|H]; [discriminate|]).
    exact H. }
  assert (H2 : ~ In 32%N (u "in")).
  { intros H. cbn in H. repeat (destruct H as [H|H]; [discriminate|]).
    exact H. }
  split; [exact H1|]. split; [exact H2|]. split; [|reflexivity].
  exact (proj1 (proj2 (output_dir_collision relativeInside (fun _ => [])
           {| Service.testDir := u "/w"; Service.outputDir := u "/w/out" |}
           (u "/w/a.spec.ts") [(u "browserName", VStr (u "chromium"))]
           (u "log") (u "in") H1 H2))).
Defined.

Lemma output_dir_drops_eight_units_witness :
  let cfg := {| Service.testDir := u "/w"; Service.outputDir := u "/w/out" |} in
  let t :=
    {| Service.spec := {| Service.file := u "/w/a.spec.ts";
                          Service.fullTitle := u "works" |};
       Service.variation := [(u "browserName", VStr (u "chromium"))] |} in
  relativeInside (Service.testDir cfg) (Service.file (Service.spec t))
  = u "a" ++ u ".spec.ts"
  /\ length (u ".spec.ts") = 8
  /\ Service._getTestOutputDir relativeInside (fun _ => []) cfg t
     = u "/w/out/a/works/chromium".
Proof.
  cbv zeta. split; [reflexivity|]. split; [reflexivity|].
  exact (output_dir_drops_eight_units relativeInside (fun _ => [])
           {| Service.testDir := u "/w"; Service.outputDir := u "/w/out" |}
           {| Service.spec := {| Service.file := u "/w/a.spec.ts";
                                 Service.fullTitle := u "works" |};
              Service.variation := [(u "browserName", VStr (u "chromium"))] |}
           (u "a") (u ".spec.ts") eq_refl eq_refl).
Defined.

Lemma service_onEnd_stops_at_first_test_witness :
  let t :=
    {| ServiceEnd.test :=
         {| Service.spec := {| Service.file := u "/w/a.spec.ts";
                               Service.fullTitle := u "works" |};
            Service.variation := [] |};
       ServiceEnd.skipped := false; ServiceEnd.ok := true;
       ServiceEnd.results := [{| ServiceEnd.duration := 3 |}] |} in
  let top :=
    ServiceEnd.MkSuite []
      [ServiceEnd.MkSuite (u "/w/a.spec.ts") [] [[t]]] [] in
  let r :=
    fst (Service.onBegin (fun _ => []) (fun _ => VUndefined)
           Service.newReporter
           {| Service.testDir := u "/w"; Service.outputDir := u "/w/out" |}
           0 Service.emptyRuntime) in
  let st := ServiceEnd.begun r top in
  let o := ServiceEnd.onEnd relativeInside (fun _ => [])
             (fun _ => VUndefined) (fun _ _ => []) (fun s => s)
             (fun _ => []) st 5 in
  Service.artifactMap (ServiceEnd.reporter st) = None
  /\ ServiceEnd.suite st = Some top
  /\ Exists (fun s => ServiceEnd.findTest s <> []) (ServiceEnd.suites top)
  /\ ServiceEnd.raised o = Some (Service.TypeError (u "get"))
  /\ ServiceEnd.effects o = [].
Proof.
  cbv zeta.
  match goal with
  | |- _ /\ _ /\ ?E /\ _ => assert (Hex : E)
  end.
  { apply Exists_cons_hd. discriminate. }
  split; [reflexivity|]. split; [reflexivity|]. split; [exact Hex|].
  match goal with
  | |- ServiceEnd.raised (ServiceEnd.onEnd _ _ _ _ _ _ ?st ?m) = _ /\ _ =>
      pose proof (service_onEnd_stops_at_first_test relativeInside
                    (fun _ => []) (fun _ => VUndefined) (fun _ _ => [])
                    (fun s => s) (fun _ => []) st _ m eq_refl eq_refl Hex)
        as H
  end.
  cbv zeta in H. destruct H as [H1 [H2 _]]. split; assumption.
Defined.


Lemma onTestEnd_records_nothing_witness :
  let cfg := {| Service.testDir := u "/w"; Service.outputDir := u "/w/out" |} in
  let r :=
    fst (Service.onBegin (fun _ => []) (fun _ => VUndefined)
           Service.newReporter cfg 0 Service.emptyRuntime) in
  let t :=
    {| Service.spec := {| Service.file := u "/w/a.spec.ts";
                          Service.fullTitle := u "works" |};
       Service.variation := [(u "browserName", VStr (u "chromium"))] |} in
  Service.artifactMap r = None
  /\ Service.config r = Some cfg
  /\ Service.onTestEnd relativeInside (fun _ => []) (fun _ => VUndefined)
       r t (fun _ => Some [])
     = ([], Service.Throw (Service.TypeError (u "set"))).
Proof.
  cbv zeta. split; [reflexivity|]. split; [reflexivity|].
  match goal with
  | |- Service.onTestEnd _ _ _ ?r ?t ?f = _ =>
      exact (proj1 (proj2 (onTestEnd_records_nothing relativeInside
               (fun _ => []) (fun _ => VUndefined) r
               {| Service.testDir := u "/w"; Service.outputDir := u "/w/out" |}
               t f eq_refl eq_refl)) eq_refl)
  end.
Defined.

Lemma service_onEnd_without_tests_witness :
  let cfg := {| Service.testDir := u "/w"; Service.outputDir := u "/w/out" |} in
  let top :=
    ServiceEnd.MkSuite [] [ServiceEnd.MkSuite (u "/w/a.spec.ts") [] []] [] in
  let r :=
    fst (Service.onBegin (fun _ => []) (fun _ => VUndefined)
           Service.newReporter cfg 0 Service.emptyRuntime) in
  let st := ServiceEnd.begun r top in
  let o := ServiceEnd.onEnd relativeInside (fun _ => [])
             (fun _ => VUndefined) (fun _ _ => []) (fun s => s)
             (fun _ => u "[]") st 5 in
  ServiceEnd.suite st = Some top
  /\ Service.config (ServiceEnd.reporter st) = Some cfg
  /\ Forall (fun s => ServiceEnd.findTest s = []) (ServiceEnd.suites top)
  /\ ServiceEnd.raised o = Some (Service.TypeError (u "push"))
  /\ ServiceEnd.skippedTestSuites (ServiceEnd.after o) = 1%Z.
Proof.
  cbv zeta.
  match goal with
  | |- _ /\ _ /\ ?E /\ _ => assert (Hall : E)
  end.
  { repeat constructor. }
  split; [reflexivity|]. split; [reflexivity|]. split; [exact Hall|].
  match goal with
  | |- ServiceEnd.raised (ServiceEnd.onEnd _ _ _ _ _ _ ?st ?m) = _ /\ _ =>
      pose proof (service_onEnd_without_tests relativeInside
                    (fun _ => []) (fun _ => VUndefined) (fun _ _ => [])
                    (fun s => s) (fun _ => u "[]") st _
                    {| Service.testDir := u "/w";
                       Service.outputDir := u "/w/out" |}
                    m eq_refl eq_refl Hall)
        as H
  end.
  cbv zeta in H. destruct H as [H1 [_ [_ [H4 _]]]].
  split; [exact H1|exact H4].
Defined.
